(* ===== verification/_CoqProject ===== *)
-Q . S2P
Prelude.v
Numeric.v
ScopeData.v
Transform.v
Instrument.v
Worker.v
Loop.v
Display.v
Threads.v
WorkerSteps.v
System.v
Refinement.v
LiveView.v
Crange.v
Diagnostics.v
