(* ===== verification/Prelude.v ===== *)
(** * Rigol Live Viewer: a verification development

    The program (src/Rigol_Live_View.py) polls a Rigol DS2072 oscilloscope
    over VISA and plots its two channels live.  It has two active parts that
    share Python objects:

    - the acquisition thread [Rigol_get_Data] (lines 70-180): [run] loops
      forever; while [self.scope] is open, [getData_online] reads both
      channels (SCPI writes and queries), converts the bytes to time and
      voltage arrays with numpy, stores them into one [ScopeData_nativ]
      object per channel (kept in [self.Scope_wave]) and the loop emits the
      two objects by reference; a disconnect request is a flag honoured at
      the end of a pass;
    - the main window [Rigol_Live] (lines 183-365): slots store the
      received references in its own [Scope_wave] and show status texts; a
      500 ms timer runs [plot_channel], which reads the shared objects and
      draws them; [connect_tool] and [Disconnect_tool] call the worker's
      methods directly from the GUI thread.

    Files, in dependency order:
    - [Prelude] (this file): Python exceptions as values ([py_exc]); the
      state-and-exception monad [PyM] in which every method is written (an
      exception keeps the effects before it); invariant combinators
      [py_preserves] and [py_mono]; finite runs [star] and infinite runs
      [infseq] of a step relation; shared list and map lemmas; the hint
      databases [rigol] and [rigol_rw].
    - [Numeric]: the class [Num] of the float operations the code uses,
      with instances for exact rationals [Q] (the algebraic theorems) and
      primitive IEEE-754 binary64 [float] (numpy's float64, bit for bit on
      concrete inputs); numpy's [np.max]/[np.min] and Python's
      [max]/[min] with their [ValueError] on empty arrays.
    - [ScopeData]: the [ScopeData_nativ] object, its constructor and its
      attribute assignments as [field_write]s.
    - [Transform]: lines 159-165 as numpy evaluates them (broadcast array
      operations, integer arithmetic until a float operand), and the spec's
      per-sample formulas [time_at]/[voltage_at].
    - [Instrument]: the VISA resource interface [VisaResource] the worker
      is written against, and the environment model [Rigol]: a DS2072
      keeping the format, source and mode selected by [:WAV:] writes,
      answering the exact command strings the code sends, logging them,
      and optionally timing out after a number of I/O operations.
    - [Worker]: the thread's attributes ([Rigol_get_Data]), the world it
      acts on (the heap of shared objects, the emitted signals, the
      reachable instruments, the open VISA sessions and resource
      managers), and every method: [getData_online] (split as
      [ensure_channel], [read_waveform] over the interface and the stores),
      [connect_scope_ADR], [Disconnect_scope] and one pass of [run],
      [run_iteration]; the refinement and invariant theorems of the
      acquisition (C1, C6, C7) and of the connection calls (C10, C11).
    - [Loop]: the thread's life as the transition system [worker_step]:
      loop passes, the crash of the thread on an uncaught exception, the
      GUI's connect/disconnect calls and the instrument acquiring new data,
      in any interleaving (each call atomic), and [loop_pass], one pass
      that returns normally; theorems C8, C9, C12, C13, C16.
    - [Display]: the window's state ([Rigol_Live], the pyqtgraph items as
      the data and ranges the code sets on them), its slots and
      [plot_channel] with all its raise points; theorems C14, C15, C31.
    - [Threads]: a thread as a resumption [res] of atomic statements built
      from [PyM] computations ([atom]), run alone by [run_res]; [res_mono]
      for invariants of a state another thread also changes; pointwise
      equality [py_equiv] with its [Proper] instances.
    - [WorkerSteps]: one pass of [run] statement by statement
      ([pass_res]: the scope test, each channel's object creation and
      instrument I/O, each of the eight attribute assignments, each
      emission, the stop test and the three closing statements); run
      alone it is exactly [run_iteration]; every statement only moves
      the world forward ([world_grows]).
    - [System]: the whole program, the GUI thread and the acquisition
      thread as one transition system [sys_step] driven by a scheduler
      ([event]): the worker's next statement, delivery of the oldest
      queued signal to its slot, the 500 ms timer, the menu actions
      ([connect_tool], [Disconnect_tool], Add Connection, Exit), the
      address box and the instrument acquiring new waveforms; theorems
      C25, C26, C27, C28, C29, C32, C33.
    - [Refinement]: the worker scheduled alone in [System] performs
      exactly one [run_iteration] per pass, which carries the big-step
      theorems of [Worker] and [Loop] over to the schedules of [System]
      with no GUI event.
    - [LiveView]: the components composed: one worker pass, the delivery
      of its signals and a timer tick put the spec's snapshot of both
      channels on screen (C30).
    - [Crange]: the generator [crange] (lines 398-403), lazily
      ([crange_gen]) and as a finite list by well-founded recursion
      (Equations); theorems C17-C19.
    - [Diagnostics]: [wait_ready] and [Rigol_ESR] (lines 367-396) against
      a VISA [write]/[query] interface with a scripted instrument, and the
      Python built-ins they use ([int], [str.strip], [ljust], [print]);
      theorems C20-C24.
    [Transform] holds C2-C5.  Each file ends with the witnesses of
    its claims, on a concrete DS2072 with two channels.

    What the theorems show (claim ids of PROJECT.json):
    - the acquisition: [getData_online] on a healthy scope refines the
      spec's poll cycle, each channel's object holding exactly the
      spec's snapshot (C1); numpy's vectorised arithmetic equals the
      per-sample formulas (C2, C3); the int64 stage of line 165 stays in
      [-1280, 1270], so it never wraps and converts to float64 exactly
      (C4); the extremes of the time axis are its first and last samples
      (C5); the SCPI command order (C6);
    - the thread alone: the heap invariant holds after any acquisition on
      any instrument, raising or not (C7), and every reachable state
      satisfies the heap and connection invariants (C8, rule induction); a
      disconnect takes effect after one more pass (C9), is harmless when
      idle (C10); a failed connect keeps the previous connection state and
      leaks a resource manager (C11); on healthy instruments every pass
      of [run] returns normally, forever (C12, [infseq] of loop passes); it republishes the same objects,
      overwritten in place (C13); a timeout in mid-acquisition kills the
      thread for good (C16);
    - the window: a redraw before data raises [KeyError] (C14); the first
      draw (C15); in float64 a later draw re-sets the horizontal range
      exactly when an extreme of the time axis is NaN, since line 356
      compares each extreme with itself (C31); Connect uses the text of the editable
      address box, typed or chosen, and opens a session there or keeps
      the old one when no instrument answers (C32);
    - the two threads together: under every interleaving no [finished]
      signal is ever emitted (C25), the window's dictionary holds the
      worker's own objects and every data signal its channel's object
      (C26); a redraw can pair the new time axis
      with the old voltages (C27) or raise on arrays of different lengths
      (C29), and a Connect issued during a disconnect is lost while its
      session stays open (C28); end to end, one undisturbed pass, the
      delivery of its four signals and a timer tick show both channels
      exactly as the spec computes them from the samples read (C30); once
      the acquisition thread has died nothing restarts it, not even
      Connect, and no signal or object changes again (C33);
    - the helpers: [crange] terminates for a positive step with exactly
      [(end - start) / step + 1] chunks (C17), its chunks cover
      [start..end] in order (C18), and it never ends for a step [<= 0]
      (C19); the status-register table reports bit [7 - i] of the
      response in row [i], and reads any byte back (C20);
      [Rigol_ESR]'s report and command order (C21) and its [ValueError]
      path (C22); [wait_ready] ends on the first reply [1] (C23) and never
      ends on an instrument that stays busy (C24).

    Bounds and fuel: [run] is modelled one pass at a time and its
    non-termination as [infseq] of the relation [loop_pass] (one pass of
    [run_iteration] that returns normally); the only fuel is
    that of [wait_ready]'s polling loop, a bound on its turns: C23 shows
    that [length ns] turns suffice when the [ns] replies before the first
    [1] are not [1], and C24 that no fuel suffices for a busy instrument.
    [crange_gen n] is the first [n] values of the generator, and [crange]
    is defined by well-founded recursion on [end - step + 1 - i].
    Integers: the int64 intermediates of line 165 lie in [-1280, 1270],
    far from any overflow, so they are kept as [Z]; the float64
    conversion of these integers is exact; Python's [int] and [&] are
    unbounded, as [Z] and [Z.land].  The acquisition theorems C1, C2, C3
    and C30 hold for every instance of [Num], float64 included; C5 is
    stated over exact rationals, where rounding is not modelled (its
    float64 counterpart needs a finite preamble), and C31 is a theorem of
    the float64 instance.

    Interleaving: a Python thread can be preempted between bytecodes; the
    model interleaves at statement boundaries of the worker (the object
    creation of lines 129-132 and the I/O of lines 141-156 being one
    step each) and runs each GUI handler as one step.  Finer
    interleavings only add behaviours, so the reachable states exhibited
    (C27, C28, C29) are real ones; the invariants (C25, C26, C33) are
    proved at this granularity.

    Not modelled: the GUI chrome (menus, dialogs, layout, pyqtgraph
    configuration) beyond what the menu actions do, pyvisa's transport and
    resource discovery (the instruments reachable by address are part of
    the world), time and [time.sleep], the [print] calls outside the
    diagnostics, status-bar timeouts as time, non-ASCII whitespace and
    digits in [int] and [strip], interleaving inside a GUI handler, and
    the process teardown once [app.exec()] has returned (the model lets
    the worker run on after Exit; Python then destroys a [QThread] that
    is still running). *)

From Stdlib Require Import ZArith.
From stdpp Require Import base list strings gmap.

(** ** Python exceptions

    The program never declares exceptions of its own; the ones that can
    escape its code are those raised by the libraries it calls.  They are
    kept as values so that every error path is a branch of the model. *)

Inductive py_exc : Type :=
  | VisaIOError            (** pyvisa: I/O failure or timeout *)
  | IndexError             (** indexing [[0]] into an empty reply *)
  | KeyError (k : string)  (** dict lookup of a missing key *)
  | ValueError             (** numpy reduction of an empty array *)
  | AttributeError         (** attribute access on [None] *)
  | ShapeError.            (** pyqtgraph: x and y arrays of different shapes *)

#[export] Instance py_exc_eq_dec : EqDecision py_exc.
Proof. solve_decision. Qed.

(** ** The Python state-and-exception monad

    A Python statement sequence acts on a state and may raise.  An exception
    does not roll back what ran before it: the state is returned in both
    cases, as the interpreter leaves it. *)

Definition PyM (S X : Type) : Type := S -> S * (py_exc + X).

Definition py_ret {S X} (v : X) : PyM S X := fun s => (s, inr v).
Definition py_raise {S X} (e : py_exc) : PyM S X := fun s => (s, inl e).
Definition py_bind {S X Y} (m : PyM S X) (k : X -> PyM S Y) : PyM S Y :=
  fun s => match m s with
           | (s', inl e) => (s', inl e)
           | (s', inr v) => k v s'
           end.
Definition py_get {S} : PyM S S := fun s => (s, inr s).
Definition py_put {S} (s : S) : PyM S unit := fun _ => (s, inr tt).
Definition py_modify {S} (f : S -> S) : PyM S unit := fun s => (f s, inr tt).

(** Python's [for] over a list, running the body on each element in order
    and stopping at the first exception. *)
Fixpoint py_for {S X} (l : list X) (body : X -> PyM S unit) : PyM S unit :=
  match l with
  | [] => py_ret tt
  | a :: l' => py_bind (body a) (fun _ => py_for l' body)
  end.

Declare Scope py_scope.
Delimit Scope py_scope with py.
Notation "x <- m ;; k" := (py_bind m (fun x => k))
  (at level 100, m at next level, right associativity) : py_scope.
Notation "m ;;; k" := (py_bind m (fun _ => k))
  (at level 100, right associativity) : py_scope.

(** ** Generic lemmas on the monad *)

Create HintDb rigol.
Create Rewrite HintDb rigol_rw.

Section PyMonad.
Context {S : Type}.

Lemma py_bind_ret_l {X Y} (v : X) (k : X -> PyM S Y) s :
  py_bind (py_ret v) k s = k v s.
Proof. reflexivity. Qed.

Lemma py_bind_raise {X Y} e (k : X -> PyM S Y) s :
  py_bind (py_raise e) k s = (s, inl e).
Proof. reflexivity. Qed.

Lemma py_bind_assoc {X Y Z'} (m : PyM S X) (k : X -> PyM S Y) (h : Y -> PyM S Z') s :
  py_bind (py_bind m k) h s = py_bind m (fun v => py_bind (k v) h) s.
Proof. unfold py_bind. destruct (m s) as [s' [e|v]]; reflexivity. Qed.

(** Running a bind whose first half returns. *)
Lemma py_bind_inr {X Y} (m : PyM S X) (k : X -> PyM S Y) s s' v :
  m s = (s', inr v) -> py_bind m k s = k v s'.
Proof. unfold py_bind. by intros ->. Qed.

Lemma py_bind_inl {X Y} (m : PyM S X) (k : X -> PyM S Y) s s' e :
  m s = (s', inl e) -> py_bind m k s = (s', inl e).
Proof. unfold py_bind. by intros ->. Qed.

Lemma py_for_app {X} (l1 l2 : list X) (body : X -> PyM S unit) s :
  py_for (l1 ++ l2) body s = py_bind (py_for l1 body) (fun _ => py_for l2 body) s.
Proof.
  revert s. induction l1 as [|a l1 IH]; intros s; simpl; [reflexivity|].
  rewrite py_bind_assoc. unfold py_bind at 1 2.
  destruct (body a s) as [s' [e|[]]]; [reflexivity|]. apply IH.
Qed.

(** An invariant of the state that every step of a computation keeps holds
    at its end, whether it returns or raises. *)
Definition py_preserves {X} (P : S -> Prop) (m : PyM S X) : Prop :=
  forall s, P s -> P (m s).1.

Lemma py_preserves_ret {X} P (v : X) : py_preserves P (py_ret v).
Proof. by intros s. Qed.

Lemma py_preserves_bind {X Y} P (m : PyM S X) (k : X -> PyM S Y) :
  py_preserves P m -> (forall v, py_preserves P (k v)) -> py_preserves P (py_bind m k).
Proof.
  intros Hm Hk s Hs. unfold py_bind. specialize (Hm s Hs).
  destruct (m s) as [s' [e|v]]; simpl in *; [done|]. by apply Hk.
Qed.

Lemma py_preserves_get P : py_preserves P py_get.
Proof. by intros s. Qed.

(** A continuation that reads the state sees a state satisfying [P]. *)
Lemma py_preserves_get_bind {Y} P (k : S -> PyM S Y) :
  (forall v, P v -> P (k v v).1) -> py_preserves P (py_bind py_get k).
Proof. intros Hk s Hs. by apply Hk. Qed.

Lemma py_preserves_for {X} P (l : list X) body :
  (forall a, py_preserves P (body a)) -> py_preserves P (py_for l body).
Proof.
  intros Hb. induction l as [|a l IH]; simpl.
  - apply py_preserves_ret.
  - apply py_preserves_bind; [apply Hb | intros; apply IH].
Qed.
(** A preorder between the state before and after a computation. *)
Definition py_mono {X} (Rl : S -> S -> Prop) (m : PyM S X) : Prop :=
  forall s, Rl s (m s).1.

Context (Rl : S -> S -> Prop) `{!PreOrder Rl}.

Lemma py_mono_ret {X} (v : X) : py_mono Rl (py_ret v).
Proof. intros s. simpl. reflexivity. Qed.

Lemma py_mono_get : py_mono Rl py_get.
Proof. intros s. simpl. reflexivity. Qed.

Lemma py_mono_bind {X Y} (m : PyM S X) (k : X -> PyM S Y) :
  py_mono Rl m -> (forall v, py_mono Rl (k v)) -> py_mono Rl (py_bind m k).
Proof.
  intros Hm Hk s. unfold py_bind. specialize (Hm s).
  destruct (m s) as [s' [e|v]]; simpl in *; [done|]. etrans; [exact Hm|apply Hk].
Qed.

Lemma py_mono_for {X} (l : list X) body :
  (forall a, py_mono Rl (body a)) -> py_mono Rl (py_for l body).
Proof.
  intros Hb. induction l as [|a l IH]; simpl; [apply py_mono_ret|].
  apply py_mono_bind; [apply Hb | intros; apply IH].
Qed.
Lemma py_mono_preserves {X} (P : S -> Prop) (m : PyM S X) :
  (forall s s', P s -> Rl s s' -> P s') -> py_mono Rl m -> py_preserves P m.
Proof. intros HP Hm s Hs. eauto. Qed.
End PyMonad.

#[export] Hint Resolve py_preserves_ret py_preserves_get py_preserves_for : rigol.

#[export] Hint Resolve py_mono_ret py_mono_get py_mono_for : rigol.

(** Decompose a [py_mono] goal along the binds of a computation. *)
Ltac py_mono_steps Rl :=
  repeat (apply (py_mono_bind Rl); [solve [eauto with rigol] | intros ?]).

(** Decompose a [py_preserves] goal along the binds of a computation. *)
Ltac py_preserves_steps :=
  repeat (apply py_preserves_bind; [solve [eauto with rigol] | intros ?]).

(** ** Generic list lemmas *)

Lemma lookup_zip_with_Some {A B C} (f : A -> B -> C) (l1 : list A) (l2 : list B) i a b :
  l1 !! i = Some a -> l2 !! i = Some b -> zip_with f l1 l2 !! i = Some (f a b).
Proof. intros H1 H2. rewrite lookup_zip_with, H1, H2. reflexivity. Qed.

Lemma lookup_seq_lt (n i : nat) : i < n -> seq 0 n !! i = Some i.
Proof. intros Hi. rewrite lookup_seq. split; [lia|done]. Qed.

From Stdlib Require Import Sorting.Sorted.

(** A function strictly monotone in the index maps [seq] to a strongly
    sorted list. *)
Lemma StronglySorted_map_seq {A} (R : A -> A -> Prop) (f : nat -> A) (s n : nat) :
  (forall i j, i < j -> R (f i) (f j)) -> StronglySorted R (map f (seq s n)).
Proof.
  intros Hf. revert s. induction n as [|n IH]; intros s; simpl; constructor.
  - apply IH.
  - apply List.Forall_forall. intros b Hb. apply in_map_iff in Hb as (j & <- & Hj).
    apply in_seq in Hj. apply Hf. lia.
Qed.

(** ** Generic map lemmas *)

Lemma alter_alter_same {K V} `{Countable K} (f g : V -> V) (i : K) (m : gmap K V) :
  alter f i (alter g i m) = alter (fun v => f (g v)) i m.
Proof.
  apply map_eq. intros j. destruct (decide (i = j)) as [->|?].
  - rewrite !lookup_alter_eq. by destruct (m !! j).
  - by rewrite !lookup_alter_ne.
Qed.

(** ** Transition systems

    Finite runs are the reflexive-transitive closure of a step relation;
    an infinite run from a state exists when some set of states contains
    it and lets every member step to a member (a coinduction principle
    stated without coinductive types). *)

Section Transitions.
Context {St : Type} (step : St -> St -> Prop).

Inductive star : St -> St -> Prop :=
  | star_refl s : star s s
  | star_step s1 s2 s3 : step s1 s2 -> star s2 s3 -> star s1 s3.

Definition infseq (s : St) : Prop :=
  exists X : St -> Prop, X s /\ forall s1, X s1 -> exists s2, step s1 s2 /\ X s2.

Lemma star_trans s1 s2 s3 : star s1 s2 -> star s2 s3 -> star s1 s3.
Proof. induction 1; eauto using star. Qed.

(** An invariant of [step] holds along every finite run. *)
Lemma star_invariant (P : St -> Prop) :
  (forall s1 s2, P s1 -> step s1 s2 -> P s2) -> forall s1 s2, star s1 s2 -> P s1 -> P s2.
Proof. intros Hstep s1 s2 Hs. induction Hs; eauto. Qed.

(** A set closed under some step from each member yields infinite runs. *)
Lemma infseq_of_invariant (P : St -> Prop) :
  (forall s1, P s1 -> exists s2, step s1 s2 /\ P s2) -> forall s, P s -> infseq s.
Proof. intros HP s Hs. by exists P. Qed.
End Transitions.

#[export] Hint Constructors star : rigol.
