(* ===== verification/Numeric.v ===== *)
(** Numbers as the program computes with them.

    numpy computes the waveform in float64.  The computations are written
    once, over the operations of the class [Num]; the instance [Q_Num]
    (exact rationals) carries the algebraic theorems and the instance
    [float_Num] (Rocq's primitive IEEE-754 binary64 floats, the format of
    numpy's float64) replays the program's arithmetic bit for bit on
    concrete inputs.  numpy's [np.max]/[np.min] reductions and Python's
    [min]/[max] builtins are modelled here too. *)

From Stdlib Require Import ZArith QArith Qminmax Lqa Floats.
From stdpp Require Import base list.
From S2P Require Import Prelude.

Class Num (A : Type) := {
  num_of_Z : Z -> A;               (** int64 -> float64 conversion *)
  num_add : A -> A -> A;
  num_sub : A -> A -> A;
  num_mul : A -> A -> A;
  num_div : A -> A -> A;
  num_eqb : A -> A -> bool;        (** Python [==] on floats *)
  num_ltb : A -> A -> bool;        (** Python [<] on floats *)
  num_maximum : A -> A -> A;       (** numpy's [maximum] ufunc *)
  num_minimum : A -> A -> A        (** numpy's [minimum] ufunc *)
}.

Declare Scope num_scope.
Delimit Scope num_scope with num.
Notation "a + b" := (num_add a b) : num_scope.
Notation "a - b" := (num_sub a b) : num_scope.
Notation "a * b" := (num_mul a b) : num_scope.
Notation "a / b" := (num_div a b) : num_scope.

(** ** Exact rationals *)

#[export] Instance Q_Num : Num Q := {
  num_of_Z := inject_Z;
  num_add := Qplus; num_sub := Qminus; num_mul := Qmult; num_div := Qdiv;
  num_eqb := Qeq_bool;
  num_ltb := fun a b => negb (Qle_bool b a);
  num_maximum := Qmax; num_minimum := Qmin
}.

(** ** IEEE-754 binary64, numpy's float64 *)

(** numpy converts an int64 to float64 by rounding to nearest; for the
    magnitudes the program produces (below 2^53) the conversion is exact,
    which is what [of_uint63] does on the absolute value. *)
Definition float_of_Z (z : Z) : float :=
  if (z <? 0)%Z then PrimFloat.opp (PrimFloat.of_uint63 (Uint63.of_Z (- z)))
  else PrimFloat.of_uint63 (Uint63.of_Z z).

(** numpy's [maximum] propagates a NaN operand. *)
Definition float_maximum (a b : float) : float :=
  if PrimFloat.is_nan a then a else if PrimFloat.is_nan b then b
  else if PrimFloat.ltb a b then b else a.
Definition float_minimum (a b : float) : float :=
  if PrimFloat.is_nan a then a else if PrimFloat.is_nan b then b
  else if PrimFloat.ltb b a then b else a.

#[export] Instance float_Num : Num float := {
  num_of_Z := float_of_Z;
  num_add := PrimFloat.add; num_sub := PrimFloat.sub;
  num_mul := PrimFloat.mul; num_div := PrimFloat.div;
  num_eqb := PrimFloat.eqb; num_ltb := PrimFloat.ltb;
  num_maximum := float_maximum; num_minimum := float_minimum
}.

(** ** numpy reductions and Python builtins over arrays *)

Section Reductions.
Context {A : Type} `{Num A}.

(** [np.max a]: raises [ValueError] on a zero-size array. *)
Definition np_max (l : list A) : py_exc + A :=
  match l with
  | [] => inl ValueError
  | a :: l' => inr (foldl num_maximum a l')
  end.

Definition np_min (l : list A) : py_exc + A :=
  match l with
  | [] => inl ValueError
  | a :: l' => inr (foldl num_minimum a l')
  end.

(** Python's builtin [max(seq)] keeps the first maximal element and
    compares with [<]; it also raises [ValueError] on an empty sequence. *)
Definition py_max (l : list A) : py_exc + A :=
  match l with
  | [] => inl ValueError
  | a :: l' => inr (foldl (fun m b => if num_ltb m b then b else m) a l')
  end.

Definition py_min (l : list A) : py_exc + A :=
  match l with
  | [] => inl ValueError
  | a :: l' => inr (foldl (fun m b => if num_ltb b m then b else m) a l')
  end.
End Reductions.

(** ** Reductions over sorted rational arrays *)

From Stdlib Require Import Sorting.Sorted.
Local Open Scope Q_scope.

Lemma Qmax_lt_r (a b : Q) : a < b -> Qmax a b = b.
Proof. intros Hab. unfold Qmax, GenericMinMax.gmax. by rewrite (proj1 (Qlt_alt a b) Hab). Qed.

Lemma Qmin_lt_l (a b : Q) : a < b -> Qmin a b = a.
Proof. intros Hab. unfold Qmin, GenericMinMax.gmin. by rewrite (proj1 (Qlt_alt a b) Hab). Qed.

(** On a strictly increasing array, numpy's maximum is the last element and
    its minimum the first, as values (not only up to [Qeq]). *)
Lemma foldl_Qmax_sorted (a : Q) (l : list Q) :
  StronglySorted Qlt (a :: l) -> foldl Qmax a l = List.last (a :: l) 0.
Proof.
  revert a. induction l as [|b l IH]; intros a Hs; [reflexivity|].
  inversion Hs as [|? ? Hs' Hall]; subst. inversion Hall; subst.
  simpl. rewrite Qmax_lt_r by done. by rewrite IH.
Qed.

Lemma foldl_Qmin_sorted (a : Q) (l : list Q) :
  StronglySorted Qlt (a :: l) -> foldl Qmin a l = a.
Proof.
  revert a. induction l as [|b l IH]; intros a Hs; [reflexivity|].
  inversion Hs as [|? ? Hs' Hall]; subst. inversion Hall as [|? ? Hab Hall']; subst.
  simpl. rewrite Qmin_lt_l by done. apply IH.
  constructor; [by inversion Hs' | done].
Qed.
