(* ===== verification/ScopeData.v ===== *)
(** The waveform object [ScopeData_nativ] (src/Rigol_Live_View.py, lines
    41-67): its attributes, the constructor [__init__], and the attribute
    assignments the acquisition code performs on it, one [field_write] per
    Python assignment statement, so that a block of assignments is a list
    of writes applied in source order. *)

From Stdlib Require Import ZArith.
From stdpp Require Import base list strings.
From S2P Require Import Prelude Numeric.

Section ScopeData.
Context {A : Type} `{Num A}.

(** The attributes of a [ScopeData_nativ] instance.  [horUnit] is not
    set by [__init__]: the acquisition code adds it later (line 170), so
    it is [None] while the attribute does not exist. *)
Record ScopeData_nativ := mkScopeData {
  path : string;
  x : list A;
  y : list A;
  endianness : string;
  instrumentName : string;
  instrumentNumber : Z;
  templateName : string;
  waveSource : string;
  waveArrayCount : Z;
  verticalCoupling : string;
  verticalGain : Z;
  verticalOffset : Z;
  bandwidthLimit : string;
  recordType : string;
  processingDone : string;
  timeBase : string;
  vertUnit : string;
  triggerTime : string;
  horizInterval : A;
  horizOffset : A;
  zerocross : A;
  horUnit : option string
}.

(** [ScopeData_nativ.__init__] (lines 42-67).  The second assignments of
    [self.y] and [self.x] (lines 66-67) repeat the first ones. *)
Definition ScopeData_nativ_init : ScopeData_nativ := {|
  path := ""; x := []; y := []; endianness := "<";
  instrumentName := "Native"; instrumentNumber := 1;
  templateName := ""; waveSource := ""; waveArrayCount := 1;
  verticalCoupling := ""; verticalGain := 1; verticalOffset := 0;
  bandwidthLimit := ""; recordType := ""; processingDone := "";
  timeBase := ""; vertUnit := ""; triggerTime := "";
  horizInterval := num_of_Z 1; horizOffset := num_of_Z 0;
  zerocross := num_of_Z 0; horUnit := None
|}.

(** The attribute assignments made by [Rigol_get_Data.getData_online]. *)
Inductive field_write :=
  | Set_x (v : list A)
  | Set_y (v : list A)
  | Set_waveArrayCount (n : Z)
  | Set_horizInterval (v : A)
  | Set_horUnit (s : string)
  | Set_horizOffset (v : A)
  | Set_path (s : string)
  | Set_vertUnit (s : string).

Definition apply_write (w : field_write) (d : ScopeData_nativ) : ScopeData_nativ :=
  match w with
  | Set_x v => {| path := path d; x := v; y := y d; endianness := endianness d;
      instrumentName := instrumentName d; instrumentNumber := instrumentNumber d;
      templateName := templateName d; waveSource := waveSource d;
      waveArrayCount := waveArrayCount d; verticalCoupling := verticalCoupling d;
      verticalGain := verticalGain d; verticalOffset := verticalOffset d;
      bandwidthLimit := bandwidthLimit d; recordType := recordType d;
      processingDone := processingDone d; timeBase := timeBase d;
      vertUnit := vertUnit d; triggerTime := triggerTime d;
      horizInterval := horizInterval d; horizOffset := horizOffset d;
      zerocross := zerocross d; horUnit := horUnit d |}
  | Set_y v => {| path := path d; x := x d; y := v; endianness := endianness d;
      instrumentName := instrumentName d; instrumentNumber := instrumentNumber d;
      templateName := templateName d; waveSource := waveSource d;
      waveArrayCount := waveArrayCount d; verticalCoupling := verticalCoupling d;
      verticalGain := verticalGain d; verticalOffset := verticalOffset d;
      bandwidthLimit := bandwidthLimit d; recordType := recordType d;
      processingDone := processingDone d; timeBase := timeBase d;
      vertUnit := vertUnit d; triggerTime := triggerTime d;
      horizInterval := horizInterval d; horizOffset := horizOffset d;
      zerocross := zerocross d; horUnit := horUnit d |}
  | Set_waveArrayCount n => {| path := path d; x := x d; y := y d; endianness := endianness d;
      instrumentName := instrumentName d; instrumentNumber := instrumentNumber d;
      templateName := templateName d; waveSource := waveSource d;
      waveArrayCount := n; verticalCoupling := verticalCoupling d;
      verticalGain := verticalGain d; verticalOffset := verticalOffset d;
      bandwidthLimit := bandwidthLimit d; recordType := recordType d;
      processingDone := processingDone d; timeBase := timeBase d;
      vertUnit := vertUnit d; triggerTime := triggerTime d;
      horizInterval := horizInterval d; horizOffset := horizOffset d;
      zerocross := zerocross d; horUnit := horUnit d |}
  | Set_horizInterval v => {| path := path d; x := x d; y := y d; endianness := endianness d;
      instrumentName := instrumentName d; instrumentNumber := instrumentNumber d;
      templateName := templateName d; waveSource := waveSource d;
      waveArrayCount := waveArrayCount d; verticalCoupling := verticalCoupling d;
      verticalGain := verticalGain d; verticalOffset := verticalOffset d;
      bandwidthLimit := bandwidthLimit d; recordType := recordType d;
      processingDone := processingDone d; timeBase := timeBase d;
      vertUnit := vertUnit d; triggerTime := triggerTime d;
      horizInterval := v; horizOffset := horizOffset d;
      zerocross := zerocross d; horUnit := horUnit d |}
  | Set_horUnit s => {| path := path d; x := x d; y := y d; endianness := endianness d;
      instrumentName := instrumentName d; instrumentNumber := instrumentNumber d;
      templateName := templateName d; waveSource := waveSource d;
      waveArrayCount := waveArrayCount d; verticalCoupling := verticalCoupling d;
      verticalGain := verticalGain d; verticalOffset := verticalOffset d;
      bandwidthLimit := bandwidthLimit d; recordType := recordType d;
      processingDone := processingDone d; timeBase := timeBase d;
      vertUnit := vertUnit d; triggerTime := triggerTime d;
      horizInterval := horizInterval d; horizOffset := horizOffset d;
      zerocross := zerocross d; horUnit := Some s |}
  | Set_horizOffset v => {| path := path d; x := x d; y := y d; endianness := endianness d;
      instrumentName := instrumentName d; instrumentNumber := instrumentNumber d;
      templateName := templateName d; waveSource := waveSource d;
      waveArrayCount := waveArrayCount d; verticalCoupling := verticalCoupling d;
      verticalGain := verticalGain d; verticalOffset := verticalOffset d;
      bandwidthLimit := bandwidthLimit d; recordType := recordType d;
      processingDone := processingDone d; timeBase := timeBase d;
      vertUnit := vertUnit d; triggerTime := triggerTime d;
      horizInterval := horizInterval d; horizOffset := v;
      zerocross := zerocross d; horUnit := horUnit d |}
  | Set_path s => {| path := s; x := x d; y := y d; endianness := endianness d;
      instrumentName := instrumentName d; instrumentNumber := instrumentNumber d;
      templateName := templateName d; waveSource := waveSource d;
      waveArrayCount := waveArrayCount d; verticalCoupling := verticalCoupling d;
      verticalGain := verticalGain d; verticalOffset := verticalOffset d;
      bandwidthLimit := bandwidthLimit d; recordType := recordType d;
      processingDone := processingDone d; timeBase := timeBase d;
      vertUnit := vertUnit d; triggerTime := triggerTime d;
      horizInterval := horizInterval d; horizOffset := horizOffset d;
      zerocross := zerocross d; horUnit := horUnit d |}
  | Set_vertUnit s => {| path := path d; x := x d; y := y d; endianness := endianness d;
      instrumentName := instrumentName d; instrumentNumber := instrumentNumber d;
      templateName := templateName d; waveSource := waveSource d;
      waveArrayCount := waveArrayCount d; verticalCoupling := verticalCoupling d;
      verticalGain := verticalGain d; verticalOffset := verticalOffset d;
      bandwidthLimit := bandwidthLimit d; recordType := recordType d;
      processingDone := processingDone d; timeBase := timeBase d;
      vertUnit := s; triggerTime := triggerTime d;
      horizInterval := horizInterval d; horizOffset := horizOffset d;
      zerocross := zerocross d; horUnit := horUnit d |}
  end.

(** A block of assignment statements, executed in order. *)
Definition apply_writes (ws : list field_write) (d : ScopeData_nativ) : ScopeData_nativ :=
  foldl (fun d w => apply_write w d) d ws.

(** Lines 130-132: a fresh object whose [x] and [y] are the two-point
    placeholders [[0,1]] and [[0,0]]. *)
Definition placeholder_writes : list field_write :=
  [Set_x [num_of_Z 0; num_of_Z 1]; Set_y [num_of_Z 0; num_of_Z 0]].

(** The snapshot invariant of the data model: both arrays have the same
    length. *)
Definition aligned (d : ScopeData_nativ) : Prop := length (x d) = length (y d).

Lemma apply_writes_app ws1 ws2 d :
  apply_writes (ws1 ++ ws2) d = apply_writes ws2 (apply_writes ws1 d).
Proof. unfold apply_writes. by rewrite foldl_app. Qed.
End ScopeData.

Arguments ScopeData_nativ A : clear implicits.
Arguments field_write A : clear implicits.
