(* ===== verification/Transform.v ===== *)
(** The sample-to-physical-unit transform of [getData_online]
    (src/Rigol_Live_View.py, lines 159-165), written as numpy evaluates
    it: whole-array operations with broadcasting of the scalar operands,
    integer arithmetic until an operand is a float.  Beside it, the
    per-sample formulas of the spec (time[i] = i * x_increment + x_origin,
    voltage[i] = y_origin + ((raw[i] - 128) * 10 * vscale / 256 - voffset +
    y_increment)) as reference definitions, and the theorems that relate the
    two (C2, C3), bound the int64 stage of line 165 (C4) and give the
    extent of the time axis (C5). *)

From Stdlib Require Import ZArith QArith Qminmax Lqa Floats Strings.Byte Sorting.Sorted.
From stdpp Require Import base list.
From S2P Require Import Prelude Numeric.

(** [query_binary_values(..., datatype='B')] yields unsigned bytes; numpy
    turns them into an int64 array. *)
Definition byte_val (b : byte) : Z := Z.of_N (Byte.to_N b).

Lemma byte_val_range b : (0 <= byte_val b <= 255)%Z.
Proof. unfold byte_val. pose proof (Byte.to_N_bounded b). lia. Qed.

Section Numpy.
Context {A : Type} `{Num A}.
Local Open Scope num_scope.

(** int64 arrays *)
Definition np_array (bs : list byte) : list Z := map byte_val bs.
Definition np_arange (n : nat) : list Z := map Z.of_nat (seq 0 n).
Definition np_isub_s (v : list Z) (c : Z) : list Z := map (fun a => (a - c)%Z) v.
Definition np_imul_s (v : list Z) (c : Z) : list Z := map (fun a => (a * c)%Z) v.

(** mixed int64/float64 operations promote the integer operand *)
Definition np_imul_f (v : list Z) (c : A) : list A := map (fun a => num_of_Z a * c) v.
Definition np_mul_s (v : list A) (c : A) : list A := map (fun a => a * c) v.
Definition np_div_i (v : list A) (c : Z) : list A := map (fun a => a / num_of_Z c) v.
Definition np_add_s (v : list A) (c : A) : list A := map (fun a => a + c) v.
Definition np_sub_s (v : list A) (c : A) : list A := map (fun a => a - c) v.
Definition np_radd_s (c : A) (v : list A) : list A := map (fun a => c + a) v.

(** Line 159: [np.arange(len(all_data)) * x_increment + x_origin]. *)
Definition time_array (all_data : list byte) (x_increment x_origin : A) : list A :=
  np_add_s (np_imul_f (np_arange (length all_data)) x_increment) x_origin.

(** Line 162: [(np.array(all_data) - 128) * 10 * vscale / 256 - voffset
    + y_increment], the value overwritten on line 165. *)
Definition voltage_array_rel (all_data : list byte) (y_increment vscale voffset : A) : list A :=
  np_add_s (np_sub_s (np_div_i (np_imul_f (np_imul_s (np_isub_s (np_array all_data) 128) 10)
    vscale) 256) voffset) y_increment.

(** Line 165: [y_origin + ((np.array(all_data) - 128) * 10 * vscale / 256
    - voffset + y_increment)]. *)
Definition voltage_array (all_data : list byte) (y_increment y_origin vscale voffset : A) : list A :=
  np_radd_s y_origin (np_add_s (np_sub_s (np_div_i (np_imul_f (np_imul_s
    (np_isub_s (np_array all_data) 128) 10) vscale) 256) voffset) y_increment).

(** Reference formulas, one sample at a time. *)
Definition time_at (x_increment x_origin : A) (i : nat) : A :=
  num_of_Z (Z.of_nat i) * x_increment + x_origin.

Definition voltage_at (y_increment y_origin vscale voffset : A) (b : byte) : A :=
  y_origin + (num_of_Z ((byte_val b - 128) * 10) * vscale / num_of_Z 256 - voffset + y_increment).
End Numpy.

(** ** Structure of the transform, for every number type *)

Section NumpyFacts.
Context {A : Type} `{Num A}.

Lemma time_array_length raw (xi xo : A) : length (time_array raw xi xo) = length raw.
Proof. unfold time_array, np_add_s, np_imul_f, np_arange, np_array. by rewrite !length_map, ?length_seq. Qed.

Lemma voltage_array_length raw (yi yo vs vo : A) :
  length (voltage_array raw yi yo vs vo) = length raw.
Proof.
  unfold voltage_array, np_radd_s, np_add_s, np_sub_s, np_div_i, np_imul_f, np_imul_s,
    np_isub_s, np_array. by rewrite !length_map.
Qed.

Lemma time_array_map raw (xi xo : A) :
  time_array raw xi xo = map (time_at xi xo) (seq 0 (length raw)).
Proof. unfold time_array, np_add_s, np_imul_f, np_arange. by rewrite !map_map. Qed.

Lemma voltage_array_map raw (yi yo vs vo : A) :
  voltage_array raw yi yo vs vo = map (voltage_at yi yo vs vo) raw.
Proof.
  unfold voltage_array, np_radd_s, np_add_s, np_sub_s, np_div_i, np_imul_f, np_imul_s,
    np_isub_s, np_array. rewrite !map_map. apply map_ext. intros b.
  reflexivity.
Qed.

(** C3: the vectorised time computation equals the per-sample formula
    [time[i] = i * x_increment + x_origin] over every index. *)
Theorem time_array_spec raw (xi xo : A) :
  time_array raw xi xo = map (time_at xi xo) (seq 0 (length raw)).
Proof. apply time_array_map. Qed.

(** C2: the vectorised voltage computation of line 165 equals the
    per-sample formula of the spec applied to each raw byte. *)
Theorem voltage_array_spec raw (yi yo vs vo : A) :
  voltage_array raw yi yo vs vo = map (voltage_at yi yo vs vo) raw.
Proof. apply voltage_array_map. Qed.

(** The discarded computation of line 162 is line 165's without the
    [y_origin] shift. *)
Lemma voltage_array_rel_shift raw (yi yo vs vo : A) :
  voltage_array raw yi yo vs vo = np_radd_s yo (voltage_array_rel raw yi vs vo).
Proof. reflexivity. Qed.

Lemma time_array_lookup raw (xi xo : A) i :
  i < length raw -> time_array raw xi xo !! i = Some (time_at xi xo i).
Proof.
  intros Hi. rewrite time_array_map, list_lookup_fmap, lookup_seq_lt by done. reflexivity.
Qed.

Lemma voltage_array_lookup raw (yi yo vs vo : A) i b :
  raw !! i = Some b -> voltage_array raw yi yo vs vo !! i = Some (voltage_at yi yo vs vo b).
Proof. intros Hb. by rewrite voltage_array_map, list_lookup_fmap, Hb. Qed.
End NumpyFacts.

#[export] Hint Rewrite @time_array_length @voltage_array_length : rigol_rw.

(** ** The int64 stage of line 165 *)

(** C4: the integer part of line 165, [(all_data - 128) * 10] on the
    int64 array of unsigned bytes, stays within [-1280, 1270] for every
    sample: numpy's int64 arithmetic never wraps there, and the values are
    below 2^53 in magnitude, so their conversion to float64 when
    [vscale] is applied is exact. *)
Theorem int64_stage_bounds raw :
  Forall (fun z => (-1280 <= z <= 1270)%Z /\ (Z.abs z < 2 ^ 53)%Z)
    (np_imul_s (np_isub_s (np_array raw) 128) 10).
Proof.
  induction raw as [|b raw IH]; constructor; [|exact IH].
  pose proof (byte_val_range b). lia.
Qed.

(** ** Exact-arithmetic properties *)

Section QFacts.
Local Open Scope Q_scope.

Ltac unfold_Q_Num := cbn [num_add num_sub num_mul num_div num_of_Z Q_Num] in *.

(** The per-sample formulas respect rational equality in every
    parameter, so setoid rewriting works under them. *)
#[export] Instance voltage_at_Proper :
  Proper (Qeq ==> Qeq ==> Qeq ==> Qeq ==> eq ==> Qeq) (@voltage_at Q _).
Proof.
  intros yi yi' Hi yo yo' Ho vs vs' Hs vo vo' Hv b ? <-. unfold voltage_at. unfold_Q_Num.
  by rewrite Hi, Ho, Hs, Hv.
Qed.

#[export] Instance time_at_Proper : Proper (Qeq ==> Qeq ==> eq ==> Qeq) (@time_at Q _).
Proof.
  intros xi xi' Hi xo xo' Ho i ? <-. unfold time_at. unfold_Q_Num. by rewrite Hi, Ho.
Qed.

Lemma time_at_strict (xi xo : Q) i j : 0 < xi -> (i < j)%nat -> time_at xi xo i < time_at xi xo j.
Proof.
  intros Hxi Hij. unfold time_at. unfold_Q_Num.
  assert (inject_Z (Z.of_nat i) < inject_Z (Z.of_nat j)) by (rewrite <- Zlt_Qlt; lia).
  assert (inject_Z (Z.of_nat i) * xi < inject_Z (Z.of_nat j) * xi) by (apply Qmult_lt_r; lra).
  lra.
Qed.

Lemma time_array_increasing raw (xi xo : Q) : 0 < xi -> StronglySorted Qlt (time_array raw xi xo).
Proof.
  intros Hxi. rewrite time_array_map. apply StronglySorted_map_seq.
  intros i j. by apply time_at_strict.
Qed.

Lemma last_map_seq {B} (f : nat -> B) s n d : List.last (map f (seq s (S n))) d = f (s + n)%nat.
Proof. rewrite seq_S, map_app. cbn [map]. apply List.last_last. Qed.

(** C5: the extent of the time axis that the display reads with
    [np.min]/[np.max] is the first and the last sample time. *)
Theorem time_axis_extent raw (xi xo : Q) : 0 < xi -> raw <> [] ->
  np_min (time_array raw xi xo) = inr (time_at xi xo 0) /\
  np_max (time_array raw xi xo) = inr (time_at xi xo (length raw - 1)).
Proof.
  intros Hxi Hne. pose proof (time_array_increasing raw xi xo Hxi) as Hs.
  rewrite time_array_map in *. destruct raw as [|b raw']; [done|].
  simpl length in *. replace (S (length raw') - 1)%nat with (length raw') by lia.
  cbn [seq map np_min np_max] in *.
  split; f_equal; cbn [num_minimum num_maximum Q_Num].
  - by apply foldl_Qmin_sorted.
  - rewrite foldl_Qmax_sorted by done.
    change (time_at xi xo 0 :: map (time_at xi xo) (seq 1 (length raw')))
      with (map (time_at xi xo) (seq 0 (S (length raw')))).
    by rewrite last_map_seq.
Qed.
End QFacts.

(** ** Witnesses *)

Lemma time_axis_extent_witness :
  (0 < 1 # 1000)%Q /\ [x00; x80; xff] <> [] /\
  np_min (time_array [x00; x80; xff] (1 # 1000) 0%Q) = inr (time_at (1 # 1000) 0%Q 0) /\
  np_max (time_array [x00; x80; xff] (1 # 1000) 0%Q) = inr (time_at (1 # 1000) 0%Q 2).
Proof.
  assert (Hx : (0 < 1 # 1000)%Q) by reflexivity.
  assert (Hn : [x00; x80; xff] <> []) by discriminate.
  split; [exact Hx|]. split; [exact Hn|]. exact (time_axis_extent _ _ _ Hx Hn).
Defined.
