(* ===== verification/Instrument.v ===== *)
(** The instrument side of the program.  The code talks to the scope
    through a pyvisa [Resource] ([self.scope]): [write], [query_binary_values]
    and [query_ascii_values] with SCPI command strings.  pyvisa and the
    oscilloscope are not code of this repository; they are the environment.
    This file states what the worker relies on as an interface (the class
    [VisaResource]) and gives one model of it, [Rigol]: a DS2072 that keeps
    the waveform format, source and mode selected by [:WAV:...] writes and
    answers the queries the program sends, and that can be made to fail
    after a number of I/O operations ([rg_fuse]) to model a timeout in the
    middle of an acquisition. *)

From Stdlib Require Import ZArith Strings.Byte.
From stdpp Require Import base list strings.
From S2P Require Import Prelude Numeric.

(** What a VISA resource offers to its client: each operation acts on the
    resource's state and may raise ([VisaIOError] on a timeout). *)
Class VisaResource (R A : Type) := {
  visa_write : string -> PyM R unit;
  visa_query_binary_values : string -> PyM R (list byte);
  visa_query_ascii_values : string -> PyM R (list A)
}.

Section Rigol.
Context {A : Type}.

(** What the scope holds for one input channel: the sample buffer and
    the waveform preamble of that source, and the channel's vertical
    scale and offset. *)
Record ChanData := mkChanData {
  cd_raw : list byte;
  cd_xinc : A; cd_xor : A; cd_yinc : A; cd_yor : A;
  cd_scale : A; cd_offset : A
}.

Record Rigol := mkRigol {
  rg_form : string;                 (** [:WAV:FORM] *)
  rg_source : string;               (** [:WAV:SOUR] *)
  rg_mode : string;                 (** [:WAV:MODE] *)
  rg_chan : list (string * ChanData);
  rg_fuse : option nat;             (** I/O operations left before a timeout *)
  rg_log : list string              (** every command received, in order *)
}.

Definition rg_set_form (v : string) (d : Rigol) : Rigol :=
  mkRigol v (rg_source d) (rg_mode d) (rg_chan d) (rg_fuse d) (rg_log d).
Definition rg_set_source (v : string) (d : Rigol) : Rigol :=
  mkRigol (rg_form d) v (rg_mode d) (rg_chan d) (rg_fuse d) (rg_log d).
Definition rg_set_mode (v : string) (d : Rigol) : Rigol :=
  mkRigol (rg_form d) (rg_source d) v (rg_chan d) (rg_fuse d) (rg_log d).

Definition chan_lookup (s : string) (d : Rigol) : option ChanData :=
  snd <$> List.find (fun p => String.eqb (fst p) s) (rg_chan d).

(** The channel named by a command of the form [prefix ++ name ++ suffix]. *)
Definition chan_of_cmd (pre suf cmd : string) (d : Rigol) : option ChanData :=
  snd <$> List.find (fun p => String.eqb cmd (pre +:+ fst p +:+ suf)) (rg_chan d).

(** Every I/O operation is logged and burns one unit of the fuse; an
    exhausted fuse is a timeout. *)
Definition rg_io (cmd : string) : PyM Rigol unit := fun d =>
  let d' := mkRigol (rg_form d) (rg_source d) (rg_mode d) (rg_chan d)
              (option_map pred (rg_fuse d)) (rg_log d ++ [cmd]) in
  match rg_fuse d with
  | Some 0 => (d', inl VisaIOError)
  | _ => (d', inr tt)
  end.

Definition rg_write (cmd : string) : PyM Rigol unit :=
  (rg_io cmd ;;;
   py_modify (fun d =>
     if String.eqb cmd ":WAV:FORM BYTE" then rg_set_form "BYTE" d
     else if String.eqb cmd ":WAV:MODE NORM" then rg_set_mode "NORM" d
     else match List.find (fun p => String.eqb cmd (":WAV:SOUR " +:+ fst p)) (rg_chan d) with
          | Some p => rg_set_source (fst p) d
          | None => d
          end))%py.

(** A query the scope does not answer ends in a timeout. *)
Definition answer {X} (o : option X) : PyM Rigol X :=
  match o with Some v => py_ret v | None => py_raise VisaIOError end.

Definition rg_query_binary_values (cmd : string) : PyM Rigol (list byte) :=
  (rg_io cmd ;;;
   d <- py_get ;;
   answer (if String.eqb cmd ":WAV:DATA?" && String.eqb (rg_form d) "BYTE"
           then cd_raw <$> chan_lookup (rg_source d) d else None))%py.

Definition rg_query_ascii_values (cmd : string) : PyM Rigol (list A) :=
  (rg_io cmd ;;;
   d <- py_get ;;
   answer (if String.eqb cmd ":WAV:XINC?" then (fun c => [cd_xinc c]) <$> chan_lookup (rg_source d) d
     else if String.eqb cmd ":WAV:XOR?" then (fun c => [cd_xor c]) <$> chan_lookup (rg_source d) d
     else if String.eqb cmd ":WAV:YINC?" then (fun c => [cd_yinc c]) <$> chan_lookup (rg_source d) d
     else if String.eqb cmd ":WAV:YOR?" then (fun c => [cd_yor c]) <$> chan_lookup (rg_source d) d
     else match chan_of_cmd ":" ":SCALe?" cmd d with
          | Some c => Some [cd_scale c]
          | None => (fun c => [cd_offset c]) <$> chan_of_cmd ":" ":OFFSet?" cmd d
          end))%py.
End Rigol.

Arguments ChanData A : clear implicits.
Arguments Rigol A : clear implicits.

#[export] Instance Rigol_VisaResource {A} : VisaResource (Rigol A) A := {
  visa_write := rg_write;
  visa_query_binary_values := rg_query_binary_values;
  visa_query_ascii_values := rg_query_ascii_values
}.
