(* ===== verification/Worker.v ===== *)
(** The acquisition thread [Rigol_get_Data] (src/Rigol_Live_View.py,
    lines 70-180).

    State.  The Python object's attributes [scope], [rm], [stop_connection]
    and [Scope_wave] form the record [Rigol_get_Data].  [Scope_wave] maps a
    channel name to a [ScopeData_nativ] object, and the object is what the
    thread later passes to the display through a signal: the program shares
    these objects by reference, so they live in a heap ([w_heap], indexed by
    [loc]) and the dictionary holds locations.  The world [world] adds the
    heap, the signals emitted so far (the queued connections to the display
    thread, in emission order), the instruments reachable by address and
    the VISA sessions and resource managers that are open.

    Operations.  Every method is a computation of [PyM world]: it may raise
    a Python exception, after the statements before it have taken effect.
    [getData_online] is written against the [VisaResource] interface, so
    its invariants hold for any instrument; its functional correctness
    (refinement of the spec's snapshot, command order) is proved for the
    [Rigol] instrument model.  The connection lifecycle theorems
    (disconnecting an idle worker, connecting to an absent instrument) are
    stated here too, with concrete witnesses at the end of the file. *)

From Stdlib Require Import ZArith QArith Strings.Byte.
From stdpp Require Import base list strings gmap.
From S2P Require Import Prelude Numeric ScopeData Transform Instrument.

Definition loc := positive.

(** The status texts the thread emits.  The elapsed time in
    [f"{dt:.2f}s Normal Read CH:{channel} {n} points"] is not modelled. *)
Inductive status_text :=
  | St_Disconnected
  | St_NormalRead (channel : string) (points : nat).

(** The thread's signals ([finished], [data_receivedCH1], [data_receivedCH2],
    [Statustext]); the data signals carry a reference to the object. *)
Inductive signal :=
  | Sig_finished
  | Sig_data_receivedCH1 (o : loc)
  | Sig_data_receivedCH2 (o : loc)
  | Sig_Statustext (s : status_text).

(** An open VISA session: its id, the address it was opened on and the
    resource manager that opened it. *)
Record session := mkSession { sess_id : nat; sess_addr : string; sess_rm : nat }.

#[export] Instance session_eq_dec : EqDecision session.
Proof. solve_decision. Defined.

Section Worker.
Context {A R : Type} `{Num A} `{VisaResource R A}.

(** The attributes of a [Rigol_get_Data] instance (lines 76-81). *)
Record Rigol_get_Data := mkWorker {
  scope : option session;
  rm : option nat;
  stop_connection : bool;
  Scope_wave : gmap string loc
}.

Record world := mkWorld {
  w_self : Rigol_get_Data;
  w_heap : gmap loc (ScopeData_nativ A);
  w_next_loc : loc;
  w_out : list signal;
  w_devs : gmap string R;
  w_next_id : nat;
  w_open_rms : list nat;
  w_open_sessions : list session
}.

(** [Rigol_get_Data.__init__] (lines 76-81) in a world whose instruments
    are [devs]. *)
Definition Rigol_get_Data_init : Rigol_get_Data := mkWorker None None false ∅.

Definition world_init (devs : gmap string R) : world :=
  mkWorld Rigol_get_Data_init ∅ 1%positive [] devs 0 [] [].

(** Field updates. *)
Definition set_self (f : Rigol_get_Data -> Rigol_get_Data) (w : world) : world :=
  mkWorld (f (w_self w)) (w_heap w) (w_next_loc w) (w_out w) (w_devs w)
    (w_next_id w) (w_open_rms w) (w_open_sessions w).
Definition set_scope (v : option session) (s : Rigol_get_Data) : Rigol_get_Data :=
  mkWorker v (rm s) (stop_connection s) (Scope_wave s).
Definition set_rm (v : option nat) (s : Rigol_get_Data) : Rigol_get_Data :=
  mkWorker (scope s) v (stop_connection s) (Scope_wave s).
Definition set_stop_connection (v : bool) (s : Rigol_get_Data) : Rigol_get_Data :=
  mkWorker (scope s) (rm s) v (Scope_wave s).
Definition set_Scope_wave (v : gmap string loc) (s : Rigol_get_Data) : Rigol_get_Data :=
  mkWorker (scope s) (rm s) (stop_connection s) v.

Definition set_heap (h : gmap loc (ScopeData_nativ A)) (w : world) : world :=
  mkWorld (w_self w) h (w_next_loc w) (w_out w) (w_devs w)
    (w_next_id w) (w_open_rms w) (w_open_sessions w).

Definition set_dev (a : string) (d : R) (w : world) : world :=
  mkWorld (w_self w) (w_heap w) (w_next_loc w) (w_out w) (<[a := d]> (w_devs w))
    (w_next_id w) (w_open_rms w) (w_open_sessions w).

Local Open Scope py_scope.

(** [signal.emit(v)]: a queued connection appends to the receiver's queue. *)
Definition emit (s : signal) : PyM world unit := py_modify (fun w =>
  mkWorld (w_self w) (w_heap w) (w_next_loc w) (w_out w ++ [s]) (w_devs w)
    (w_next_id w) (w_open_rms w) (w_open_sessions w)).

(** [Rigol_get_Data.emit_status] (lines 106-107). *)
Definition emit_status (m : status_text) : PyM world unit := emit (Sig_Statustext m).

(** [ScopeData_nativ()]: allocate a fresh object. *)
Definition new_ScopeData : PyM world loc := fun w =>
  let l := w_next_loc w in
  (mkWorld (w_self w) (<[l := ScopeData_nativ_init]> (w_heap w)) (Pos.succ l) (w_out w)
     (w_devs w) (w_next_id w) (w_open_rms w) (w_open_sessions w), inr l).

(** [self.Scope_wave[k]]. *)
Definition dict_get (k : string) : PyM world loc := fun w =>
  match Scope_wave (w_self w) !! k with
  | Some l => (w, inr l)
  | None => (w, inl (KeyError k))
  end.

(** [self.Scope_wave[k].attr = v], one assignment statement. *)
Definition obj_write (k : string) (fw : field_write A) : PyM world unit :=
  l <- dict_get k ;;
  py_modify (fun w => set_heap (alter (apply_write fw) l (w_heap w)) w).

(** An I/O call on [self.scope]: [AttributeError] when it is [None]. *)
Definition scope_io {X} (m : PyM R X) : PyM world X := fun w =>
  match scope (w_self w) with
  | None => (w, inl AttributeError)
  | Some s =>
      match w_devs w !! sess_addr s with
      | None => (w, inl VisaIOError)
      | Some d =>
          let '(d', res) := m d in (set_dev (sess_addr s) d' w, res)
      end
  end.

(** [self.scope.query_ascii_values(cmd, converter='f')[0]]. *)
Definition query_ascii0 (cmd : string) : PyM R A :=
  v <- visa_query_ascii_values cmd ;;
  match v with
  | a :: _ => py_ret a
  | [] => py_raise IndexError
  end.

(** What lines 141-156 read from the instrument for one channel. *)
Record waveform_reply := mkReply {
  wr_data : list byte;
  wr_xinc : A; wr_xor : A; wr_yinc : A; wr_yor : A;
  wr_vscale : A; wr_voffset : A
}.

(** Lines 141-156: the instrument I/O of one channel, in source order. *)
Definition read_waveform (channel : string) : PyM R waveform_reply :=
  visa_write ":WAV:FORM BYTE" ;;;
  visa_write (":WAV:SOUR " +:+ channel) ;;;
  visa_write ":WAV:MODE NORM" ;;;
  all_data <- visa_query_binary_values ":WAV:DATA?" ;;
  x_increment <- query_ascii0 ":WAV:XINC?" ;;
  x_origin <- query_ascii0 ":WAV:XOR?" ;;
  y_increment <- query_ascii0 ":WAV:YINC?" ;;
  y_origin <- query_ascii0 ":WAV:YOR?" ;;
  vscale <- query_ascii0 (":" +:+ channel +:+ ":SCALe?") ;;
  voffset <- query_ascii0 (":" +:+ channel +:+ ":OFFSet?") ;;
  py_ret (mkReply all_data x_increment x_origin y_increment y_origin vscale voffset).

(** The commands [read_waveform] sends, in order. *)
Definition acquire_cmds (channel : string) : list string :=
  [":WAV:FORM BYTE"; ":WAV:SOUR " +:+ channel; ":WAV:MODE NORM"; ":WAV:DATA?";
   ":WAV:XINC?"; ":WAV:XOR?"; ":WAV:YINC?"; ":WAV:YOR?";
   ":" +:+ channel +:+ ":SCALe?"; ":" +:+ channel +:+ ":OFFSet?"].
End Worker.

Arguments Rigol_get_Data : clear implicits.
Arguments world A R : clear implicits.
Arguments waveform_reply A : clear implicits.

Section Methods.
Context {A R : Type} `{Num A} `{VisaResource R A}.
Local Open Scope py_scope.

(** Lines 129-132: create the channel's object on first use, with the
    two-point placeholder arrays. *)
Definition ensure_channel (channel : string) : PyM (world A R) unit :=
  w <- py_get ;;
  if decide (Scope_wave (w_self w) !! channel = None) then
    l <- new_ScopeData ;;
    py_modify (set_self (fun s => set_Scope_wave (<[channel := l]> (Scope_wave s)) s)) ;;;
    obj_write channel (Set_x [num_of_Z 0; num_of_Z 1]) ;;;
    obj_write channel (Set_y [num_of_Z 0; num_of_Z 0])
  else py_ret tt.

(** Lines 167-176: the attribute assignments, in source order. *)
Definition store_writes (all_data : list byte) (x_increment x_origin : A)
    (time_arr voltage_arr : list A) : list (field_write A) :=
  [Set_waveArrayCount (Z.of_nat (length time_arr));
   Set_horizInterval x_increment; Set_horUnit "s"; Set_horizOffset x_origin;
   Set_path ""; Set_vertUnit "V"; Set_x time_arr; Set_y voltage_arr].

Fixpoint obj_writes (k : string) (ws : list (field_write A)) : PyM (world A R) unit :=
  match ws with
  | [] => py_ret tt
  | fw :: ws' => obj_write k fw ;;; obj_writes k ws'
  end.

(** The body of the [for channel in channels] loop (lines 129-177). *)
Definition acquire_channel (channel : string) : PyM (world A R) unit :=
  ensure_channel channel ;;;
  r <- scope_io (read_waveform channel) ;;
  let time_arr := time_array (wr_data r) (wr_xinc r) (wr_xor r) in
  let voltage_arr := voltage_array (wr_data r) (wr_yinc r) (wr_yor r) (wr_vscale r) (wr_voffset r) in
  obj_writes channel (store_writes (wr_data r) (wr_xinc r) (wr_xor r) time_arr voltage_arr) ;;;
  emit_status (St_NormalRead channel (length (wr_data r))).

Definition channels : list string := ["CHAN1"; "CHAN2"].

(** [Rigol_get_Data.getData_online] (lines 125-180). *)
Definition getData_online : PyM (world A R) bool :=
  py_for channels acquire_channel ;;; py_ret true.

(** [Rigol_get_Data.Disconnect_scope] (lines 110-111). *)
Definition Disconnect_scope : PyM (world A R) unit :=
  py_modify (set_self (set_stop_connection true)).

Definition fresh_id : PyM (world A R) nat := fun w =>
  (mkWorld (w_self w) (w_heap w) (w_next_loc w) (w_out w) (w_devs w)
     (S (w_next_id w)) (w_open_rms w) (w_open_sessions w), inr (w_next_id w)).

(** [pyvisa.ResourceManager()]: a new, open resource manager. *)
Definition new_ResourceManager : PyM (world A R) nat :=
  i <- fresh_id ;;
  py_modify (fun w => mkWorld (w_self w) (w_heap w) (w_next_loc w) (w_out w) (w_devs w)
    (w_next_id w) (w_open_rms w ++ [i]) (w_open_sessions w)) ;;;
  py_ret i.

(** [rm.open_resource(ADR, ...)]: a session when an instrument answers at
    [ADR], [VisaIOError] otherwise. *)
Definition open_resource (r : nat) (ADR : string) : PyM (world A R) session :=
  w <- py_get ;;
  match w_devs w !! ADR with
  | None => py_raise VisaIOError
  | Some _ =>
      i <- fresh_id ;;
      let s := mkSession i ADR r in
      py_modify (fun w => mkWorld (w_self w) (w_heap w) (w_next_loc w) (w_out w) (w_devs w)
        (w_next_id w) (w_open_rms w) (w_open_sessions w ++ [s])) ;;;
      py_ret s
  end.

(** [Rigol_get_Data.connect_scope_ADR] (lines 114-123): the
    [VisaIOError] of [open_resource] is caught and [None] returned. *)
Definition connect_scope_ADR (ADR : string) : PyM (world A R) (option session) :=
  r <- new_ResourceManager ;;
  py_modify (set_self (set_rm (Some r))) ;;;
  fun w => match open_resource r ADR w with
           | (w', inr s) =>
               (set_self (fun t => set_stop_connection false (set_scope (Some s) t)) w', inr (Some s))
           | (w', inl VisaIOError) => (w', inr None)
           | (w', inl e) => (w', inl e)
           end.

(** [self.scope.close()] and [self.rm.close()]; closing a resource
    manager closes the sessions it opened. *)
Definition close_scope : PyM (world A R) unit := fun w =>
  match scope (w_self w) with
  | None => (w, inl AttributeError)
  | Some s => (mkWorld (w_self w) (w_heap w) (w_next_loc w) (w_out w) (w_devs w)
                (w_next_id w) (w_open_rms w) (filter (fun t => t <> s) (w_open_sessions w)),
               inr tt)
  end.

Definition close_rm : PyM (world A R) unit := fun w =>
  match rm (w_self w) with
  | None => (w, inl AttributeError)
  | Some r => (mkWorld (w_self w) (w_heap w) (w_next_loc w) (w_out w) (w_devs w)
                (w_next_id w) (filter (fun i => i <> r) (w_open_rms w))
                (filter (fun t => sess_rm t <> r) (w_open_sessions w)), inr tt)
  end.

(** One pass of [Rigol_get_Data.run] (lines 85-102), from the test
    [while self.scope is not None] back to it.  The two [time.sleep(0.25)]
    calls take no modelled effect. *)
Definition run_iteration : PyM (world A R) unit :=
  w <- py_get ;;
  match scope (w_self w) with
  | Some _ =>
      getData_online ;;;
      o1 <- dict_get "CHAN1" ;; emit (Sig_data_receivedCH1 o1) ;;;
      o2 <- dict_get "CHAN2" ;; emit (Sig_data_receivedCH2 o2) ;;;
      w <- py_get ;;
      if stop_connection (w_self w) then
        close_scope ;;; close_rm ;;; py_modify (set_self (set_scope None))
      else py_ret tt
  | None => emit_status St_Disconnected
  end.
End Methods.

(** ** Reading a channel from the Rigol model *)

Section ReadRigol.
Context {A : Type} `{Num A}.

(** A DS2072 with its two channels whose I/O does not time out. *)
Definition healthy (c1 c2 : ChanData A) (d : Rigol A) : Prop :=
  rg_chan d = [("CHAN1", c1); ("CHAN2", c2)] /\ rg_fuse d = None.

Definition reply_of (c : ChanData A) : waveform_reply A :=
  mkReply (cd_raw c) (cd_xinc c) (cd_xor c) (cd_yinc c) (cd_yor c) (cd_scale c) (cd_offset c).

(** The scope's state after the I/O of one channel: byte format, the
    channel as source, normal mode, and the ten commands logged. *)
Definition rg_after_read (ch : string) (d : Rigol A) : Rigol A :=
  mkRigol "BYTE" ch "NORM" (rg_chan d) (rg_fuse d) (rg_log d ++ acquire_cmds ch).

Lemma read_waveform_rigol c1 c2 (d : Rigol A) ch c :
  healthy c1 c2 d -> In (ch, c) [("CHAN1", c1); ("CHAN2", c2)] ->
  read_waveform ch d = (rg_after_read ch d, inr (reply_of c)).
Proof.
  intros [Hc Hf] Hin. destruct d as [fo so mo chs fu lg]; simpl in Hc, Hf; subst.
  destruct Hin as [[= <- <-]|[[= <- <-]|[]]]; cbv -[app];
    by rewrite <- !app_assoc.
Qed.

Lemma healthy_after_read c1 c2 d ch : healthy c1 c2 d -> healthy c1 c2 (rg_after_read ch d).
Proof. by intros [? ?]; split. Qed.
End ReadRigol.

(** ** The heap of waveform objects *)

Section Heap.
Context {A R : Type} `{Num A} `{VisaResource R A}.
Implicit Types w : world A R.

(** Well-formedness of the object heap: the dictionary points to
    allocated objects, distinct channels to distinct objects, the
    allocation counter is past every object, and every object has
    index-aligned [x] and [y]. *)
Record world_wf w : Prop := {
  wf_dict_alloc : forall k l, Scope_wave (w_self w) !! k = Some l -> is_Some (w_heap w !! l);
  wf_fresh : forall l, is_Some (w_heap w !! l) -> (l < w_next_loc w)%positive;
  wf_dict_inj : forall k1 k2 l, Scope_wave (w_self w) !! k1 = Some l ->
                  Scope_wave (w_self w) !! k2 = Some l -> k1 = k2;
  wf_aligned : forall l o, w_heap w !! l = Some o -> aligned o
}.

(** The object a channel name refers to. *)
Definition snapshot_of (k : string) w : option (ScopeData_nativ A) :=
  Scope_wave (w_self w) !! k ≫= fun l => w_heap w !! l.

Lemma scope_io_spec {X} (m : PyM R X) w s d d' r :
  scope (w_self w) = Some s -> w_devs w !! sess_addr s = Some d -> m d = (d', r) ->
  scope_io m w = (set_dev (sess_addr s) d' w, r).
Proof. intros Hs Hd Hm. unfold scope_io. by rewrite Hs, Hd, Hm. Qed.

Lemma obj_writes_spec k l ws w :
  Scope_wave (w_self w) !! k = Some l ->
  obj_writes k ws w = (set_heap (alter (apply_writes ws) l (w_heap w)) w, inr tt).
Proof.
  revert w. induction ws as [|fw ws IH]; intros w Hk; simpl.
  - destruct w; unfold set_heap; simpl. by rewrite alter_id.
  - unfold obj_write, py_bind at 1 2, dict_get. rewrite Hk. simpl.
    rewrite IH by done. destruct w; unfold set_heap; simpl.
    by rewrite alter_alter_same.
Qed.
End Heap.

Section Acquire.
Context {A R : Type} `{Num A} `{VisaResource R A}.
Implicit Types w : world A R.
Local Open Scope py_scope.

Lemma ensure_channel_present k l w :
  Scope_wave (w_self w) !! k = Some l -> ensure_channel k w = (w, inr tt).
Proof. intros Hk. unfold ensure_channel, py_bind, py_get. by rewrite Hk. Qed.

Lemma ensure_channel_absent k w :
  Scope_wave (w_self w) !! k = None ->
  ensure_channel k w =
    (mkWorld (set_Scope_wave (<[k := w_next_loc w]> (Scope_wave (w_self w))) (w_self w))
       (<[w_next_loc w := apply_writes placeholder_writes ScopeData_nativ_init]> (w_heap w))
       (Pos.succ (w_next_loc w)) (w_out w) (w_devs w) (w_next_id w) (w_open_rms w)
       (w_open_sessions w), inr tt).
Proof.
  intros Hk. unfold ensure_channel, py_bind, py_get. rewrite Hk. cbn [decide].
  destruct w as [[sc r st dict] ???????]; simpl in *.
  unfold obj_write, py_bind, dict_get, set_heap, py_modify; simpl.
  rewrite lookup_insert_eq; cbn; rewrite alter_insert_eq; cbn.
  rewrite lookup_insert_eq; cbn; rewrite alter_insert_eq. reflexivity.
Qed.

(** What a heap-only computation leaves unchanged. *)
Definition heap_frame w w' : Prop :=
  scope (w_self w') = scope (w_self w) /\ rm (w_self w') = rm (w_self w) /\
  stop_connection (w_self w') = stop_connection (w_self w) /\
  w_out w' = w_out w /\ w_devs w' = w_devs w /\ w_next_id w' = w_next_id w /\
  w_open_rms w' = w_open_rms w /\ w_open_sessions w' = w_open_sessions w.

Lemma placeholder_aligned : aligned (apply_writes placeholder_writes (@ScopeData_nativ_init A _)).
Proof. reflexivity. Qed.

Lemma ensure_channel_post k w : world_wf w ->
  exists w1 l, ensure_channel k w = (w1, inr tt) /\ world_wf w1 /\ heap_frame w w1 /\
    Scope_wave (w_self w1) !! k = Some l /\
    (forall k', k' <> k -> snapshot_of k' w1 = snapshot_of k' w).
Proof.
  intros Hwf. destruct (Scope_wave (w_self w) !! k) as [l|] eqn:Hk.
  - exists w, l. rewrite (ensure_channel_present _ _ _ Hk).
    split; [done|]. split; [done|]. split; [by repeat split|]. done.
  - rewrite (ensure_channel_absent _ _ Hk). eexists _, (w_next_loc w).
    destruct Hwf as [Hal Hfr Hinj Hali].
    split; [done|]. split; [|split; [by repeat split|split]].
    + split; simpl.
      * intros k' l'. rewrite lookup_insert. case_decide as Hkk; [intros ?; simplify_eq; by rewrite lookup_insert_eq|].
        intros Hl'. rewrite lookup_insert_ne; [by eapply Hal|].
        intros Heq. subst l'. specialize (Hfr _ (Hal _ _ Hl')). lia.
      * intros l'. rewrite lookup_insert. case_decide; [intros _; subst; lia|].
        intros Hs. specialize (Hfr _ Hs). lia.
      * intros k1 k2 l'. rewrite !lookup_insert.
        case_decide; case_decide; subst; try done; intros Hl1 Hl2; simplify_eq;
          [specialize (Hfr _ (Hal _ _ Hl2)) | specialize (Hfr _ (Hal _ _ Hl1)) | eauto]; lia.
      * intros l' o. rewrite lookup_insert. case_decide; [intros ?; simplify_eq; apply placeholder_aligned|].
        apply Hali.
    + simpl. by rewrite lookup_insert_eq.
    + intros k' Hk'. unfold snapshot_of. simpl. rewrite lookup_insert_ne by done.
      destruct (Scope_wave (w_self w) !! k') as [l'|] eqn:Hl'; simpl; [|done].
      rewrite lookup_insert_ne; [done|]. intros Heq. subst l'. specialize (Hfr _ (Hal _ _ Hl')). lia.
Qed.

(** The object after the assignments of lines 167-176 with the data of
    channel [c]. *)
Definition stored (c : ChanData A) (o : ScopeData_nativ A) : ScopeData_nativ A :=
  let t := time_array (cd_raw c) (cd_xinc c) (cd_xor c) in
  let v := voltage_array (cd_raw c) (cd_yinc c) (cd_yor c) (cd_scale c) (cd_offset c) in
  apply_writes (store_writes (cd_raw c) (cd_xinc c) (cd_xor c) t v) o.

Lemma store_aligned data xi xo yi yo vs vo o :
  aligned (apply_writes (store_writes data xi xo (time_array data xi xo)
                           (voltage_array data yi yo vs vo)) o).
Proof. unfold aligned. simpl. by rewrite time_array_length, voltage_array_length. Qed.

Lemma stored_aligned c o : aligned (stored c o).
Proof. apply store_aligned. Qed.

(** Well-formedness depends only on the dictionary, the heap and the
    allocation counter. *)
Lemma world_wf_ext w w' :
  Scope_wave (w_self w') = Scope_wave (w_self w) -> w_heap w' = w_heap w ->
  w_next_loc w' = w_next_loc w -> world_wf w -> world_wf w'.
Proof.
  intros Hd Hh Hn [Hal Hfr Hinj Hali]. split; rewrite ?Hd, ?Hh, ?Hn; assumption.
Qed.

Lemma world_wf_alter f l w :
  (forall o, aligned (f o)) -> world_wf w -> world_wf (set_heap (alter f l (w_heap w)) w).
Proof.
  intros Hf [Hal Hfr Hinj Hali]. split; simpl; eauto.
  - intros k l' Hk. rewrite lookup_alter. case_decide; subst; [|eauto].
    destruct (Hal _ _ Hk) as [o ->]. by eexists.
  - intros l'. rewrite lookup_alter. case_decide; subst; [|eauto].
    intros Hs. apply Hfr. by destruct (w_heap w !! l').
  - intros l' o. rewrite lookup_alter. case_decide; subst; [|eauto].
    destruct (w_heap w !! l'); simpl; intros ?; simplify_eq. apply Hf.
Qed.

Lemma snapshot_of_alter f k l w :
  Scope_wave (w_self w) !! k = Some l ->
  snapshot_of k (set_heap (alter f l (w_heap w)) w) = f <$> snapshot_of k w.
Proof. intros Hk. unfold snapshot_of. simpl. rewrite Hk. simpl. by rewrite lookup_alter_eq. Qed.

Lemma snapshot_of_alter_ne f k k' l w : world_wf w ->
  Scope_wave (w_self w) !! k = Some l -> k' <> k ->
  snapshot_of k' (set_heap (alter f l (w_heap w)) w) = snapshot_of k' w.
Proof.
  intros Hwf Hk Hne. unfold snapshot_of. simpl.
  destruct (Scope_wave (w_self w) !! k') as [l'|] eqn:Hk'; simpl; [|done].
  rewrite lookup_alter_ne; [done|]. intros ->. apply Hne. by eapply wf_dict_inj.
Qed.

End Acquire.

Section AcquireRigol.
Context {A : Type} `{Num A}.
Implicit Types w : world A (Rigol A).

(** What one pass of the channel loop establishes. *)
Definition acquire_post (ch : string) (c : ChanData A) (a : string) (d : Rigol A) w w' : Prop :=
  world_wf w' /\
  (exists o0, snapshot_of ch w' = Some (stored c o0)) /\
  (forall k, k <> ch -> snapshot_of k w' = snapshot_of k w) /\
  scope (w_self w') = scope (w_self w) /\ rm (w_self w') = rm (w_self w) /\
  stop_connection (w_self w') = stop_connection (w_self w) /\
  w_devs w' = <[a := rg_after_read ch d]> (w_devs w) /\
  w_out w' = w_out w ++ [Sig_Statustext (St_NormalRead ch (length (cd_raw c)))] /\
  w_next_id w' = w_next_id w /\ w_open_rms w' = w_open_rms w /\
  w_open_sessions w' = w_open_sessions w.

Lemma acquire_channel_rigol w s d c1 c2 ch c :
  world_wf w -> scope (w_self w) = Some s -> w_devs w !! sess_addr s = Some d ->
  healthy c1 c2 d -> In (ch, c) [("CHAN1", c1); ("CHAN2", c2)] ->
  exists w', acquire_channel ch w = (w', inr tt) /\ acquire_post ch c (sess_addr s) d w w'.
Proof.
  intros Hwf Hs Hd Hh Hin.
  destruct (ensure_channel_post ch w Hwf)
    as (w1 & l & He & Hwf1 & (Hsc & Hrm & Hst & Hout & Hdev & Hid & Hor & Hos) & Hl & Hoth).
  assert (Hio : scope_io (read_waveform ch) w1 =
                (set_dev (sess_addr s) (rg_after_read ch d) w1, inr (reply_of c))).
  { apply (scope_io_spec _ _ s d); [congruence | congruence | by eapply read_waveform_rigol]. }
  unfold acquire_channel. rewrite (py_bind_inr _ _ _ _ _ He), (py_bind_inr _ _ _ _ _ Hio).
  cbv beta zeta.
  rewrite (py_bind_inr _ _ _ _ _ (obj_writes_spec ch l _ (set_dev (sess_addr s) (rg_after_read ch d) w1) Hl)).
  eexists; split; [reflexivity|].
  set (W := set_dev (sess_addr s) (rg_after_read ch d) w1).
  assert (HwfW : world_wf W) by (eapply world_wf_ext; [..|exact Hwf1]; done).
  destruct (wf_dict_alloc _ Hwf1 ch l Hl) as [o0 Ho0].
  split; [|split; [|split]].
  - eapply world_wf_ext; [..|apply (world_wf_alter _ l W (stored_aligned c) HwfW)]; done.
  - exists o0. change (snapshot_of ch (set_heap (alter (stored c) l (w_heap W)) W) =
                       Some (stored c o0)).
    rewrite (snapshot_of_alter _ _ l) by done. unfold snapshot_of, W, set_dev. simpl.
    rewrite Hl. simpl. by rewrite Ho0.
  - intros k Hk. rewrite <- Hoth by done.
    change (snapshot_of k (set_heap (alter (stored c) l (w_heap W)) W) = snapshot_of k W).
    by apply (snapshot_of_alter_ne _ ch).
  - simpl. rewrite Hsc, Hrm, Hst, Hout, Hdev, Hid, Hor, Hos. by repeat split.
Qed.
End AcquireRigol.

(** ** The abstract specification of an acquisition and its refinement *)

Section Refinement.
Context {A : Type} `{Num A}.
Implicit Types w : world A (Rigol A).
Local Open Scope py_scope.

(** The spec's [ChannelSnapshot] (spec section 3). *)
Record ChannelSnapshot := mkSnapshot {
  time_values : list A;
  voltage_values : list A;
  sample_count : Z;
  horizontal_interval : A;
  horizontal_offset : A;
  vertical_unit : string;
  horizontal_unit : option string
}.

(** The snapshot a [ScopeData_nativ] object represents. *)
Definition abs_snapshot (o : ScopeData_nativ A) : ChannelSnapshot :=
  mkSnapshot (x o) (y o) (waveArrayCount o) (horizInterval o) (horizOffset o)
    (vertUnit o) (horUnit o).

(** What the spec says one channel's snapshot is, sample by sample
    (spec section 4.1, steps 5-7). *)
Definition spec_snapshot (c : ChanData A) : ChannelSnapshot :=
  mkSnapshot (map (time_at (cd_xinc c) (cd_xor c)) (seq 0 (length (cd_raw c))))
    (map (voltage_at (cd_yinc c) (cd_yor c) (cd_scale c) (cd_offset c)) (cd_raw c))
    (Z.of_nat (length (cd_raw c))) (cd_xinc c) (cd_xor c) "V" (Some "s").

Lemma abs_stored c o : abs_snapshot (stored c o) = spec_snapshot c.
Proof.
  unfold abs_snapshot, spec_snapshot. simpl.
  by rewrite time_array_length, time_array_map, voltage_array_map.
Qed.

Lemma post_snapshot ch c a d w w' :
  acquire_post ch c a d w w' -> abs_snapshot <$> snapshot_of ch w' = Some (spec_snapshot c).
Proof. intros (_ & [o0 ->] & _). simpl. by rewrite abs_stored. Qed.

Lemma getData_online_rigol w s d c1 c2 :
  world_wf w -> scope (w_self w) = Some s -> w_devs w !! sess_addr s = Some d ->
  healthy c1 c2 d ->
  exists w1 w2, getData_online w = (w2, inr true) /\
    acquire_post "CHAN1" c1 (sess_addr s) d w w1 /\
    acquire_post "CHAN2" c2 (sess_addr s) (rg_after_read "CHAN1" d) w1 w2.
Proof.
  intros Hwf Hs Hd Hh.
  destruct (acquire_channel_rigol w s d c1 c2 "CHAN1" c1) as (w1 & E1 & P1);
    [done..|by left|].
  pose proof P1 as (Hwf1 & _ & _ & Hs1 & _ & _ & Hd1 & _).
  destruct (acquire_channel_rigol w1 s (rg_after_read "CHAN1" d) c1 c2 "CHAN2" c2)
    as (w2 & E2 & P2); [done|congruence|by rewrite Hd1, lookup_insert_eq
    |by apply healthy_after_read|by right; left|].
  exists w1, w2. split; [|done]. unfold getData_online, channels. simpl py_for.
  by rewrite py_bind_assoc, (py_bind_inr _ _ _ _ _ E1), py_bind_assoc, (py_bind_inr _ _ _ _ _ E2).
Qed.

(** C1: on a connected scope whose two channels answer, [getData_online]
    returns [True], and afterwards the object each channel name refers to
    holds exactly the snapshot the spec prescribes for that channel's
    data (refinement of the spec's poll cycle); it emits one status per
    channel, in channel order; the heap stays well formed. *)
Theorem getData_online_refines w s d c1 c2 :
  world_wf w -> scope (w_self w) = Some s -> w_devs w !! sess_addr s = Some d ->
  healthy c1 c2 d ->
  exists w', getData_online w = (w', inr true) /\ world_wf w' /\
    (forall ch c, In (ch, c) [("CHAN1", c1); ("CHAN2", c2)] ->
       abs_snapshot <$> snapshot_of ch w' = Some (spec_snapshot c)) /\
    w_out w' = w_out w ++ [Sig_Statustext (St_NormalRead "CHAN1" (length (cd_raw c1)));
                           Sig_Statustext (St_NormalRead "CHAN2" (length (cd_raw c2)))] /\
    w_devs w' !! sess_addr s = Some (rg_after_read "CHAN2" (rg_after_read "CHAN1" d)).
Proof.
  intros Hwf Hs Hd Hh.
  destruct (getData_online_rigol w s d c1 c2) as (w1 & w2 & E & P1 & P2); [done..|].
  pose proof P1 as (_ & _ & _ & _ & _ & _ & _ & Ho1 & _).
  pose proof P2 as (Hwf2 & _ & Hoth2 & _ & _ & _ & Hd2 & Ho2 & _).
  exists w2. split; [done|]. split; [done|]. split; [|split].
  - intros ch c [[= <- <-]|[[= <- <-]|[]]].
    + rewrite Hoth2 by done. by eapply post_snapshot.
    + by eapply post_snapshot.
  - by rewrite Ho2, Ho1, <- app_assoc.
  - by rewrite Hd2, lookup_insert_eq.
Qed.

(** C6: the command sequence [getData_online] sends to the scope is the
    ten-command read of channel 1 followed by that of channel 2, and it
    leaves the scope in byte format, normal mode, with channel 2 as the
    waveform source. *)
Theorem getData_online_trace w s d c1 c2 :
  world_wf w -> scope (w_self w) = Some s -> w_devs w !! sess_addr s = Some d ->
  healthy c1 c2 d ->
  exists w' d', getData_online w = (w', inr true) /\ w_devs w' !! sess_addr s = Some d' /\
    rg_log d' = rg_log d ++ acquire_cmds "CHAN1" ++ acquire_cmds "CHAN2" /\
    rg_form d' = "BYTE" /\ rg_mode d' = "NORM" /\ rg_source d' = "CHAN2".
Proof.
  intros Hwf Hs Hd Hh.
  destruct (getData_online_rigol w s d c1 c2) as (w1 & w2 & E & P1 & P2); [done..|].
  pose proof P2 as (_ & _ & _ & _ & _ & _ & Hd2 & _).
  eexists _, _. split; [exact E|]. split; [by rewrite Hd2, lookup_insert_eq|].
  simpl. by rewrite <- app_assoc.
Qed.
End Refinement.

Arguments ChannelSnapshot A : clear implicits.

(** ** The heap invariant, for every instrument *)

Section Invariant.
Context {A R : Type} `{Num A} `{VisaResource R A}.
Implicit Types w : world A R.
Local Open Scope py_scope.
Local Abbreviation WF := (world_wf (A:=A) (R:=R)).

Lemma scope_io_wf {X} (m : PyM R X) : py_preserves WF (scope_io m).
Proof.
  intros w Hw. unfold scope_io.
  destruct (scope (w_self w)) as [s|]; [|done].
  destruct (w_devs w !! sess_addr s) as [d|]; [|done].
  destruct (m d) as [d' r]. by eapply world_wf_ext; [..|exact Hw].
Qed.

Lemma emit_wf sg : py_preserves WF (emit (A:=A) (R:=R) sg).
Proof. intros w Hw. by eapply world_wf_ext; [..|exact Hw]. Qed.

Lemma ensure_channel_wf k : py_preserves WF (ensure_channel (A:=A) (R:=R) k).
Proof.
  intros w Hw. destruct (ensure_channel_post k w Hw) as (w1 & l & -> & Hw1 & _). done.
Qed.

Lemma obj_writes_store_wf ch data xi xo yi yo vs vo :
  py_preserves WF (obj_writes (A:=A) (R:=R) ch (store_writes data xi xo
    (time_array data xi xo) (voltage_array data yi yo vs vo))).
Proof.
  intros w Hw. destruct (Scope_wave (w_self w) !! ch) as [l|] eqn:Hl.
  - rewrite (obj_writes_spec _ l) by done. apply world_wf_alter; [|done]. apply store_aligned.
  - simpl. unfold obj_write, py_bind, dict_get. by rewrite Hl.
Qed.

Lemma getData_online_preserves_wf : py_preserves WF (getData_online (A:=A) (R:=R)).
Proof.
  unfold getData_online. apply py_preserves_bind; [|auto with rigol].
  apply py_preserves_for. intros ch. unfold acquire_channel.
  apply py_preserves_bind; [apply ensure_channel_wf|intros _].
  apply py_preserves_bind; [apply scope_io_wf|intros r].
  apply py_preserves_bind; [apply obj_writes_store_wf|intros _]. apply emit_wf.
Qed.

(** C7: whatever the instrument answers, and whether [getData_online]
    returns or raises part-way, the dictionary points to allocated and
    distinct objects and every object has [len(x) == len(y)]. *)
Theorem getData_online_wf : py_preserves WF (getData_online (A:=A) (R:=R)).
Proof. apply getData_online_preserves_wf. Qed.
End Invariant.

(** ** The connection lifecycle *)

Section Lifecycle.
Context {A R : Type} `{Num A} `{VisaResource R A}.
Implicit Types w : world A R.
Local Open Scope py_scope.

Lemma run_iteration_some w s :
  scope (w_self w) = Some s ->
  run_iteration w =
    (getData_online ;;;
     o1 <- dict_get "CHAN1" ;; emit (Sig_data_receivedCH1 o1) ;;;
     o2 <- dict_get "CHAN2" ;; emit (Sig_data_receivedCH2 o2) ;;;
     w <- py_get ;;
     if stop_connection (w_self w) then
       close_scope ;;; close_rm ;;; py_modify (set_self (set_scope None))
     else py_ret tt) w.
Proof. intros Hs. unfold run_iteration at 1, py_bind at 1, py_get at 1. by rewrite Hs. Qed.

Lemma run_iteration_none w :
  scope (w_self w) = None -> run_iteration w = emit_status St_Disconnected w.
Proof. intros Hs. unfold run_iteration at 1, py_bind at 1, py_get at 1. by rewrite Hs. Qed.

(** C10: disconnecting an idle worker, once or twice, raises nothing
    and closes nothing: the next pass only reports "Disconnected". *)
Theorem Disconnect_scope_idle w :
  scope (w_self w) = None ->
  (Disconnect_scope ;;; Disconnect_scope) w = Disconnect_scope w /\
  exists w', (Disconnect_scope ;;; run_iteration) w = (w', inr tt) /\
    scope (w_self w') = None /\ w_open_sessions w' = w_open_sessions w /\
    w_open_rms w' = w_open_rms w /\ w_out w' = w_out w ++ [Sig_Statustext St_Disconnected].
Proof.
  intros Hs. split; [reflexivity|].
  eexists. rewrite (py_bind_inr _ _ _ _ _ (eq_refl (Disconnect_scope w))).
  rewrite run_iteration_none by done. split; [reflexivity|]. by split_and!.
Qed.

(** C11: [connect_scope_ADR] on an address where no instrument answers
    returns [None] without raising and leaves [scope] and
    [stop_connection] as they were; it has replaced [self.rm] by a new
    resource manager that stays open.  From a disconnected worker, the
    next pass therefore only reports "Disconnected". *)
Theorem connect_scope_ADR_fail ADR w :
  w_devs w !! ADR = None ->
  exists w', connect_scope_ADR ADR w = (w', inr None) /\
    scope (w_self w') = scope (w_self w) /\
    stop_connection (w_self w') = stop_connection (w_self w) /\
    rm (w_self w') = Some (w_next_id w) /\
    w_open_rms w' = w_open_rms w ++ [w_next_id w] /\
    w_open_sessions w' = w_open_sessions w /\
    (scope (w_self w) = None -> run_iteration w' = emit_status St_Disconnected w').
Proof.
  intros Ha. eexists. split.
  - unfold connect_scope_ADR, new_ResourceManager, fresh_id, open_resource.
    unfold py_bind, py_modify, py_get, py_ret, py_raise. simpl. rewrite Ha. reflexivity.
  - simpl. split_and!; try done. intros Hs. by apply run_iteration_none.
Qed.
End Lifecycle.

(** ** A concrete connected worker *)

Lemma world_wf_empty {A R} (w : world A R) :
  Scope_wave (w_self w) = ∅ -> w_heap w = ∅ -> world_wf w.
Proof.
  intros Hd Hh. split; rewrite ?Hd, ?Hh; intros *; rewrite ?lookup_empty;
    intros Hx; try inversion Hx; discriminate.
Qed.

Definition demo_addr : string := "TCPIP0::192.168.1.23::inst0::INSTR".
Definition demo_chan1 : ChanData Q := mkChanData [x80; xe4; x00] (1#1000) 0%Q 0%Q 0%Q 1%Q 0%Q.
Definition demo_chan2 : ChanData Q := mkChanData [x10; x20; xff] (1#1000) 0%Q 0%Q 0%Q (1#2) 0%Q.
Definition demo_dev : Rigol Q :=
  mkRigol "ASCII" "CHAN1" "RAW" [("CHAN1", demo_chan1); ("CHAN2", demo_chan2)] None [].
Definition demo_session : session := mkSession 1 demo_addr 0.
Definition demo_world : world Q (Rigol Q) :=
  mkWorld (mkWorker (Some demo_session) (Some 0) false ∅) ∅ 1%positive []
    {[demo_addr := demo_dev]} 2 [0] [demo_session].

Lemma getData_online_refines_witness :
  (world_wf demo_world /\ scope (w_self demo_world) = Some demo_session /\
   w_devs demo_world !! sess_addr demo_session = Some demo_dev /\
   healthy demo_chan1 demo_chan2 demo_dev) /\
  exists w', getData_online demo_world = (w', inr true) /\ world_wf w' /\
    (forall ch c, In (ch, c) [("CHAN1", demo_chan1); ("CHAN2", demo_chan2)] ->
       abs_snapshot <$> snapshot_of ch w' = Some (spec_snapshot c)) /\
    w_out w' = w_out demo_world ++
      [Sig_Statustext (St_NormalRead "CHAN1" 3); Sig_Statustext (St_NormalRead "CHAN2" 3)] /\
    w_devs w' !! sess_addr demo_session =
      Some (rg_after_read "CHAN2" (rg_after_read "CHAN1" demo_dev)).
Proof.
  assert (Hwf : world_wf demo_world) by (apply world_wf_empty; reflexivity).
  split; [split_and!; [exact Hwf|reflexivity|reflexivity|split; reflexivity]|].
  apply (getData_online_refines demo_world demo_session demo_dev demo_chan1 demo_chan2);
    [exact Hwf|reflexivity|reflexivity|split; reflexivity].
Defined.

Lemma getData_online_trace_witness :
  (world_wf demo_world /\ scope (w_self demo_world) = Some demo_session /\
   w_devs demo_world !! sess_addr demo_session = Some demo_dev /\
   healthy demo_chan1 demo_chan2 demo_dev) /\
  exists w' d', getData_online demo_world = (w', inr true) /\
    w_devs w' !! sess_addr demo_session = Some d' /\
    rg_log d' = rg_log demo_dev ++ acquire_cmds "CHAN1" ++ acquire_cmds "CHAN2" /\
    rg_form d' = "BYTE" /\ rg_mode d' = "NORM" /\ rg_source d' = "CHAN2".
Proof.
  assert (Hwf : world_wf demo_world) by (apply world_wf_empty; reflexivity).
  split; [split_and!; [exact Hwf|reflexivity|reflexivity|split; reflexivity]|].
  apply (getData_online_trace demo_world demo_session demo_dev demo_chan1 demo_chan2);
    [exact Hwf|reflexivity|reflexivity|split; reflexivity].
Defined.

Definition demo_devs : gmap string (Rigol Q) := {[demo_addr := demo_dev]}.
Definition demo_idle : world Q (Rigol Q) := world_init demo_devs.

Lemma Disconnect_scope_idle_witness :
  scope (w_self demo_idle) = None /\
  ((Disconnect_scope ;;; Disconnect_scope)%py demo_idle = Disconnect_scope demo_idle /\
   exists w', (Disconnect_scope ;;; run_iteration)%py demo_idle = (w', inr tt) /\
     scope (w_self w') = None /\ w_open_sessions w' = w_open_sessions demo_idle /\
     w_open_rms w' = w_open_rms demo_idle /\
     w_out w' = w_out demo_idle ++ [Sig_Statustext St_Disconnected]).
Proof. split; [reflexivity|]. exact (Disconnect_scope_idle demo_idle eq_refl). Defined.

Lemma connect_scope_ADR_fail_witness :
  w_devs demo_idle !! "TCPIP0::10.0.0.99::inst0::INSTR" = None /\
  exists w', connect_scope_ADR "TCPIP0::10.0.0.99::inst0::INSTR" demo_idle = (w', inr None) /\
    scope (w_self w') = None /\ stop_connection (w_self w') = false /\
    rm (w_self w') = Some 0 /\ w_open_rms w' = [0] /\ w_open_sessions w' = [] /\
    (None = @None session -> run_iteration w' = emit_status St_Disconnected w').
Proof.
  assert (Ha : w_devs demo_idle !! "TCPIP0::10.0.0.99::inst0::INSTR" = None) by reflexivity.
  split; [exact Ha|]. exact (connect_scope_ADR_fail _ _ Ha).
Defined.

