(* ===== verification/Loop.v ===== *)
(** The acquisition thread's life: the loop of [Rigol_get_Data.run]
    (src/Rigol_Live_View.py, lines 83-104) and the calls the GUI thread
    makes into the worker object ([connect_scope_ADR], [Disconnect_scope],
    lines 110-123), as a transition system [worker_step] on the world and
    the thread's status.  An exception escaping [run] ends the thread
    ([Died]); nothing in [run] catches one.

    Theorems: the heap invariant and the connection invariants hold in every
    reachable state (rule induction over [star worker_step]); with healthy
    instruments the loop runs forever; a disconnect request is honoured by
    the next pass; the same objects are published on every pass and
    overwritten in place; a timeout in mid-acquisition ends the thread for
    good. *)

From Stdlib Require Import ZArith QArith Strings.Byte.
From stdpp Require Import base list strings gmap.
From S2P Require Import Prelude Numeric ScopeData Transform Instrument Worker.

Inductive thread_status := Running | Died (e : py_exc).

Section Loop.
Context {A R : Type} `{Num A} `{VisaResource R A}.
Implicit Types w : world A R.
Local Open Scope py_scope.
Local Abbreviation WF := (world_wf (A:=A) (R:=R)).

(** The worker thread interleaved with the GUI thread's direct calls. *)
Inductive worker_step : world A R * thread_status -> world A R * thread_status -> Prop :=
  | ws_iterate w w' :
      run_iteration w = (w', inr tt) -> worker_step (w, Running) (w', Running)
  | ws_crash w w' e :
      run_iteration w = (w', inl e) -> worker_step (w, Running) (w', Died e)
  | ws_connect ADR w w' r t :
      connect_scope_ADR ADR w = (w', r) -> worker_step (w, t) (w', t)
  | ws_disconnect w w' r t :
      Disconnect_scope w = (w', r) -> worker_step (w, t) (w', t)
  (** the environment: an instrument acquires new waveforms *)
  | ws_env w a d t :
      is_Some (w_devs w !! a) -> worker_step (w, t) (set_dev a d w, t).

(** The connection invariants: an open [scope] was opened on an address
    that has an instrument, by a resource manager that [self.rm] still
    names. *)
Definition conn_ok w : Prop :=
  forall s, scope (w_self w) = Some s ->
    is_Some (w_devs w !! sess_addr s) /\ rm (w_self w) <> None.

Definition worker_inv w : Prop := WF w /\ conn_ok w.

Ltac frame_wf := intros ??; by eapply world_wf_ext; [..|eassumption].

Lemma dict_get_wf k : py_preserves WF (dict_get k).
Proof. intros w Hw. unfold dict_get. by destruct (_ !! k). Qed.

Lemma close_scope_wf : py_preserves WF close_scope.
Proof. intros w Hw. unfold close_scope. destruct (scope _); [|done]. by eapply world_wf_ext; [..|exact Hw]. Qed.

Lemma close_rm_wf : py_preserves WF close_rm.
Proof. intros w Hw. unfold close_rm. destruct (rm _); [|done]. by eapply world_wf_ext; [..|exact Hw]. Qed.

Lemma set_self_wf f : (forall s, Scope_wave (f s) = Scope_wave s) ->
  py_preserves WF (py_modify (set_self f)).
Proof. intros Hf w Hw. eapply world_wf_ext; [..|exact Hw]; simpl; auto. Qed.

Lemma fresh_id_wf : py_preserves WF fresh_id.
Proof. frame_wf. Qed.

#[local] Hint Resolve dict_get_wf close_scope_wf close_rm_wf set_self_wf fresh_id_wf
  emit_wf getData_online_preserves_wf scope_io_wf : rigol.

Lemma run_iteration_wf : py_preserves WF run_iteration.
Proof.
  unfold run_iteration. py_preserves_steps.
  destruct (scope _); [|by apply emit_wf]. py_preserves_steps.
  destruct (stop_connection _); [|apply py_preserves_ret]. py_preserves_steps.
  by apply set_self_wf.
Qed.

(** The connection fields only grow along the acquisition: [scope] and
    [rm] are untouched and no instrument address disappears. *)
Definition conn_mono w w' : Prop :=
  scope (w_self w') = scope (w_self w) /\ rm (w_self w') = rm (w_self w) /\
  forall a, is_Some (w_devs w !! a) -> is_Some (w_devs w' !! a).

#[local] Instance conn_mono_preorder : PreOrder conn_mono.
Proof.
  split; [by intros w; split_and!|].
  intros w1 w2 w3 (Hs1 & Hr1 & Hd1) (Hs2 & Hr2 & Hd2). split_and!; [congruence|congruence|eauto].
Qed.

Lemma conn_mono_ok w w' : conn_ok w -> conn_mono w w' -> conn_ok w'.
Proof.
  intros Hok (Hs & Hr & Hd) s Hs'. rewrite Hs in Hs'.
  destruct (Hok s Hs') as [Ha Hrm]. rewrite Hr. eauto.
Qed.

Lemma scope_io_mono {X} (m : PyM R X) : py_mono conn_mono (scope_io m).
Proof.
  intros w. unfold scope_io.
  destruct (scope (w_self w)) as [s|]; [|reflexivity].
  destruct (w_devs w !! sess_addr s) as [d|]; [|reflexivity].
  destruct (m d) as [d' r]. split_and!; [done|done|]. intros a. simpl.
  rewrite lookup_insert. case_decide; [by eexists|done].
Qed.

Lemma ensure_channel_mono k : py_mono conn_mono (ensure_channel (A:=A) (R:=R) k).
Proof.
  intros w. destruct (Scope_wave (w_self w) !! k) as [l|] eqn:Hk.
  - rewrite (ensure_channel_present _ _ _ Hk). reflexivity.
  - rewrite (ensure_channel_absent _ _ Hk). by split_and!.
Qed.

Lemma obj_writes_mono k ws : py_mono conn_mono (obj_writes (A:=A) (R:=R) k ws).
Proof.
  intros w. destruct (Scope_wave (w_self w) !! k) as [l|] eqn:Hk.
  - rewrite (obj_writes_spec _ l) by done. by split_and!.
  - destruct ws; simpl; [reflexivity|]. unfold obj_write, py_bind, dict_get. rewrite Hk.
    reflexivity.
Qed.

Lemma emit_mono sg : py_mono conn_mono (emit (A:=A) (R:=R) sg).
Proof. intros w. by split_and!. Qed.

Lemma dict_get_mono k : py_mono conn_mono (dict_get (A:=A) (R:=R) k).
Proof. intros w. unfold dict_get. destruct (_ !! k); reflexivity. Qed.

#[local] Hint Resolve scope_io_mono ensure_channel_mono obj_writes_mono emit_mono
  dict_get_mono : rigol.

Lemma getData_online_mono : py_mono conn_mono (getData_online (A:=A) (R:=R)).
Proof.
  unfold getData_online. apply (py_mono_bind conn_mono); [|intros; apply (py_mono_ret conn_mono)].
  apply (py_mono_for conn_mono). intros ch. unfold acquire_channel. py_mono_steps conn_mono. apply emit_mono.
Qed.

Lemma close_mono : py_mono conn_mono (close_scope (A:=A) (R:=R) ;;; close_rm).
Proof.
  intros w. unfold close_scope, close_rm, py_bind.
  destruct (scope _); [|reflexivity]. simpl. destruct (rm _); simpl; by split_and!.
Qed.

Lemma conn_ok_preserves {X} (m : PyM (world A R) X) :
  py_mono conn_mono m -> py_preserves conn_ok m.
Proof. intros Hm. apply (py_mono_preserves conn_mono); [|exact Hm]. intros ???. by eapply conn_mono_ok. Qed.

Lemma disconnect_tail_conn_ok :
  py_preserves conn_ok (close_scope (A:=A) (R:=R) ;;; close_rm ;;; py_modify (set_self (set_scope None))).
Proof.
  intros w Hok. unfold close_scope, close_rm, py_bind.
  destruct (scope (w_self w)); simpl; [|exact Hok]. destruct (rm (w_self w)); simpl; [|exact Hok].
  intros s1 Hs1. discriminate.
Qed.

#[local] Hint Resolve conn_ok_preserves : rigol.

Lemma run_iteration_conn_ok : py_preserves conn_ok (run_iteration (A:=A) (R:=R)).
Proof.
  unfold run_iteration. apply py_preserves_bind; [apply py_preserves_get|intros v].
  destruct (scope (w_self v)); [|apply conn_ok_preserves, emit_mono].
  apply py_preserves_bind; [apply conn_ok_preserves, getData_online_mono|intros _].
  py_preserves_steps. destruct (stop_connection _); [|apply py_preserves_ret].
  apply disconnect_tail_conn_ok.
Qed.

Lemma connect_scope_ADR_inv ADR : py_preserves worker_inv (connect_scope_ADR (A:=A) (R:=R) ADR).
Proof.
  intros w [Hwf Hok]. unfold connect_scope_ADR, new_ResourceManager, fresh_id, open_resource.
  unfold py_bind, py_modify, py_get, py_ret, py_raise. simpl.
  destruct (w_devs w !! ADR) eqn:Ha; simpl.
  - split; [by eapply world_wf_ext; [..|exact Hwf]|].
    intros s' Hs'. simpl in Hs'. injection Hs' as <-. simpl. rewrite Ha. by split.
  - split; [by eapply world_wf_ext; [..|exact Hwf]|].
    intros s' Hs'. simpl in *. destruct (Hok s' Hs') as [? _]. by split.
Qed.

Lemma Disconnect_scope_inv : py_preserves worker_inv (Disconnect_scope (A:=A) (R:=R)).
Proof. intros w [Hwf Hok]. split; [by eapply world_wf_ext; [..|exact Hwf]|exact Hok]. Qed.

Lemma world_init_inv devs : worker_inv (world_init (A:=A) devs).
Proof.
  split; [split; simpl; intros *; rewrite ?lookup_empty; intros; done|].
  intros s Hs. discriminate.
Qed.

Lemma worker_step_inv st st' : worker_inv st.1 -> worker_step st st' -> worker_inv st'.1.
Proof.
  intros Hinv Hstep. destruct Hstep as [w w' E|w w' e E|ADR w w' r t E|w w' r t E|w a d t Ha];
    simpl in *.
  - pose proof (run_iteration_wf w (proj1 Hinv)) as H1.
    pose proof (run_iteration_conn_ok w (proj2 Hinv)) as H2. rewrite E in H1, H2. by split.
  - pose proof (run_iteration_wf w (proj1 Hinv)) as H1.
    pose proof (run_iteration_conn_ok w (proj2 Hinv)) as H2. rewrite E in H1, H2. by split.
  - pose proof (connect_scope_ADR_inv ADR w Hinv) as Hc. by rewrite E in Hc.
  - pose proof (Disconnect_scope_inv w Hinv) as Hc. by rewrite E in Hc.
  - destruct Hinv as [Hwf Hok]. split; [by eapply world_wf_ext; [..|exact Hwf]|].
    apply (conn_mono_ok w); [done|]. split_and!; [done|done|]. intros a'. simpl.
    rewrite lookup_insert. case_decide; [by eexists|done].
Qed.

(** C8: in every state the worker reaches from its construction, through
    loop passes, crashes and the GUI's connect and disconnect calls in any
    interleaving, the heap is well formed and an open [scope] names a
    reachable instrument and a resource manager. *)
Theorem worker_reachable_inv devs w t :
  star worker_step (world_init devs, Running) (w, t) -> worker_inv w.
Proof.
  intros Hs. change (worker_inv (w, t).1).
  eapply (star_invariant _ (fun st => worker_inv st.1)); [|exact Hs|apply world_init_inv].
  intros ??. apply worker_step_inv.
Qed.
End Loop.

Section LoopUnfold.
Context {A R : Type} `{Num A} `{VisaResource R A}.
Implicit Types w : world A R.
Local Open Scope py_scope.

Lemma snapshot_of_Some k w o :
  snapshot_of k w = Some o -> exists l, Scope_wave (w_self w) !! k = Some l /\ w_heap w !! l = Some o.
Proof. unfold snapshot_of. destruct (Scope_wave (w_self w) !! k) as [l|]; simpl; [eauto|done]. Qed.

Lemma dict_get_Some k l w : Scope_wave (w_self w) !! k = Some l -> dict_get k w = (w, inr l).
Proof. unfold dict_get. by intros ->. Qed.



(** Dictionary entries are never re-pointed: a channel keeps its object. *)
Definition dict_extends w w' : Prop :=
  forall k l, Scope_wave (w_self w) !! k = Some l -> Scope_wave (w_self w') !! k = Some l.

#[local] Instance dict_extends_preorder : PreOrder dict_extends.
Proof. split; [by intros w ??|]. intros w1 w2 w3 H12 H23 k l Hk. eauto. Qed.

Lemma getData_online_extends : py_mono dict_extends (getData_online (A:=A) (R:=R)).
Proof.
  unfold getData_online. apply (py_mono_bind dict_extends); [|intros; apply (py_mono_ret dict_extends)].
  apply (py_mono_for dict_extends). intros ch. unfold acquire_channel.
  apply (py_mono_bind dict_extends).
  { intros w. destruct (Scope_wave (w_self w) !! ch) as [l|] eqn:Hk.
    - rewrite (ensure_channel_present _ _ _ Hk). reflexivity.
    - rewrite (ensure_channel_absent _ _ Hk). intros k l' Hk'. simpl.
      rewrite lookup_insert_ne; [done|]. intros ->. congruence. }
  intros _. apply (py_mono_bind dict_extends).
  { intros w. unfold scope_io. destruct (scope _); [|reflexivity].
    destruct (_ !! _); [|reflexivity]. destruct (_ _). intros k l Hk. exact Hk. }
  intros r. apply (py_mono_bind dict_extends).
  { intros w. destruct (Scope_wave (w_self w) !! ch) as [l|] eqn:Hk.
    - rewrite (obj_writes_spec _ l) by done. intros k l' Hk'. exact Hk'.
    - simpl. unfold obj_write, py_bind, dict_get. rewrite Hk. reflexivity. }
  intros _. intros w k l Hk. exact Hk.
Qed.
End LoopUnfold.

Section LoopRigol.
Context {A : Type} `{Num A}.
Implicit Types w : world A (Rigol A).
Local Open Scope py_scope.

(** One pass of [run] on a connected, healthy scope. *)
Lemma run_iteration_rigol w s d c1 c2 :
  worker_inv w -> scope (w_self w) = Some s -> w_devs w !! sess_addr s = Some d ->
  healthy c1 c2 d ->
  exists w1 w2 o1 o2 w', getData_online w = (w2, inr true) /\
    acquire_post "CHAN1" c1 (sess_addr s) d w w1 /\
    acquire_post "CHAN2" c2 (sess_addr s) (rg_after_read "CHAN1" d) w1 w2 /\
    Scope_wave (w_self w2) !! "CHAN1" = Some o1 /\ Scope_wave (w_self w2) !! "CHAN2" = Some o2 /\
    run_iteration w = (w', inr tt) /\
    w_out w' = w_out w2 ++ [Sig_data_receivedCH1 o1; Sig_data_receivedCH2 o2] /\
    w_heap w' = w_heap w2 /\ Scope_wave (w_self w') = Scope_wave (w_self w2) /\
    w_devs w' = w_devs w2 /\ rm (w_self w') = rm (w_self w) /\
    stop_connection (w_self w') = stop_connection (w_self w) /\
    (stop_connection (w_self w) = true ->
       scope (w_self w') = None /\ (s ∉ w_open_sessions w') /\
       forall r, rm (w_self w) = Some r -> (r ∉ w_open_rms w')) /\
    (stop_connection (w_self w) = false ->
       scope (w_self w') = Some s /\ w_open_sessions w' = w_open_sessions w /\
       w_open_rms w' = w_open_rms w).
Proof.
  intros [Hwf Hok] Hs Hd Hh.
  destruct (getData_online_rigol w s d c1 c2) as (w1 & w2 & E & P1 & P2); [done..|].
  pose proof P1 as (_ & [o1' S1] & _ & Hs1 & Hr1 & Hst1 & _ & _ & _ & Hor1 & Hos1).
  pose proof P2 as (_ & [o2' S2] & Hoth2 & Hs2 & Hr2 & Hst2 & _ & _ & _ & Hor2 & Hos2).
  rewrite <- Hoth2 in S1 by done.
  destruct (snapshot_of_Some _ _ _ S1) as (l1 & L1 & _).
  destruct (snapshot_of_Some _ _ _ S2) as (l2 & L2 & _).
  destruct (rm (w_self w)) as [r|] eqn:Hr; [|by destruct (proj2 (Hok s Hs))].
  rewrite (run_iteration_some w s) by done. rewrite (py_bind_inr _ _ _ _ _ E).
  erewrite py_bind_inr; [|apply dict_get_Some; exact L1].
  erewrite py_bind_inr; [|reflexivity].
  erewrite py_bind_inr; [|apply dict_get_Some; exact L2].
  erewrite py_bind_inr; [|reflexivity].
  erewrite py_bind_inr; [|reflexivity]. simpl.
  assert (Hst : stop_connection (w_self w2) = stop_connection (w_self w)) by congruence.
  rewrite Hst. destruct (stop_connection (w_self w)) eqn:Hstop.
  - unfold close_scope, close_rm, py_bind, py_modify. simpl.
    assert (Hsc2 : scope (w_self w2) = Some s) by congruence.
    assert (Hrm2 : rm (w_self w2) = Some r) by congruence.
    rewrite Hsc2. simpl. rewrite Hrm2. simpl.
    do 5 eexists. split_and!; try done; simpl; [by rewrite <- app_assoc|].
    intros _. split; [done|]. split.
    + rewrite !list_elem_of_filter. intros (_ & Hne & _). by apply Hne.
    + intros r' [= <-]. rewrite list_elem_of_filter. intros [Hne _]. by apply Hne.
  - do 5 eexists. split_and!; try done; simpl; try congruence; [by rewrite <- app_assoc|].
    intros _. split_and!; congruence.
Qed.

(** What one pass on a connected, healthy scope publishes: two statuses
    and the two channels' objects, in this order, each object holding
    its channel's new data. *)
Lemma run_iteration_publishes w s d c1 c2 :
  worker_inv w -> scope (w_self w) = Some s -> w_devs w !! sess_addr s = Some d ->
  healthy c1 c2 d ->
  exists w' l1 l2 p1 p2, run_iteration w = (w', inr tt) /\
    w_out w' = w_out w ++ [Sig_Statustext (St_NormalRead "CHAN1" (length (cd_raw c1)));
                           Sig_Statustext (St_NormalRead "CHAN2" (length (cd_raw c2)));
                           Sig_data_receivedCH1 l1; Sig_data_receivedCH2 l2] /\
    Scope_wave (w_self w') !! "CHAN1" = Some l1 /\ Scope_wave (w_self w') !! "CHAN2" = Some l2 /\
    w_heap w' !! l1 = Some (stored c1 p1) /\ w_heap w' !! l2 = Some (stored c2 p2).
Proof.
  intros Hinv Hs Hd Hh.
  destruct (run_iteration_rigol w s d c1 c2 Hinv Hs Hd Hh)
    as (w1 & w2 & l1 & l2 & w' & _ & P1 & P2 & L1 & L2 & Erun & Eout & Eheap & Ewave & _).
  pose proof P1 as (_ & [p1 S1] & _ & _ & _ & _ & _ & Ho1 & _).
  pose proof P2 as (_ & [p2 S2] & Hoth2 & _ & _ & _ & _ & Ho2 & _).
  rewrite <- Hoth2 in S1 by done. unfold snapshot_of in S1, S2. rewrite L1 in S1. rewrite L2 in S2.
  exists w', l1, l2, p1, p2. rewrite Ewave, Eheap. split_and!; try done.
  by rewrite Eout, Ho2, Ho1, <- !app_assoc.
Qed.

(** C9: a disconnect request takes effect at the end of the next pass:
    that pass still acquires both channels and publishes them, then the
    session is closed, the resource manager is closed, and [scope] is
    [None]. *)
Theorem disconnect_takes_effect w s d c1 c2 :
  worker_inv w -> scope (w_self w) = Some s -> w_devs w !! sess_addr s = Some d ->
  healthy c1 c2 d ->
  exists w' o1 o2, (Disconnect_scope ;;; run_iteration) w = (w', inr tt) /\
    scope (w_self w') = None /\ (s ∉ w_open_sessions w') /\
    (forall r, rm (w_self w) = Some r -> r ∉ w_open_rms w') /\
    exists pre, w_out w' = w_out w ++ pre ++ [Sig_data_receivedCH1 o1; Sig_data_receivedCH2 o2].
Proof.
  intros Hinv Hs Hd Hh.
  set (w0 := (Disconnect_scope w).1).
  assert (Hw0 : Disconnect_scope w = (w0, inr tt)) by reflexivity.
  destruct (run_iteration_rigol w0 s d c1 c2)
    as (w1 & w2 & o1 & o2 & w' & E & P1 & P2 & _ & _ & Er & Ho & _ & _ & _ & Hr & _ & Hstop & _);
    [by apply Disconnect_scope_inv|done|done|done|].
  pose proof P1 as (_ & _ & _ & _ & _ & _ & _ & Ho1 & _).
  pose proof P2 as (_ & _ & _ & _ & _ & _ & _ & Ho2 & _).
  destruct (Hstop eq_refl) as (Hn & Hsess & Hrms).
  exists w', o1, o2. split; [rewrite (py_bind_inr _ _ _ _ _ Hw0); exact Er|].
  split; [exact Hn|]. split; [exact Hsess|]. split.
  - intros r Hr'. apply Hrms. exact Hr'.
  - exists [Sig_Statustext (St_NormalRead "CHAN1" (length (cd_raw c1)));
            Sig_Statustext (St_NormalRead "CHAN2" (length (cd_raw c2)))].
    rewrite Ho, Ho2, Ho1. change (w_out w0) with (w_out w). by rewrite <- !app_assoc.
Qed.
End LoopRigol.


Section Liveness.
Context {A : Type} `{Num A}.
Implicit Types w : world A (Rigol A).
Local Open Scope py_scope.

(** Every reachable instrument is a DS2072 whose I/O does not time out. *)
Definition healthy_world w : Prop :=
  forall a d, w_devs w !! a = Some d -> exists c1 c2, healthy c1 c2 d.

Lemma healthy_world_insert w a d c1 c2 w' :
  healthy_world w -> healthy c1 c2 d -> w_devs w' = <[a := d]> (w_devs w) -> healthy_world w'.
Proof.
  intros Hw Hd Hdev a' d'. rewrite Hdev, lookup_insert. case_decide; [intros [= <-]; eauto|apply Hw].
Qed.

Lemma run_iteration_live w :
  worker_inv w -> healthy_world w ->
  exists w', run_iteration w = (w', inr tt) /\ worker_inv w' /\ healthy_world w'.
Proof.
  intros Hinv Hh. destruct (scope (w_self w)) as [s|] eqn:Hs.
  - destruct (proj1 (proj2 Hinv s Hs)) as [d Hd]. destruct (Hh _ _ Hd) as (c1 & c2 & Hc).
    destruct (run_iteration_rigol w s d c1 c2)
      as (w1 & w2 & o1 & o2 & w' & _ & P1 & P2 & _ & _ & Er & _ & _ & _ & Hdev & _);
      [done..|].
    pose proof P1 as (_ & _ & _ & _ & _ & _ & Hd1 & _).
    pose proof P2 as (_ & _ & _ & _ & _ & _ & Hd2 & _).
    exists w'. split; [done|]. split.
    + by apply (worker_step_inv (w, Running) (w', Running)); [|constructor].
    + eapply healthy_world_insert; [|by do 2 apply healthy_after_read|by rewrite Hdev, Hd2].
      eapply healthy_world_insert; [done|by apply healthy_after_read|exact Hd1].
  - eexists. rewrite run_iteration_none by done. split; [reflexivity|]. split.
    + by apply (worker_step_inv (w, Running) (_, Running)); [|constructor; rewrite run_iteration_none].
    + intros a d. apply Hh.
Qed.

(** One pass of the [while True] loop of [run] that returns normally. *)
Definition loop_pass w w' : Prop := run_iteration w = (w', inr tt).

(** C12: [run] never ends on its own: from a reachable state whose
    instruments are healthy, every pass of the loop returns normally and
    leaves the thread in such a state again, so the thread runs an
    infinite sequence of passes of [run_iteration] (connected or not),
    with no other step in between. *)
Theorem worker_runs_forever w :
  worker_inv w -> healthy_world w -> infseq loop_pass w.
Proof.
  intros Hinv Hh. apply (infseq_of_invariant _ (fun w1 => worker_inv w1 /\ healthy_world w1));
    [|done].
  intros w1 [Hi Hh1]. destruct (run_iteration_live w1 Hi Hh1) as (w' & E & Hi' & Hh').
  by exists w'.
Qed.

(** C13: [run] publishes the same two objects on every pass and
    overwrites them in place: after a pass that published [o1] and [o2],
    the instrument acquires new data [c1'], and the next pass publishes
    [o1] and [o2] again, with [o1] now holding the snapshot of [c1'].
    A receiver that kept [o1] from the first pass sees the second pass's
    data. *)
Theorem worker_reuses_objects w s d c1 c2 d' c1' c2' :
  worker_inv w -> scope (w_self w) = Some s -> w_devs w !! sess_addr s = Some d ->
  healthy c1 c2 d -> stop_connection (w_self w) = false -> healthy c1' c2' d' ->
  exists w1 w2 o1 o2,
    run_iteration w = (w1, inr tt) /\
    (exists pre, w_out w1 = w_out w ++ pre ++ [Sig_data_receivedCH1 o1; Sig_data_receivedCH2 o2]) /\
    run_iteration (set_dev (sess_addr s) d' w1) = (w2, inr tt) /\
    (exists pre, w_out w2 = w_out w1 ++ pre ++ [Sig_data_receivedCH1 o1; Sig_data_receivedCH2 o2]) /\
    abs_snapshot <$> w_heap w2 !! o1 = Some (spec_snapshot c1').
Proof.
  intros Hinv Hs Hd Hh Hstop Hh'.
  destruct (run_iteration_rigol w s d c1 c2)
    as (w1 & w2 & o1 & o2 & w' & E & P1 & P2 & L1 & L2 & Er & Ho & _ & Hdict & _ & _ & Hst & _ & Hnostop);
    [done..|].
  destruct (Hnostop Hstop) as (Hs' & _ & _).
  set (W := set_dev (sess_addr s) d' w').
  assert (Hw' : worker_inv w').
  { apply (worker_step_inv (w, Running) (w', Running)); [done|by constructor]. }
  assert (HW : worker_inv W).
  { apply (worker_step_inv (w', Running) (W, Running)); [done|].
    apply ws_env. exact (proj1 (proj2 Hw' s Hs')). }
  destruct (run_iteration_rigol W s d' c1' c2')
    as (v1 & v2 & p1 & p2 & w'' & E' & Q1 & Q2 & M1 & M2 & Er' & Ho' & Hheap' & _ & _);
    [done|done|by unfold W, set_dev; simpl; rewrite lookup_insert_eq|done|].
  assert (Hp : p1 = o1 /\ p2 = o2).
  { pose proof (getData_online_extends W) as Hext. rewrite E' in Hext. simpl in Hext.
    split; [apply (inj Some); rewrite <- M1; apply Hext; simpl; by rewrite Hdict
           |apply (inj Some); rewrite <- M2; apply Hext; simpl; by rewrite Hdict]. }
  destruct Hp as [-> ->].
  pose proof P1 as (_ & _ & _ & _ & _ & _ & _ & Ho1 & _).
  pose proof P2 as (_ & _ & _ & _ & _ & _ & _ & Ho2 & _).
  pose proof Q1 as (_ & [q1 S1] & _ & _ & _ & _ & _ & Ho1' & _).
  pose proof Q2 as (_ & _ & Hoth2 & _ & _ & _ & _ & Ho2' & _).
  exists w', w'', o1, o2. split; [done|]. split.
  { exists [Sig_Statustext (St_NormalRead "CHAN1" (length (cd_raw c1)));
            Sig_Statustext (St_NormalRead "CHAN2" (length (cd_raw c2)))].
    rewrite Ho, Ho2, Ho1. by rewrite <- !app_assoc. }
  split; [done|]. split.
  { exists [Sig_Statustext (St_NormalRead "CHAN1" (length (cd_raw c1')));
            Sig_Statustext (St_NormalRead "CHAN2" (length (cd_raw c2')))].
    rewrite Ho', Ho2', Ho1'. change (w_out W) with (w_out w'). by rewrite <- !app_assoc. }
  rewrite Hheap'. rewrite <- Hoth2 in S1 by done. unfold snapshot_of in S1. rewrite M1 in S1.
  simpl in S1. rewrite S1. simpl. by rewrite abs_stored.
Qed.
End Liveness.

Section Timeout.
Context {A : Type} `{Num A}.
Implicit Types w : world A (Rigol A).
Local Open Scope py_scope.

Lemma read_waveform_timeout (d : Rigol A) ch :
  rg_fuse d = Some 0 -> exists d', read_waveform ch d = (d', inl VisaIOError).
Proof. destruct d as [fo so mo chs fu lg]; simpl. intros ->. eexists. reflexivity. Qed.

(** Once dead, the thread stays dead and publishes nothing: the only steps
    left are the GUI's calls and the environment, none of which emits. *)
Lemma died_stays_dead w e st :
  star worker_step (w, Died e) st -> st.2 = Died e /\ w_out st.1 = w_out w.
Proof.
  remember (w, Died e) as st0 eqn:E. intros Hs. revert w E.
  induction Hs as [st0|st1 st2 st3 Hstep Hs IH]; intros w E; subst; [done|].
  inversion Hstep as [| |ADR ? w' r t Ec|? w' r t Ec|? a d t Ha]; subst.
  - destruct (IH w' eq_refl) as [-> Ho]. split; [done|]. rewrite Ho.
    unfold connect_scope_ADR, new_ResourceManager, fresh_id, open_resource in Ec.
    unfold py_bind, py_modify, py_get, py_ret, py_raise in Ec. simpl in Ec.
    destruct (w_devs w !! ADR); simpl in Ec; by simplify_eq.
  - destruct (IH w' eq_refl) as [-> Ho]. split; [done|]. rewrite Ho.
    unfold Disconnect_scope, py_modify in Ec. by simplify_eq.
  - by destruct (IH _ eq_refl) as [-> ->].
Qed.

(** C16: if the scope stops answering in the middle of an acquisition, the
    [VisaIOError] is not caught anywhere in [run]: the acquisition thread
    dies before publishing anything, and from then on no snapshot and no
    status is ever emitted again, whatever the GUI does. *)
Theorem timeout_kills_worker w s d :
  worker_inv w -> scope (w_self w) = Some s -> w_devs w !! sess_addr s = Some d ->
  rg_fuse d = Some 0 ->
  exists w', worker_step (w, Running) (w', Died VisaIOError) /\ w_out w' = w_out w /\
    forall st, star worker_step (w', Died VisaIOError) st ->
      st.2 = Died VisaIOError /\ w_out st.1 = w_out w.
Proof.
  intros [Hwf _] Hs Hd Hf.
  destruct (ensure_channel_post "CHAN1" w Hwf)
    as (w1 & l & He & _ & (Hsc & _ & _ & Hout & Hdev & _) & _ & _).
  destruct (read_waveform_timeout d "CHAN1" Hf) as [d' Er].
  assert (Hio : scope_io (read_waveform "CHAN1") w1 =
                (set_dev (sess_addr s) d' w1, inl VisaIOError)).
  { apply (scope_io_spec _ _ s d); [congruence|congruence|exact Er]. }
  assert (Ea : acquire_channel "CHAN1" w = (set_dev (sess_addr s) d' w1, inl VisaIOError)).
  { unfold acquire_channel. rewrite (py_bind_inr _ _ _ _ _ He). by apply py_bind_inl. }
  assert (Eg : getData_online w = (set_dev (sess_addr s) d' w1, inl VisaIOError)).
  { unfold getData_online, channels. simpl py_for. rewrite py_bind_assoc. by apply py_bind_inl. }
  exists (set_dev (sess_addr s) d' w1). split; [|split].
  - apply ws_crash. rewrite (run_iteration_some w s) by done. by apply py_bind_inl.
  - simpl. exact Hout.
  - intros st Hst. destruct (died_stays_dead _ _ _ Hst) as [? ->]. split; [done|]. exact Hout.
Qed.
End Timeout.

(** ** Witnesses *)

Definition demo_connected : world Q (Rigol Q) :=
  (connect_scope_ADR demo_addr (world_init demo_devs)).1.
Definition demo_polled : world Q (Rigol Q) := (run_iteration demo_connected).1.

(** The scope after it has acquired new waveforms. *)
Definition demo_chan1b : ChanData Q := mkChanData [x90; x70; x80] (1#500) (1#10) 0%Q 0%Q 2%Q 0%Q.
Definition demo_dev2 : Rigol Q :=
  mkRigol "BYTE" "CHAN2" "NORM" [("CHAN1", demo_chan1b); ("CHAN2", demo_chan2)] None [].

(** A scope that no longer answers. *)
Definition demo_dead : Rigol Q :=
  mkRigol "BYTE" "CHAN1" "NORM" [("CHAN1", demo_chan1); ("CHAN2", demo_chan2)] (Some 0) [].
Definition demo_world_dead : world Q (Rigol Q) :=
  mkWorld (mkWorker (Some demo_session) (Some 0) false ∅) ∅ 1%positive []
    {[demo_addr := demo_dead]} 2 [0] [demo_session].

Lemma demo_world_inv : worker_inv demo_world.
Proof.
  split; [apply world_wf_empty; reflexivity|].
  intros s Hs. injection Hs as <-. split; [by eexists|discriminate].
Qed.

Lemma demo_world_dead_inv : worker_inv demo_world_dead.
Proof.
  split; [apply world_wf_empty; reflexivity|].
  intros s Hs. injection Hs as <-. split; [by eexists|discriminate].
Qed.

Lemma demo_world_healthy : healthy_world demo_world.
Proof.
  intros a d Hl. simpl in Hl. apply lookup_singleton_Some in Hl as [_ <-].
  exists demo_chan1, demo_chan2. split; reflexivity.
Qed.

Lemma demo_reach : star worker_step (world_init demo_devs, Running) (demo_polled, Running).
Proof.
  eapply star_step.
  { apply (ws_connect demo_addr _ demo_connected
             (connect_scope_ADR (A:=Q) demo_addr (world_init demo_devs)).2 Running).
    apply surjective_pairing. }
  eapply star_step; [|apply star_refl].
  apply ws_iterate. vm_compute. reflexivity.
Qed.

Lemma worker_reachable_inv_witness :
  star worker_step (world_init demo_devs, Running) (demo_polled, Running) /\ worker_inv demo_polled.
Proof. split; [exact demo_reach|exact (worker_reachable_inv demo_devs demo_polled Running demo_reach)]. Defined.

Lemma disconnect_takes_effect_witness :
  (worker_inv demo_world /\ scope (w_self demo_world) = Some demo_session /\
   w_devs demo_world !! sess_addr demo_session = Some demo_dev /\
   healthy demo_chan1 demo_chan2 demo_dev) /\
  exists w' o1 o2, (Disconnect_scope ;;; run_iteration)%py demo_world = (w', inr tt) /\
    scope (w_self w') = None /\ (demo_session ∉ w_open_sessions w') /\
    (forall r, rm (w_self demo_world) = Some r -> r ∉ w_open_rms w') /\
    exists pre, w_out w' = w_out demo_world ++ pre ++
                 [Sig_data_receivedCH1 o1; Sig_data_receivedCH2 o2].
Proof.
  split; [split_and!; [exact demo_world_inv|reflexivity|reflexivity|split; reflexivity]|].
  exact (disconnect_takes_effect demo_world demo_session demo_dev demo_chan1 demo_chan2
           demo_world_inv eq_refl eq_refl (conj eq_refl eq_refl)).
Defined.

Lemma worker_runs_forever_witness :
  (worker_inv demo_world /\ healthy_world demo_world) /\ infseq loop_pass demo_world.
Proof.
  split; [split; [exact demo_world_inv|exact demo_world_healthy]|].
  exact (worker_runs_forever demo_world demo_world_inv demo_world_healthy).
Defined.

Lemma worker_reuses_objects_witness :
  (worker_inv demo_world /\ stop_connection (w_self demo_world) = false /\
   healthy demo_chan1b demo_chan2 demo_dev2) /\
  exists w1 w2 o1 o2,
    run_iteration demo_world = (w1, inr tt) /\
    (exists pre, w_out w1 = w_out demo_world ++ pre ++ [Sig_data_receivedCH1 o1; Sig_data_receivedCH2 o2]) /\
    run_iteration (set_dev (sess_addr demo_session) demo_dev2 w1) = (w2, inr tt) /\
    (exists pre, w_out w2 = w_out w1 ++ pre ++ [Sig_data_receivedCH1 o1; Sig_data_receivedCH2 o2]) /\
    abs_snapshot <$> w_heap w2 !! o1 = Some (spec_snapshot demo_chan1b).
Proof.
  split; [split_and!; [exact demo_world_inv|reflexivity|split; reflexivity]|].
  exact (worker_reuses_objects demo_world demo_session demo_dev demo_chan1 demo_chan2
           demo_dev2 demo_chan1b demo_chan2 demo_world_inv eq_refl eq_refl
           (conj eq_refl eq_refl) eq_refl (conj eq_refl eq_refl)).
Defined.

Lemma timeout_kills_worker_witness :
  (worker_inv demo_world_dead /\ rg_fuse demo_dead = Some 0) /\
  exists w', worker_step (demo_world_dead, Running) (w', Died VisaIOError) /\
    w_out w' = w_out demo_world_dead /\
    forall st, star worker_step (w', Died VisaIOError) st ->
      st.2 = Died VisaIOError /\ w_out st.1 = w_out demo_world_dead.
Proof.
  split; [split; [exact demo_world_dead_inv|reflexivity]|].
  exact (timeout_kills_worker demo_world_dead demo_session demo_dead demo_world_dead_inv
           eq_refl eq_refl eq_refl).
Defined.
