(* ===== verification/Display.v ===== *)
(** The display controller [Rigol_Live] (src/Rigol_Live_View.py, lines
    183-365): the main window's state, the slots that receive the worker's
    signals ([receive_dataCH1], [receive_dataCH2], [update_status]), the
    connection-string list ([add_connection_string]) and the timer-driven
    redraw [plot_channel].

    The window keeps references to the worker's objects in its own
    dictionary [Scope_wave]; [plot_channel] reads them through the shared
    heap, which it never writes.  The pyqtgraph widgets are modelled by what
    the code sets on them: the two curves' data, the axis ranges, the title,
    the grid and visibility flags.  A pyqtgraph curve whose x and y arrays
    differ in length raises ([ShapeError]).

    Theorems: the [KeyError] of a redraw before data (C14), the first draw
    (C15), and that in float64 a later draw moves the horizontal range
    exactly when an extreme of channel 1's time axis is NaN (C31): the
    test of line 356 compares each extreme with itself. *)

From Stdlib Require Import ZArith.
From stdpp Require Import base list strings gmap pretty.
From Stdlib Require Import QArith Strings.Byte Floats.
From S2P Require Import Prelude Numeric ScopeData Transform Instrument Worker.

(** The texts the window shows in its status bar. *)
Inductive ui_msg :=
  | Msg_Connecting (addr : string)      (** f'Connecting to {connection_string}' *)
  | Msg_Disconnected                    (** 'Disconnected.' *)
  | Msg_Worker (s : status_text).       (** a [Statustext] from the worker *)

Section Display.
Context {A : Type} `{Num A}.

(** The pyqtgraph plot item [self.plotitem] as the code configures it. *)
Record PlotItem := mkPlotItem {
  pi_title : string;
  pi_xrange : option (A * A);
  pi_yrange : option (Z * Z);
  pi_left_range : option (A * A);
  pi_right_range : option (A * A);
  pi_grid : bool
}.

Definition PlotItem_init : PlotItem := mkPlotItem "PyQtGraph Test" None None None None false.

(** The attributes of a [Rigol_Live] window that the code reads or
    writes after construction; a curve is the data it displays. *)
Record Rigol_Live := mkLive {
  plotitem : PlotItem;
  plotdataitem : option (list A * list A);
  plotdataitem1 : option (list A * list A);
  win_shown : bool;
  ui_Scope_wave : gmap string loc;
  connection_combo : list string;
  combo_index : nat;
  status_message : option (ui_msg * Z);
  pqTimer : option Z;
  combo_text : string            (** the text of the editable combo box *)
}.

(** The state [__init__] leaves before its final [connect_tool()] call
    (lines 184-246): the three preset connection strings, the first one
    selected, an empty plot. *)
Definition Rigol_Live_init : Rigol_Live :=
  mkLive PlotItem_init None None false ∅
    ["TCPIP0::192.168.1.23::inst0::INSTR"; "TCPIP0::192.168.1.23::5555::SOCKET";
     "USB0::0x1AB1::0x04B0::DS2A153502286::INSTR"] 0 None None
    "TCPIP0::192.168.1.23::inst0::INSTR".

Definition set_plotitem (v : PlotItem) (u : Rigol_Live) : Rigol_Live :=
  mkLive v (plotdataitem u) (plotdataitem1 u) (win_shown u) (ui_Scope_wave u)
    (connection_combo u) (combo_index u) (status_message u) (pqTimer u) (combo_text u).
Definition set_curves (c1 c2 : option (list A * list A)) (u : Rigol_Live) : Rigol_Live :=
  mkLive (plotitem u) c1 c2 (win_shown u) (ui_Scope_wave u)
    (connection_combo u) (combo_index u) (status_message u) (pqTimer u) (combo_text u).
Definition set_shown (u : Rigol_Live) : Rigol_Live :=
  mkLive (plotitem u) (plotdataitem u) (plotdataitem1 u) true (ui_Scope_wave u)
    (connection_combo u) (combo_index u) (status_message u) (pqTimer u) (combo_text u).
Definition set_ui_Scope_wave (v : gmap string loc) (u : Rigol_Live) : Rigol_Live :=
  mkLive (plotitem u) (plotdataitem u) (plotdataitem1 u) (win_shown u) v
    (connection_combo u) (combo_index u) (status_message u) (pqTimer u) (combo_text u).
Definition set_combo (v : list string) (u : Rigol_Live) : Rigol_Live :=
  mkLive (plotitem u) (plotdataitem u) (plotdataitem1 u) (win_shown u) (ui_Scope_wave u)
    v (combo_index u) (status_message u) (pqTimer u) (combo_text u).
Definition set_status (v : option (ui_msg * Z)) (u : Rigol_Live) : Rigol_Live :=
  mkLive (plotitem u) (plotdataitem u) (plotdataitem1 u) (win_shown u) (ui_Scope_wave u)
    (connection_combo u) (combo_index u) v (pqTimer u) (combo_text u).
Definition set_timer (v : option Z) (u : Rigol_Live) : Rigol_Live :=
  mkLive (plotitem u) (plotdataitem u) (plotdataitem1 u) (win_shown u) (ui_Scope_wave u)
    (connection_combo u) (combo_index u) (status_message u) v (combo_text u).
(** The user types into the editable combo box (line 224). *)
Definition set_combo_text (v : string) (u : Rigol_Live) : Rigol_Live :=
  mkLive (plotitem u) (plotdataitem u) (plotdataitem1 u) (win_shown u) (ui_Scope_wave u)
    (connection_combo u) (combo_index u) (status_message u) (pqTimer u) v.

Definition pi_set_xrange (r : A * A) (p : PlotItem) : PlotItem :=
  mkPlotItem (pi_title p) (Some r) (pi_yrange p) (pi_left_range p) (pi_right_range p) (pi_grid p).
Definition pi_set_yrange (r : Z * Z) (p : PlotItem) : PlotItem :=
  mkPlotItem (pi_title p) (pi_xrange p) (Some r) (pi_left_range p) (pi_right_range p) (pi_grid p).
Definition pi_set_left (r : A * A) (p : PlotItem) : PlotItem :=
  mkPlotItem (pi_title p) (pi_xrange p) (pi_yrange p) (Some r) (pi_right_range p) (pi_grid p).
Definition pi_set_right (r : A * A) (p : PlotItem) : PlotItem :=
  mkPlotItem (pi_title p) (pi_xrange p) (pi_yrange p) (pi_left_range p) (Some r) (pi_grid p).
Definition pi_set_title (t : string) (p : PlotItem) : PlotItem :=
  mkPlotItem t (pi_xrange p) (pi_yrange p) (pi_left_range p) (pi_right_range p) (pi_grid p).
Definition pi_set_grid (p : PlotItem) : PlotItem :=
  mkPlotItem (pi_title p) (pi_xrange p) (pi_yrange p) (pi_left_range p) (pi_right_range p) true.
End Display.


Arguments PlotItem A : clear implicits.
Arguments Rigol_Live A : clear implicits.

Section Slots.
Context {A : Type} `{Num A}.
Local Open Scope py_scope.
Implicit Types h : gmap loc (ScopeData_nativ A).
Implicit Types u : Rigol_Live A.

(** [Rigol_Live.receive_dataCH1] / [receive_dataCH2] (lines 282-290):
    keep the reference the signal carries. *)
Definition receive_dataCH1 (data : loc) : PyM (Rigol_Live A) unit :=
  py_modify (fun u => set_ui_Scope_wave (<["CHAN1" := data]> (ui_Scope_wave u)) u).
Definition receive_dataCH2 (data : loc) : PyM (Rigol_Live A) unit :=
  py_modify (fun u => set_ui_Scope_wave (<["CHAN2" := data]> (ui_Scope_wave u)) u).

(** [Rigol_Live.update_status] (lines 278-280). *)
Definition update_status (message : status_text) : PyM (Rigol_Live A) unit :=
  py_modify (set_status (Some (Msg_Worker message, 2000%Z))).

(** [Rigol_Live.add_connection_string] (lines 251-254), given what the
    input dialog returned. *)
Definition add_connection_string (text : string) (ok : bool) : PyM (Rigol_Live A) unit :=
  if ok && negb (String.eqb text "") then py_modify (fun u => set_combo (connection_combo u ++ [text]) u)
  else py_ret tt.

(** [self.connection_combo.currentText()]: the combo box is editable
    (line 224), so this is the text of its line edit, which selecting an
    entry overwrites and which the user may edit freely. *)
Definition currentText u : string := combo_text u.

(** [self.Scope_wave[k]], dereferenced in the shared heap. *)
Definition ui_obj h (k : string) : PyM (Rigol_Live A) (ScopeData_nativ A) := fun u =>
  match ui_Scope_wave u !! k ≫= fun l => h !! l with
  | Some o => (u, inr o)
  | None => (u, inl (KeyError k))
  end.

Definition of_sum {S X} (r : py_exc + X) : PyM S X := fun s => (s, r).

(** pyqtgraph's [plot(x=..., y=...)] and [setData(x=..., y=...)] reject
    arrays of different lengths. *)
Definition curve_data (xs ys : list A) : PyM (Rigol_Live A) (list A * list A) :=
  if decide (length xs = length ys) then py_ret (xs, ys) else py_raise ShapeError.

Definition modify_plotitem (f : PlotItem A -> PlotItem A) : PyM (Rigol_Live A) unit :=
  py_modify (fun u => set_plotitem (f (plotitem u)) u).

(** Lines 320-353: the first draw. *)
Definition first_draw (x1 y1 y2 : list A) (min_x max_x : A) : PyM (Rigol_Live A) unit :=
  c1 <- curve_data x1 y1 ;;
  py_modify (fun u => set_curves (Some c1) (plotdataitem1 u) u) ;;;
  c2 <- curve_data x1 y2 ;;
  py_modify (fun u => set_curves (plotdataitem u) (Some c2) u) ;;;
  modify_plotitem (pi_set_xrange (min_x, max_x)) ;;;
  modify_plotitem (pi_set_yrange ((-10)%Z, 10%Z)) ;;;
  lo1 <- of_sum (py_min y1) ;; hi1 <- of_sum (py_max y1) ;;
  modify_plotitem (pi_set_left (lo1, hi1)) ;;;
  lo2 <- of_sum (py_min y2) ;; hi2 <- of_sum (py_max y2) ;;
  modify_plotitem (pi_set_right (lo2, hi2)) ;;;
  modify_plotitem pi_set_grid ;;;
  py_modify set_shown.

(** Lines 354-363: a later draw.  [max_x_last] and [min_x_last] are the
    locals assigned on lines 305-306 from [max_x] and [min_x]. *)
Definition update_draw (x1 y1 y2 : list A) (min_x max_x min_x_last max_x_last : A) :
    PyM (Rigol_Live A) unit :=
  (if negb (num_eqb max_x max_x_last) || negb (num_eqb min_x min_x_last)
   then modify_plotitem (pi_set_xrange (min_x, max_x)) else py_ret tt) ;;;
  modify_plotitem (pi_set_title ("PyQtGraph Test " +:+ pretty (length x1))) ;;;
  c1 <- curve_data x1 y1 ;;
  py_modify (fun u => set_curves (Some c1) (plotdataitem1 u) u) ;;;
  c2 <- curve_data x1 y2 ;;
  py_modify (fun u => set_curves (plotdataitem u) (Some c2) u).

(** [Rigol_Live.plot_channel] (lines 299-365), run by the 500 ms timer.
    The window [LiveG_win] exists from [__init__] on, so the test of
    line 314 is always false. *)
Definition plot_channel h : PyM (Rigol_Live A) unit :=
  o <- ui_obj h "CHAN1" ;; max_x <- of_sum (np_max (x o)) ;;
  o' <- ui_obj h "CHAN1" ;; min_x <- of_sum (np_min (x o')) ;;
  u <- py_get ;;
  if decide (is_Some (ui_Scope_wave u !! "CHAN1")) then
    let max_x_last := max_x in
    let min_x_last := min_x in
    o1 <- ui_obj h "CHAN1" ;;
    o2 <- ui_obj h "CHAN2" ;;
    match plotdataitem u with
    | None => first_draw (x o1) (y o1) (y o2) min_x max_x
    | Some _ => update_draw (x o1) (y o1) (y o2) min_x max_x min_x_last max_x_last
    end
  else py_ret tt.
End Slots.

Section DisplayFacts.
Context {A : Type} `{Num A}.
Local Open Scope py_scope.
Implicit Types h : gmap loc (ScopeData_nativ A).
Implicit Types u : Rigol_Live A.

(** C14: a redraw before any snapshot has been received raises
    [KeyError('CHAN1')] at line 301, before the membership test of line
    304 that was meant to print "NoDATA"; the window is left as it was. *)
Theorem plot_channel_no_data h u :
  ui_Scope_wave u !! "CHAN1" = None -> plot_channel h u = (u, inl (KeyError "CHAN1")).
Proof. intros Hn. unfold plot_channel, py_bind at 1, ui_obj. by rewrite Hn. Qed.

Lemma of_sum_inr {S X} (r : py_exc + X) v (s : S) : r = inr v -> of_sum r s = (s, inr v).
Proof. by intros ->. Qed.

Lemma ui_obj_Some h k l o u :
  ui_Scope_wave u !! k = Some l -> h !! l = Some o -> ui_obj h k u = (u, inr o).
Proof. intros Hk Ho. unfold ui_obj. by rewrite Hk; simpl; rewrite Ho. Qed.

(** What the first draw shows, when the arrays it is given fit. *)
Lemma first_draw_spec x1 y1 y2 mn mx lo1 hi1 lo2 hi2 u :
  length x1 = length y1 -> length x1 = length y2 ->
  py_min y1 = inr lo1 -> py_max y1 = inr hi1 -> py_min y2 = inr lo2 -> py_max y2 = inr hi2 ->
  first_draw x1 y1 y2 mn mx u =
    (set_shown (set_plotitem (pi_set_grid (pi_set_right (lo2, hi2) (pi_set_left (lo1, hi1)
       (pi_set_yrange ((-10)%Z, 10%Z) (pi_set_xrange (mn, mx) (plotitem u))))))
       (set_curves (Some (x1, y1)) (Some (x1, y2)) u)), inr tt).
Proof.
  intros Hl1 Hl2 E1 E2 E3 E4. unfold first_draw, curve_data.
  destruct (decide (length x1 = length y1)); [|contradiction].
  destruct (decide (length x1 = length y2)); [|contradiction].
  unfold py_bind, py_ret, py_modify, of_sum, modify_plotitem. cbn -[py_min py_max]. rewrite E1, E2, E3, E4. reflexivity.
Qed.

(** Past the reads of lines 301-313, a redraw with both channels present
    is the first draw or a later one. *)
Lemma plot_channel_dispatch h u l1 l2 o1 o2 mn mx :
  ui_Scope_wave u !! "CHAN1" = Some l1 -> h !! l1 = Some o1 ->
  ui_Scope_wave u !! "CHAN2" = Some l2 -> h !! l2 = Some o2 ->
  np_min (x o1) = inr mn -> np_max (x o1) = inr mx ->
  plot_channel h u =
    match plotdataitem u with
    | None => first_draw (x o1) (y o1) (y o2) mn mx
    | Some _ => update_draw (x o1) (y o1) (y o2) mn mx mn mx
    end u.
Proof.
  intros L1 O1 L2 O2 Emn Emx. unfold plot_channel.
  erewrite py_bind_inr; [|by apply (ui_obj_Some _ _ l1)].
  erewrite py_bind_inr; [|by apply of_sum_inr].
  erewrite py_bind_inr; [|by apply (ui_obj_Some _ _ l1)].
  erewrite py_bind_inr; [|by apply of_sum_inr].
  erewrite py_bind_inr; [|reflexivity].
  rewrite decide_True by (rewrite L1; by eexists).
  erewrite py_bind_inr; [|by apply (ui_obj_Some _ _ l1)].
  by erewrite py_bind_inr; [|by apply (ui_obj_Some _ _ l2)].
Qed.

(** C15: the first redraw after both channels arrived draws channel 1's
    [y] and channel 2's [y] against channel 1's [x], sets the horizontal
    range to the extent of channel 1's time axis, the left axis fixed to
    [-10, 10], and shows the window. *)
Theorem plot_channel_first_draw h u l1 l2 o1 o2 mn mx lo1 hi1 lo2 hi2 :
  ui_Scope_wave u !! "CHAN1" = Some l1 -> h !! l1 = Some o1 ->
  ui_Scope_wave u !! "CHAN2" = Some l2 -> h !! l2 = Some o2 ->
  plotdataitem u = None -> length (x o1) = length (y o1) -> length (x o1) = length (y o2) ->
  np_min (x o1) = inr mn -> np_max (x o1) = inr mx ->
  py_min (y o1) = inr lo1 -> py_max (y o1) = inr hi1 ->
  py_min (y o2) = inr lo2 -> py_max (y o2) = inr hi2 ->
  exists u', plot_channel h u = (u', inr tt) /\
    plotdataitem u' = Some (x o1, y o1) /\ plotdataitem1 u' = Some (x o1, y o2) /\
    pi_xrange (plotitem u') = Some (mn, mx) /\ pi_yrange (plotitem u') = Some ((-10)%Z, 10%Z) /\
    win_shown u' = true.
Proof.
  intros L1 O1 L2 O2 Hp Hl1 Hl2 Emn Emx E1 E2 E3 E4.
  rewrite (plot_channel_dispatch h u l1 l2 o1 o2 mn mx), Hp by done.
  erewrite first_draw_spec by eassumption.
  eexists. split; [reflexivity|]. by split_and!.
Qed.

(** A later draw shows the new arrays whenever they fit, whatever the
    test of line 356 decides. *)
Lemma update_draw_curves x1 y1 y2 mn mx mnl mxl u :
  length x1 = length y1 -> length x1 = length y2 ->
  exists u', update_draw x1 y1 y2 mn mx mnl mxl u = (u', inr tt) /\
    plotdataitem u' = Some (x1, y1) /\ plotdataitem1 u' = Some (x1, y2).
Proof.
  intros Hl1 Hl2. unfold update_draw, curve_data.
  rewrite !decide_True by done. by destruct (_ || _); eexists.
Qed.

Lemma np_extrema_cons (a : A) l : exists mn mx, np_min (a :: l) = inr mn /\ np_max (a :: l) = inr mx.
Proof. by do 2 eexists. Qed.

(** Any redraw with both channels present and arrays that fit shows
    channel 1's and channel 2's voltages against channel 1's times, first
    draw or not. *)
Lemma plot_channel_curves h u l1 l2 o1 o2 :
  ui_Scope_wave u !! "CHAN1" = Some l1 -> h !! l1 = Some o1 ->
  ui_Scope_wave u !! "CHAN2" = Some l2 -> h !! l2 = Some o2 ->
  x o1 <> [] -> length (x o1) = length (y o1) -> length (x o1) = length (y o2) ->
  exists u', plot_channel h u = (u', inr tt) /\
    plotdataitem u' = Some (x o1, y o1) /\ plotdataitem1 u' = Some (x o1, y o2).
Proof.
  intros L1 O1 L2 O2 Hx Hl1 Hl2.
  destruct (x o1) as [|a xs] eqn:Ex; [done|].
  destruct (np_extrema_cons a xs) as (mn & mx & Emn & Emx).
  rewrite (plot_channel_dispatch h u l1 l2 o1 o2 mn mx) by (rewrite ?Ex; done). rewrite Ex.
  destruct (plotdataitem u); [by apply update_draw_curves|].
  destruct (y o1) as [|b1 y1] eqn:Ey1; [done|]. destruct (y o2) as [|b2 y2] eqn:Ey2; [done|].
  erewrite first_draw_spec; [by eexists| done..].
Qed.
End DisplayFacts.

(** What a later draw does to the horizontal range, on every path
    (including the [ShapeError] ones): the test of line 356 alone
    decides. *)
Lemma update_draw_xrange {A} `{Num A} x1 y1 y2 (mn mx mnl mxl : A) u u' r :
  update_draw x1 y1 y2 mn mx mnl mxl u = (u', r) ->
  pi_xrange (plotitem u') =
    if negb (num_eqb mx mxl) || negb (num_eqb mn mnl) then Some (mn, mx) else pi_xrange (plotitem u).
Proof.
  unfold update_draw, curve_data, modify_plotitem, py_bind, py_modify, py_ret, py_raise.
  destruct (_ || _); repeat case_decide; intros E; by simplify_eq/=.
Qed.

(** Python's [x != x] on a float64 is true exactly for NaN. *)
Lemma float_eqb_refl (a : float) : num_eqb a a = negb (PrimFloat.is_nan a).
Proof. unfold PrimFloat.is_nan. simpl. by rewrite negb_involutive. Qed.

(** C31: in float64 the test of line 356 is not always false: it is
    true exactly when an extreme of channel 1's time axis is NaN (numpy's
    [max] and [min] propagate a NaN sample, and the first sample is
    [0 * x_increment + x_origin], NaN when [x_increment] is infinite).
    Then every later redraw sets the horizontal range to that NaN pair;
    otherwise the range stays the one the first draw set.  This holds on
    every path of the redraw, the [ShapeError] ones included. *)
Theorem plot_channel_nan_rerange (h : gmap loc (ScopeData_nativ float)) (u u' : Rigol_Live float) r
    l1 l2 o1 o2 mn mx :
  ui_Scope_wave u !! "CHAN1" = Some l1 -> h !! l1 = Some o1 ->
  ui_Scope_wave u !! "CHAN2" = Some l2 -> h !! l2 = Some o2 ->
  plotdataitem u <> None -> np_min (x o1) = inr mn -> np_max (x o1) = inr mx ->
  plot_channel h u = (u', r) ->
  pi_xrange (plotitem u') =
    if PrimFloat.is_nan mx || PrimFloat.is_nan mn then Some (mn, mx) else pi_xrange (plotitem u).
Proof.
  intros L1 O1 L2 O2 Hp Emn Emx. rewrite (plot_channel_dispatch h u l1 l2 o1 o2 mn mx) by done.
  destruct (plotdataitem u) as [c|]; [|done]. intros E.
  by rewrite (update_draw_xrange _ _ _ _ _ _ _ _ _ _ E), !float_eqb_refl, !negb_involutive.
Qed.

(** ** Witnesses *)

Definition demo_obj (c : ChanData Q) : ScopeData_nativ Q :=
  stored c (apply_writes placeholder_writes ScopeData_nativ_init).
Definition demo_heap : gmap loc (ScopeData_nativ Q) :=
  {[1%positive := demo_obj demo_chan1; 2%positive := demo_obj demo_chan2]}.
Definition demo_ui : Rigol_Live Q :=
  set_ui_Scope_wave {["CHAN1" := 1%positive; "CHAN2" := 2%positive]} Rigol_Live_init.

Lemma plot_channel_no_data_witness :
  ui_Scope_wave (Rigol_Live_init (A:=Q)) !! "CHAN1" = None /\
  plot_channel demo_heap Rigol_Live_init = (Rigol_Live_init, inl (KeyError "CHAN1")).
Proof.
  assert (Hn : ui_Scope_wave (Rigol_Live_init (A:=Q)) !! "CHAN1" = None) by reflexivity.
  split; [exact Hn|]. exact (plot_channel_no_data demo_heap _ Hn).
Defined.

Lemma plot_channel_first_draw_witness :
  exists u', plot_channel demo_heap demo_ui = (u', inr tt) /\
    plotdataitem u' = Some (x (demo_obj demo_chan1), y (demo_obj demo_chan1)) /\
    plotdataitem1 u' = Some (x (demo_obj demo_chan1), y (demo_obj demo_chan2)) /\
    pi_xrange (plotitem u') = Some (time_at (1#1000) 0%Q 0, time_at (1#1000) 0%Q 2) /\
    pi_yrange (plotitem u') = Some ((-10)%Z, 10%Z) /\ win_shown u' = true.
Proof.
  apply (plot_channel_first_draw demo_heap demo_ui 1%positive 2%positive
           (demo_obj demo_chan1) (demo_obj demo_chan2)
           (time_at (1#1000) 0%Q 0) (time_at (1#1000) 0%Q 2)
           (voltage_at 0 0 1 0 x00) (voltage_at 0 0 1 0 xe4)
           (voltage_at 0 0 (1#2) 0 x10) (voltage_at 0 0 (1#2) 0 xff));
    vm_compute; reflexivity.
Defined.

(** A channel whose preamble reports an infinite sample interval: its
    first time sample is [0 * inf = nan]. *)
Definition nan_chan : ChanData float :=
  mkChanData [x80; x81] PrimFloat.infinity 0%float 0%float 0%float 1%float 0%float.
Definition nan_obj : ScopeData_nativ float :=
  stored nan_chan (apply_writes placeholder_writes ScopeData_nativ_init).
Definition nan_heap : gmap loc (ScopeData_nativ float) :=
  {[1%positive := nan_obj; 2%positive := nan_obj]}.
Definition nan_drawn : Rigol_Live float :=
  set_curves (Some ([], [])) None
    (set_ui_Scope_wave {["CHAN1" := 1%positive; "CHAN2" := 2%positive]} Rigol_Live_init).

Lemma plot_channel_nan_rerange_witness :
  plotdataitem nan_drawn <> None /\
  pi_xrange (plotitem (plot_channel nan_heap nan_drawn).1) = Some (PrimFloat.nan, PrimFloat.nan).
Proof.
  split; [discriminate|].
  rewrite (plot_channel_nan_rerange nan_heap nan_drawn _ (plot_channel nan_heap nan_drawn).2
             1%positive 2%positive nan_obj nan_obj PrimFloat.nan PrimFloat.nan);
    [vm_compute; reflexivity|vm_compute; reflexivity..|discriminate|vm_compute; reflexivity
    |vm_compute; reflexivity|apply surjective_pairing].
Defined.
