(* ===== verification/Threads.v ===== *)
(** Threads as sequences of atomic statements.

    A Python thread can be preempted between any two bytecodes; the
    development takes one statement (an assignment, a method call on the
    instrument, a signal emission) as the unit of interleaving.  A thread's
    remaining code is a resumption [res S]: either finished ([Ret]) or one
    atomic statement [Atom m] that acts on the shared state and returns the
    rest of the code, or raises.  [atom m k] runs the computation [m] as one
    statement and continues with [k] applied to its result, so a thread is
    written in continuation-passing style from the same [PyM] computations
    as the big-step model.

    [run_res] runs a thread alone to its end; its lemmas let a big-step
    definition be compared with its statement-by-statement version.
    [res_mono Rl k] says that every statement [k] can still execute moves
    the state along the preorder [Rl]: the invariant tool for states that
    another thread also changes.  [py_equiv] is the pointwise equality of
    computations, with the [Proper] instances that let [setoid_rewrite]
    work under [py_bind]. *)

From Stdlib Require Import Morphisms.
From stdpp Require Import base list.
From S2P Require Import Prelude.

#[local] Set Warnings "-register-all".

Inductive res (S : Type) : Type :=
  | Ret
  | Atom (m : S -> S * (py_exc + res S)).
Arguments Ret {S}.
Arguments Atom {S} m.

Section Res.
Context {S : Type}.
Local Open Scope py_scope.

(** One statement, then the rest of the thread. *)
Definition atom {X} (m : PyM S X) (k : X -> res S) : res S :=
  Atom (fun s => match m s with
                 | (s', inl e) => (s', inl e)
                 | (s', inr v) => (s', inr (k v))
                 end).

(** The thread run alone to its end. *)
Fixpoint run_res (k : res S) : PyM S unit :=
  match k with
  | Ret => py_ret tt
  | Atom m => fun s =>
      match m s with
      | (s', inl e) => (s', inl e)
      | (s', inr k') => run_res k' s'
      end
  end.

(** Computations that agree on every state. *)
Definition py_equiv {X} (m1 m2 : PyM S X) : Prop := forall s, m1 s = m2 s.

#[export] Instance py_equiv_equivalence {X} : Equivalence (@py_equiv X).
Proof. split; [by intros ??|by intros ????|intros ??? H1 H2 s; by rewrite H1]. Qed.

#[export] Instance py_bind_proper {X Y} :
  Proper (py_equiv ==> pointwise_relation X py_equiv ==> py_equiv) (@py_bind S X Y).
Proof. intros m1 m2 Hm k1 k2 Hk s. unfold py_bind. rewrite Hm. destruct (m2 s) as [? [?|?]]; [done|apply Hk]. Qed.

Lemma run_res_atom {X} (m : PyM S X) (k : X -> res S) :
  py_equiv (run_res (atom m k)) (v <- m ;; run_res (k v)).
Proof. intros s. simpl. unfold py_bind. by destruct (m s) as [? [?|?]]. Qed.

Lemma run_res_last (m : PyM S unit) : py_equiv (run_res (atom m (fun _ => Ret))) m.
Proof. intros s. simpl. by destruct (m s) as [? [?|[]]]. Qed.

Lemma py_bind_assoc_equiv {X Y Z'} (m : PyM S X) (k : X -> PyM S Y) (h : Y -> PyM S Z') :
  py_equiv (py_bind (py_bind m k) h) (py_bind m (fun v => py_bind (k v) h)).
Proof. intros s. apply py_bind_assoc. Qed.

Lemma py_bind_ret_equiv {X Y} (v : X) (k : X -> PyM S Y) : py_equiv (py_bind (py_ret v) k) (k v).
Proof. by intros s. Qed.

Lemma py_bind_ret_r {X} (m : PyM S X) : py_equiv (x <- m ;; py_ret x) m.
Proof. intros s. unfold py_bind. by destruct (m s) as [? [?|?]]. Qed.

(** Induction on the code of a thread: a property of the rest of the
    code after each statement gives the property of the whole. *)
Section ResInd.
Context (P : res S -> Type) (HRet : P Ret)
  (HAtom : forall m, (forall s k, (m s).2 = inr k -> P k) -> P (Atom m)).

Fixpoint res_ind' (k : res S) : P k :=
  match k with
  | Ret => HRet
  | Atom m => HAtom m (fun s k' =>
      match m s as p return p.2 = inr k' -> P k' with
      | (_, r) =>
          match r as r' return r' = inr k' -> P k' with
          | inl e => fun E =>
              False_rect _ (match E in _ = y return match y with inl _ => True | inr _ => False end
                            with eq_refl => I end)
          | inr k'' => fun E =>
              eq_rect k'' P (res_ind' k'') k' (f_equal (fun x => match x with inr y => y | inl _ => k'' end) E)
          end
      end)
  end.
End ResInd.

(** Every statement the thread can still execute moves the state along
    [Rl]. *)
Inductive res_mono (Rl : S -> S -> Prop) : res S -> Prop :=
  | rm_ret : res_mono Rl Ret
  | rm_atom m :
      (forall s, Rl s (m s).1 /\ forall k, (m s).2 = inr k -> res_mono Rl k) ->
      res_mono Rl (Atom m).

Lemma res_mono_atom {X} Rl (m : PyM S X) (k : X -> res S) :
  py_mono Rl m -> (forall v, res_mono Rl (k v)) -> res_mono Rl (atom m k).
Proof.
  intros Hm Hk. constructor. intros s. specialize (Hm s). unfold py_mono in Hm.
  destruct (m s) as [s' [e|v]]; simpl in *; split; [done|discriminate|done|].
  intros k' [= <-]. apply Hk.
Qed.
End Res.

#[export] Hint Resolve rm_ret res_mono_atom : rigol.
