(* ===== verification/WorkerSteps.v ===== *)
(** The acquisition thread statement by statement.

    [pass_res] is one pass of [Rigol_get_Data.run] (src/Rigol_Live_View.py,
    lines 85-102) written as a resumption (Threads.v): the test of
    [self.scope], the creation of a channel's object (lines 129-132), the
    instrument I/O of a channel (lines 141-156), each of the eight attribute
    assignments of lines 167-176, the status emission of line 177, the two
    data emissions of lines 89-90, the test of [stop_connection] and the
    three statements that close the connection (lines 95-98) are its
    atomic steps.  Another thread may run between any two of them.

    Theorems: run alone, the statement-by-statement pass computes exactly
    the big-step [run_iteration] of Worker.v, so the transition system of
    Loop.v is the special case in which nothing interleaves with a pass
    (lifted to the whole program in Refinement.v);
    and every statement of the pass, as well as the GUI thread's calls
    into the worker object, only moves the world forward along
    [world_grows]: the dictionary of channel objects only gains entries,
    and the signal queue only gains signals that are not [finished] and
    whose object is the one the dictionary holds for its channel. *)

From Stdlib Require Import ZArith QArith Strings.Byte Morphisms.
From stdpp Require Import base list strings gmap.
From S2P Require Import Prelude Numeric ScopeData Transform Instrument Worker Loop Threads.

Section Steps.
Context {A R : Type} `{Num A} `{VisaResource R A}.
Local Abbreviation W := (world A R).
Implicit Types w : W.
Local Open Scope py_scope.

(** Lines 167-176, one assignment per step. *)
Fixpoint writes_res (channel : string) (ws : list (field_write A)) (k : res W) : res W :=
  match ws with
  | [] => k
  | fw :: ws' => atom (obj_write channel fw) (fun _ => writes_res channel ws' k)
  end.

(** The body of the [for channel in channels] loop (lines 129-177). *)
Definition acquire_res (channel : string) (k : res W) : res W :=
  atom (ensure_channel channel) (fun _ =>
  atom (scope_io (read_waveform channel)) (fun r =>
  writes_res channel
    (store_writes (wr_data r) (wr_xinc r) (wr_xor r)
       (time_array (wr_data r) (wr_xinc r) (wr_xor r))
       (voltage_array (wr_data r) (wr_yinc r) (wr_yor r) (wr_vscale r) (wr_voffset r)))
    (atom (emit_status (St_NormalRead channel (length (wr_data r)))) (fun _ => k)))).

(** [getData_online] (lines 125-180). *)
Definition getData_res (k : res W) : res W := foldr acquire_res k channels.

(** [self.data_receivedCHn.emit(self.Scope_wave[...])] (lines 89-90). *)
Definition emit_data1 : PyM W unit := o1 <- dict_get "CHAN1" ;; emit (Sig_data_receivedCH1 o1).
Definition emit_data2 : PyM W unit := o2 <- dict_get "CHAN2" ;; emit (Sig_data_receivedCH2 o2).

(** One pass of [run] (lines 85-102). *)
Definition pass_res : res W :=
  atom py_get (fun w =>
  match scope (w_self w) with
  | Some _ =>
      getData_res (
      atom emit_data1 (fun _ =>
      atom emit_data2 (fun _ =>
      atom py_get (fun w =>
      if stop_connection (w_self w) then
        atom close_scope (fun _ =>
        atom close_rm (fun _ =>
        atom (py_modify (set_self (set_scope None))) (fun _ => Ret)))
      else Ret))))
  | None => atom (emit_status St_Disconnected) (fun _ => Ret)
  end).

(** ** The pass run alone *)

(** Run the first statement of the thread on both sides. *)
Ltac run_first := etrans; [apply run_res_atom|]; apply py_bind_proper; [reflexivity|].
Ltac run_first_assoc :=
  etrans; [apply run_res_atom|]; etrans; [|symmetry; apply py_bind_assoc_equiv];
  apply py_bind_proper; [reflexivity|].

Lemma writes_res_run ch ws k :
  py_equiv (run_res (writes_res ch ws k)) (obj_writes ch ws ;;; run_res k).
Proof.
  induction ws as [|fw ws IH]; simpl; [by intros s|].
  run_first_assoc. intros []. apply IH.
Qed.

Lemma acquire_res_run ch k :
  py_equiv (run_res (acquire_res ch k)) (acquire_channel ch ;;; run_res k).
Proof.
  unfold acquire_res, acquire_channel. run_first_assoc. intros [].
  run_first_assoc. intros r.
  etrans; [apply writes_res_run|]. etrans; [|symmetry; apply py_bind_assoc_equiv].
  apply py_bind_proper; [reflexivity|intros []]. apply run_res_atom.
Qed.

Lemma getData_res_run k :
  py_equiv (run_res (getData_res k)) (getData_online ;;; run_res k).
Proof.
  unfold getData_res, getData_online, channels. cbn [foldr py_for].
  etrans; [apply acquire_res_run|]. symmetry.
  do 2 (etrans; [apply py_bind_assoc_equiv|]). apply py_bind_proper; [reflexivity|intros []].
  etrans; [apply py_bind_assoc_equiv|]. symmetry.
  etrans; [apply acquire_res_run|]. apply py_bind_proper; [reflexivity|intros []]. by intros s.
Qed.

(** The end of a pass, after [getData_online], run alone. *)
Ltac pass_tail :=
  let st := fresh "st" in
  intros st; unfold emit_data1, emit_data2, py_bind; cbn [run_res atom];
  destruct (dict_get "CHAN1" st) as [?st [?e|?o1]]; cbn [run_res atom]; [done|];
  destruct (emit _ _) as [?st [?e|[]]]; cbn [run_res atom]; [done|];
  destruct (dict_get "CHAN2" _) as [?st [?e|?o2]]; cbn [run_res atom]; [done|];
  destruct (emit _ _) as [?st [?e|[]]]; cbn [run_res atom py_get]; [done|];
  destruct (stop_connection _); cbn [run_res atom]; [|done];
  destruct (close_scope _) as [?st [?e|[]]]; cbn [run_res atom]; [done|];
  destruct (close_rm _) as [?st [?e|[]]]; cbn [run_res atom]; [done|];
  by destruct (py_modify _ _) as [? [?|[]]].

(** The statement-by-statement pass, run with no other thread
    interleaved, computes exactly the big-step pass [run_iteration] of
    Worker.v on every world. *)
Lemma pass_res_run : py_equiv (run_res pass_res) run_iteration.
Proof.
  unfold pass_res, run_iteration. run_first. intros w.
  destruct (scope (w_self w)) as [sess|]; [|apply run_res_last].
  etrans; [apply getData_res_run|]. apply py_bind_proper; [reflexivity|intros []].
  all: pass_tail.
Qed.
End Steps.

(** ** What every statement of the worker does to the shared world *)

Section Grows.
Context {A R : Type} `{Num A} `{VisaResource R A}.
Local Abbreviation W := (world A R).
Implicit Types w : W.
Local Open Scope py_scope.

(** A queued signal as the display thread will receive it: never
    [finished], and a data signal carries the object the worker's
    dictionary holds for its channel. *)
Definition good_signal w (sg : signal) : Prop :=
  match sg with
  | Sig_finished => False
  | Sig_data_receivedCH1 l => Scope_wave (w_self w) !! "CHAN1" = Some l
  | Sig_data_receivedCH2 l => Scope_wave (w_self w) !! "CHAN2" = Some l
  | Sig_Statustext _ => True
  end.

(** Every entry of the dictionary names an object of the heap. *)
Definition dict_alloc w : Prop :=
  forall k l, Scope_wave (w_self w) !! k = Some l -> is_Some (w_heap w !! l).

Definition world_grows w w' : Prop :=
  dict_extends w w' /\ (exists new, w_out w' = w_out w ++ new /\ Forall (good_signal w') new) /\
  (dict_alloc w -> dict_alloc w').

Lemma good_signal_mono w w' sg : dict_extends w w' -> good_signal w sg -> good_signal w' sg.
Proof. intros Hd. destruct sg; simpl; auto. Qed.

#[export] Instance world_grows_preorder : PreOrder world_grows.
Proof.
  split.
  - intros w. split_and!; [by intros ??| |done]. exists []. by rewrite app_nil_r.
  - intros w1 w2 w3 (H12 & (n1 & E1 & G1) & A12) (H23 & (n2 & E2 & G2) & A23).
    split_and!; [intros k l Hk; eauto| |auto].
    exists (n1 ++ n2). split; [by rewrite E2, E1, app_assoc|].
    apply Forall_app; split; [|done]. eapply Forall_impl; [exact G1|]. intros sg. by apply good_signal_mono.
Qed.

(** A statement that leaves the dictionary and the queue alone and
    frees no object. *)
Lemma grows_frame w w' :
  Scope_wave (w_self w') = Scope_wave (w_self w) -> w_out w' = w_out w ->
  (forall l, is_Some (w_heap w !! l) -> is_Some (w_heap w' !! l)) -> world_grows w w'.
Proof.
  intros Hd Ho Hh. split_and!; [intros k l; by rewrite Hd| |].
  - exists []. by rewrite Ho, app_nil_r.
  - intros Ha k l. rewrite Hd. intros Hk. by apply Hh, (Ha k).
Qed.

Ltac grows_frame := apply grows_frame; [reflexivity|reflexivity|by intros ?].

Lemma scope_io_grows {X} (m : PyM R X) : py_mono world_grows (scope_io m).
Proof.
  intros w. unfold scope_io. destruct (scope _); [|reflexivity].
  destruct (_ !! _); [|reflexivity]. destruct (m _). apply grows_frame; [done|done|by intros ?].
Qed.

Lemma ensure_channel_grows ch : py_mono world_grows (ensure_channel (A:=A) (R:=R) ch).
Proof.
  intros w. destruct (Scope_wave (w_self w) !! ch) as [l|] eqn:Hk.
  - rewrite (ensure_channel_present _ _ _ Hk). reflexivity.
  - rewrite (ensure_channel_absent _ _ Hk). split_and!; [|exists []; by rewrite app_nil_r|].
    + intros k l' Hk'. simpl. rewrite lookup_insert_ne; [done|]. intros ->. congruence.
    + intros Ha k l'. simpl. destruct (decide (ch = k)) as [<-|Hne].
      * rewrite lookup_insert_eq. intros [= <-]. rewrite lookup_insert_eq. by eexists.
      * rewrite lookup_insert_ne by done. intros Hk'. rewrite lookup_insert_is_Some'. right. by apply (Ha k).
Qed.

Lemma obj_write_grows ch fw : py_mono world_grows (obj_write (A:=A) (R:=R) ch fw).
Proof.
  intros w. unfold obj_write, dict_get, py_bind. destruct (_ !! ch); [|reflexivity].
  apply grows_frame; [done|done|]. intros l'. simpl. by rewrite lookup_alter_is_Some.
Qed.

Lemma emit_status_grows m : py_mono world_grows (emit_status (A:=A) (R:=R) m).
Proof. intros w. split_and!; [by intros ??| |done]. exists [Sig_Statustext m]. by split; [|repeat constructor]. Qed.

Lemma emit_data1_grows : py_mono world_grows (emit_data1 (A:=A) (R:=R)).
Proof.
  intros w. unfold emit_data1, dict_get, py_bind. destruct (_ !! "CHAN1") eqn:Hk; [|reflexivity].
  split_and!; [by intros ??| |done]. eexists; split; [reflexivity|]. by repeat constructor.
Qed.

Lemma emit_data2_grows : py_mono world_grows (emit_data2 (A:=A) (R:=R)).
Proof.
  intros w. unfold emit_data2, dict_get, py_bind. destruct (_ !! "CHAN2") eqn:Hk; [|reflexivity].
  split_and!; [by intros ??| |done]. eexists; split; [reflexivity|]. by repeat constructor.
Qed.

Lemma close_scope_grows : py_mono world_grows (close_scope (A:=A) (R:=R)).
Proof. intros w. unfold close_scope. destruct (scope _); [grows_frame|reflexivity]. Qed.

Lemma close_rm_grows : py_mono world_grows (close_rm (A:=A) (R:=R)).
Proof. intros w. unfold close_rm. destruct (rm _); [grows_frame|reflexivity]. Qed.

Lemma set_self_grows f :
  (forall s, Scope_wave (f s) = Scope_wave s) -> py_mono world_grows (py_modify (set_self (A:=A) (R:=R) f)).
Proof. intros Hf w. apply grows_frame; simpl; auto. Qed.

Lemma py_get_grows : py_mono world_grows (@py_get W).
Proof. intros w. reflexivity. Qed.

#[local] Hint Resolve scope_io_grows ensure_channel_grows obj_write_grows emit_status_grows
  emit_data1_grows emit_data2_grows close_scope_grows close_rm_grows py_get_grows : rigol.

Lemma writes_res_grows ch ws k :
  res_mono world_grows k -> res_mono world_grows (writes_res ch ws k).
Proof. intros Hk. induction ws; simpl; auto with rigol. Qed.

Lemma acquire_res_grows ch k :
  res_mono world_grows k -> res_mono world_grows (acquire_res ch k).
Proof. intros Hk. unfold acquire_res. auto using writes_res_grows with rigol. Qed.

(** Every statement of a pass moves the world along [world_grows]. *)
Lemma pass_res_grows : res_mono world_grows pass_res.
Proof.
  unfold pass_res. apply res_mono_atom; [auto with rigol|intros w].
  destruct (scope _); [|auto with rigol].
  unfold getData_res, channels. simpl. repeat apply acquire_res_grows.
  repeat first
    [ apply res_mono_atom; [first [by apply set_self_grows|auto with rigol]|intros ?]
    | case_match
    | apply rm_ret ].
Qed.

(** The GUI thread's calls into the worker object. *)
Lemma connect_scope_ADR_grows ADR : py_mono world_grows (connect_scope_ADR (A:=A) (R:=R) ADR).
Proof.
  intros w. unfold connect_scope_ADR, new_ResourceManager, fresh_id, open_resource.
  unfold py_bind, py_modify, py_get, py_ret, py_raise. simpl.
  destruct (w_devs w !! ADR); apply grows_frame; auto.
Qed.

Lemma Disconnect_scope_grows : py_mono world_grows (Disconnect_scope (A:=A) (R:=R)).
Proof. intros ?. grows_frame. Qed.
End Grows.
