(* ===== verification/System.v ===== *)
(** The whole program: the GUI thread and the acquisition thread.

    State.  [system] holds the world of Worker.v (the worker object, the
    shared heap of [ScopeData_nativ] objects, the instruments and the
    queue of emitted signals), the window [Rigol_Live] of Display.v, how
    many queued signals the GUI event loop has delivered, where the
    acquisition thread is in its code (a resumption of WorkerSteps.v, or
    dead after an exception) and whether the window's constructor has
    returned.

    Steps.  A step is chosen by the scheduler ([event]): the worker
    executes its next statement; the event loop delivers the next queued
    signal to its slot (lines 242-245, queued connections, in emission
    order); the 500 ms timer fires [plot_channel]; the user chooses
    Connect ([connect_tool], which [__init__] also calls once, line 248),
    DisConnect ([Disconnect_tool]) or Add Connection, or selects an entry
    of the address box or types an address into it, or closes the window
    with File > Exit, which ends the event loop but not the acquisition
    thread; or an instrument acquires new waveforms.  A GUI
    handler runs as one step; an exception in it ends the handler, not the
    application (PySide reports it and the event loop goes on).  The step
    function [sys_next] is executable, so a schedule is run by evaluation
    ([run_schedule]).

    Theorems: in every reachable state the queue holds no [finished]
    signal (C25), each data signal refers to its channel's object and the
    window's dictionary holds exactly the worker's objects: the display
    reads the objects the worker keeps writing into (C26).  Two schedules on the DS2072 model show what
    the sharing allows: a redraw can show a curve whose time axis comes
    from one acquisition and whose voltages come from the previous one
    (C27), or raise when the sample count changes (C29); and a Connect
    issued while the worker closes the previous connection is lost while
    its session stays open (C28).  Connect reads the editable address
    box, so it uses an address the user typed; it opens a session there
    when an instrument answers and otherwise keeps the old [scope] (C32).
    Once the acquisition thread has died, no later step restarts it,
    emits a signal or changes an object: the plot is frozen (C33). *)

From Stdlib Require Import ZArith QArith Strings.Byte.
From stdpp Require Import base list strings gmap.
From S2P Require Import Prelude Numeric ScopeData Transform Instrument Worker Loop Display Threads WorkerSteps.

Inductive wthread (S : Type) := Thread_at (k : res S) | Thread_died (e : py_exc).
Arguments Thread_at {S} k.
Arguments Thread_died {S} e.

(** [__init__] running, [app.exec()] running its event loop, and the
    event loop ended because the only window was closed (File > Exit,
    line 203, calls [QMainWindow.close]). *)
Inductive gui_phase := Constructing | EventLoop | Closed.

Section System.
Context {A R : Type} `{Num A} `{VisaResource R A}.
Local Abbreviation W := (world A R).
Local Open Scope py_scope.

Record system := mkSys {
  sy_world : W;
  sy_ui : Rigol_Live A;
  sy_delivered : nat;
  sy_thread : wthread W;
  sy_phase : gui_phase
}.

Definition set_world (w : W) (s : system) : system :=
  mkSys w (sy_ui s) (sy_delivered s) (sy_thread s) (sy_phase s).
Definition set_ui (u : Rigol_Live A) (s : system) : system :=
  mkSys (sy_world s) u (sy_delivered s) (sy_thread s) (sy_phase s).
Definition set_delivered (n : nat) (s : system) : system :=
  mkSys (sy_world s) (sy_ui s) n (sy_thread s) (sy_phase s).
Definition set_thread (t : wthread W) (s : system) : system :=
  mkSys (sy_world s) (sy_ui s) (sy_delivered s) t (sy_phase s).
Definition set_phase (p : gui_phase) (s : system) : system :=
  mkSys (sy_world s) (sy_ui s) (sy_delivered s) (sy_thread s) p.

Definition on_world {X} (m : PyM W X) : PyM system X := fun s =>
  let '(w', r) := m (sy_world s) in (set_world w' s, r).
Definition on_ui {X} (m : PyM (Rigol_Live A) X) : PyM system X := fun s =>
  let '(u', r) := m (sy_ui s) in (set_ui u' s, r).

(** [self.Rigol_thread = Rigol_get_Data()] and [start()] (lines 241-246):
    the window as [__init__] leaves it before its [connect_tool()] call,
    and the thread at the top of [run]. *)
Definition sys_init (devs : gmap string R) : system :=
  mkSys (world_init devs) Rigol_Live_init 0 (Thread_at Ret) Constructing.

(** [Rigol_Live.connect_tool] (lines 256-263).  The new [QTimer] replaces
    the old one, which is garbage collected and stops. *)
Definition connect_tool : PyM system unit :=
  s <- py_get ;;
  let connection_string := currentText (sy_ui s) in
  on_ui (py_modify (set_status (Some (Msg_Connecting connection_string, 3000%Z)))) ;;;
  on_world (connect_scope_ADR connection_string) ;;;
  on_ui (py_modify (set_timer (Some 500%Z))).

(** [Rigol_Live.Disconnect_tool] (lines 266-269); the [print] is not
    modelled. *)
Definition Disconnect_tool : PyM system unit :=
  on_world Disconnect_scope ;;;
  on_ui (py_modify (set_status (Some (Msg_Disconnected, 0%Z)))).

(** [Rigol_Live.on_worker_finished] (lines 273-276): it only prints. *)
Definition on_worker_finished : PyM (Rigol_Live A) unit := py_ret tt.

(** [Rigol_Live.update_label] (lines 293-296), connected to no signal. *)
Definition update_label : PyM (Rigol_Live A) unit := py_ret tt.

(** [Rigol_Live.on_exit] (lines 405-407), with the close event's accepted
    flag: the class has no [closed] attribute, so the second statement
    raises after the event has been accepted. *)
Definition on_exit : PyM (bool * Rigol_Live A) unit :=
  py_modify (fun st => (true, st.2)) ;;; py_raise AttributeError.

(** The slot each signal of the worker is connected to (lines 242-245). *)
Definition slot_of (sg : signal) : PyM (Rigol_Live A) unit :=
  match sg with
  | Sig_finished => on_worker_finished
  | Sig_data_receivedCH1 o => receive_dataCH1 o
  | Sig_data_receivedCH2 o => receive_dataCH2 o
  | Sig_Statustext m => update_status m
  end.

(** The user's choices in the window and the instrument's own changes. *)
Inductive event :=
  | Ev_worker
  | Ev_deliver
  | Ev_timer
  | Ev_connect
  | Ev_disconnect
  | Ev_add_connection (text : string) (ok : bool)
  | Ev_select (i : nat)
  | Ev_edit (text : string)
  | Ev_instrument (a : string) (d : R)
  | Ev_exit.

(** A handler of the GUI thread: its effects stay, its exception is
    reported by the event loop. *)
Definition gui_run (m : PyM system unit) (s : system) : system := (m s).1.

(** The acquisition thread executes its next statement; at the end of a
    pass it goes back to the test of [while self.scope is not None]. *)
Definition worker_next (s : system) : system :=
  match sy_thread s with
  | Thread_at Ret => set_thread (Thread_at pass_res) s
  | Thread_at (Atom m) =>
      let '(w', r) := m (sy_world s) in
      set_thread (match r with inl e => Thread_died e | inr k => Thread_at k end) (set_world w' s)
  | Thread_died _ => s
  end.

(** The event loop delivers the oldest undelivered signal. *)
Definition deliver (s : system) : system :=
  match w_out (sy_world s) !! sy_delivered s with
  | Some sg => set_delivered (S (sy_delivered s)) (gui_run (on_ui (slot_of sg)) s)
  | None => s
  end.

(** The user selects entry [i] of the address box: Qt makes it the
    current index and copies its text into the line edit. *)
Definition select_connection (i : nat) (u : Rigol_Live A) : Rigol_Live A :=
  match connection_combo u !! i with
  | Some t =>
      mkLive (plotitem u) (plotdataitem u) (plotdataitem1 u) (win_shown u) (ui_Scope_wave u)
        (connection_combo u) i (status_message u) (pqTimer u) t
  | None => u
  end.

Definition sys_next (ev : event) (s : system) : system :=
  match ev with
  | Ev_worker => worker_next s
  | Ev_deliver => deliver s
  | Ev_timer => gui_run (fun s => on_ui (plot_channel (w_heap (sy_world s))) s) s
  | Ev_connect => set_phase EventLoop (gui_run connect_tool s)
  | Ev_disconnect => gui_run Disconnect_tool s
  | Ev_add_connection text ok => gui_run (on_ui (add_connection_string text ok)) s
  | Ev_select i => set_ui (select_connection i (sy_ui s)) s
  | Ev_edit text => set_ui (set_combo_text text (sy_ui s)) s
  | Ev_instrument a d => set_world (set_dev a d (sy_world s)) s
  | Ev_exit => set_phase Closed s
  end.

Definition in_event_loop (s : system) : bool :=
  match sy_phase s with EventLoop => true | Constructing | Closed => false end.

(** Which events can happen: the GUI handles events once [__init__] has
    returned, except the [connect_tool()] call of [__init__] itself, and
    none after the window has closed.  The acquisition thread is not
    stopped by the close: it may still run until the process ends. *)
Definition enabled (ev : event) (s : system) : bool :=
  match ev with
  | Ev_worker => match sy_thread s with Thread_at _ => true | Thread_died _ => false end
  | Ev_deliver => in_event_loop s && bool_decide (sy_delivered s < length (w_out (sy_world s)))
  | Ev_timer => in_event_loop s && bool_decide (is_Some (pqTimer (sy_ui s)))
  | Ev_connect => match sy_phase s with Closed => false | _ => true end
  | Ev_disconnect | Ev_add_connection _ _ | Ev_select _ | Ev_edit _ | Ev_exit => in_event_loop s
  | Ev_instrument a _ => bool_decide (is_Some (w_devs (sy_world s) !! a))
  end.

Inductive sys_step : system -> system -> Prop :=
  | sys_go ev s : enabled ev s = true -> sys_step s (sys_next ev s).

Fixpoint run_schedule (evs : list event) (s : system) : option system :=
  match evs with
  | [] => Some s
  | ev :: evs' => if enabled ev s then run_schedule evs' (sys_next ev s) else None
  end.

Lemma run_schedule_star evs s s' : run_schedule evs s = Some s' -> star sys_step s s'.
Proof.
  revert s. induction evs as [|ev evs IH]; simpl; intros s Hs; [injection Hs as ->; constructor|].
  destruct (enabled ev s) eqn:He; [|done]. econstructor; [by constructor|]. by apply IH.
Qed.
Lemma run_schedule_app evs1 evs2 s :
  run_schedule (evs1 ++ evs2) s = run_schedule evs1 s ≫= run_schedule evs2.
Proof.
  revert s. induction evs1 as [|ev evs IH]; intros s; [done|]. simpl.
  destruct (enabled ev s); [apply IH|done].
Qed.

(** The event loop delivers the queued signals [sgs] one after the other,
    each to its slot. *)
Lemma run_deliver pre sgs s :
  sy_phase s = EventLoop -> w_out (sy_world s) = pre ++ sgs -> sy_delivered s = length pre ->
  run_schedule (repeat Ev_deliver (length sgs)) s =
    Some (set_delivered (length pre + length sgs)
            (set_ui (foldl (fun u sg => (slot_of sg u).1) (sy_ui s) sgs) s)).
Proof.
  revert pre s. induction sgs as [|sg sgs IH]; intros pre [w u n t p] Hp Ho Hn; simpl in *; subst.
  - by rewrite Nat.add_0_r.
  - rewrite Ho, length_app. simpl.
    rewrite bool_decide_true by lia. unfold deliver. simpl.
    rewrite Ho, lookup_app_r, Nat.sub_diag by lia. simpl. unfold gui_run, on_ui. simpl.
    destruct (slot_of sg u) as [u' r] eqn:Es. simpl.
    rewrite (IH (pre ++ [sg])); [|done|by cbn; rewrite Ho, <- app_assoc|by cbn; rewrite length_app; simpl; lia].
    cbn. rewrite length_app. simpl. by rewrite <- Nat.add_assoc.
Qed.

End System.

Arguments system A R : clear implicits.
Arguments event R : clear implicits.

(** ** Invariants of the two threads *)

Section Invariant.
Context {A R : Type} `{Num A} `{VisaResource R A}.
Local Abbreviation W := (world A R).
Implicit Types s : system A R.
Local Open Scope py_scope.

(** The window's dictionary holds the worker's own objects. *)
Definition ui_aliases (u : Rigol_Live A) (w : W) : Prop :=
  forall k l, ui_Scope_wave u !! k = Some l -> Scope_wave (w_self w) !! k = Some l.

Definition thread_ok (t : wthread W) : Prop :=
  match t with Thread_at k => res_mono world_grows k | Thread_died _ => True end.

Definition sys_inv s : Prop :=
  Forall (good_signal (sy_world s)) (w_out (sy_world s)) /\
  ui_aliases (sy_ui s) (sy_world s) /\ thread_ok (sy_thread s) /\ dict_alloc (sy_world s).

(** The world moves forward while the window's dictionary stays. *)
Lemma sys_inv_world s w' t :
  sys_inv s -> world_grows (sy_world s) w' -> thread_ok t ->
  sys_inv (set_thread t (set_world w' s)).
Proof.
  intros (Hq & Ha & _ & Hal) (Hd & (new & Ho & Hn) & Hg) Ht.
  split_and!; simpl; [|by intros k l ?%Ha; apply Hd|done|by apply Hg].
  rewrite Ho. apply Forall_app. split; [|done].
  eapply Forall_impl; [exact Hq|]. intros sg. by apply good_signal_mono.
Qed.

Lemma sys_inv_ui s u :
  sys_inv s -> ui_Scope_wave u = ui_Scope_wave (sy_ui s) -> sys_inv (set_ui u s).
Proof. intros (Hq & Ha & Ht & Hal) Hu. split_and!; [done| |done|done]. intros k l. simpl. rewrite Hu. apply Ha. Qed.

(** The window's dictionary is untouched. *)
Definition same_dict (u u' : Rigol_Live A) : Prop := ui_Scope_wave u' = ui_Scope_wave u.

#[local] Instance same_dict_preorder : PreOrder same_dict.
Proof. split; [by intros ?|intros ??? H1 H2; unfold same_dict in *; congruence]. Qed.

Lemma ui_obj_same h k : py_mono same_dict (ui_obj (A:=A) h k).
Proof. intros u. unfold ui_obj. by destruct (_ ≫= _). Qed.

Lemma curve_data_same xs ys : py_mono same_dict (curve_data (A:=A) xs ys).
Proof. intros u. unfold curve_data. by case_decide. Qed.

Ltac mono_dict :=
  repeat match goal with
  | |- py_mono _ (py_bind _ _) => apply (py_mono_bind same_dict); [|intros ?]
  | |- py_mono _ (if _ then _ else _) => case_match
  | |- py_mono _ (match ?x with _ => _ end) => destruct x
  | |- py_mono _ (ui_obj _ _) => apply ui_obj_same
  | |- py_mono _ (curve_data _ _) => apply curve_data_same
  | |- py_mono _ (of_sum _) => intros ?; reflexivity
  | |- py_mono _ py_get => apply (py_mono_get same_dict)
  | |- py_mono _ (py_ret _) => apply (py_mono_ret same_dict)
  | |- py_mono _ (py_modify _) => intros ?; reflexivity
  end.

Lemma plot_channel_dict h u : ui_Scope_wave (plot_channel (A:=A) h u).1 = ui_Scope_wave u.
Proof.
  change (same_dict u (plot_channel h u).1). revert u.
  change (py_mono same_dict (plot_channel h)).
  unfold plot_channel, first_draw, update_draw, modify_plotitem. mono_dict.
Qed.

Lemma slot_of_dict sg u :
  ui_Scope_wave (slot_of (A:=A) sg u).1 =
  match sg with
  | Sig_data_receivedCH1 l => <["CHAN1" := l]> (ui_Scope_wave u)
  | Sig_data_receivedCH2 l => <["CHAN2" := l]> (ui_Scope_wave u)
  | _ => ui_Scope_wave u
  end.
Proof. by destruct sg. Qed.

Lemma dict_insert_alias (D : gmap string loc) w k l :
  (forall k' l', D !! k' = Some l' -> Scope_wave (w_self w) !! k' = Some l') ->
  Scope_wave (w_self w) !! k = Some l ->
  forall k' l', <[k := l]> D !! k' = Some l' -> Scope_wave (w_self (A:=A) (R:=R) w) !! k' = Some l'.
Proof.
  intros HD Hk k' l'. destruct (decide (k = k')) as [<-|Hne].
  - rewrite lookup_insert_eq. by intros [= <-].
  - rewrite lookup_insert_ne by done. apply HD.
Qed.

Lemma worker_next_inv s : sys_inv s -> sys_inv (worker_next s).
Proof.
  intros Hs. pose proof Hs as (_ & _ & Ht & _). unfold worker_next.
  destruct (sy_thread s) as [[|m]|e] eqn:Et; [| |done].
  - split_and!; try apply Hs. simpl. apply pass_res_grows.
  - inversion Ht as [|? Hm]; subst. destruct (Hm (sy_world s)) as [Hg Hk].
    destruct (m (sy_world s)) as [w' [e|k]]; apply sys_inv_world; simpl; auto.
Qed.

Lemma deliver_inv s : sys_inv s -> sys_inv (deliver s).
Proof.
  intros Hs. unfold deliver. destruct (w_out (sy_world s) !! sy_delivered s) as [sg|] eqn:Hsg; [|done].
  destruct Hs as (Hq & Ha & Ht & Hal). pose proof (proj1 (Forall_lookup _ _) Hq _ _ Hsg) as Hg.
  unfold gui_run, on_ui. pose proof (slot_of_dict sg (sy_ui s)) as Hd.
  destruct (slot_of sg (sy_ui s)) as [u' r]. simpl in Hd. split_and!; [done| |done|done].
  intros k l. simpl. rewrite Hd. destruct sg; simpl in Hg; try apply Ha; by apply dict_insert_alias.
Qed.

Lemma on_ui_inv {X} (m : PyM (Rigol_Live A) X) :
  (forall u, ui_Scope_wave (m u).1 = ui_Scope_wave u) -> py_preserves sys_inv (on_ui m).
Proof.
  intros Hm st Hs. unfold on_ui. specialize (Hm (sy_ui st)).
  destruct (m (sy_ui st)) as [u' r]. by apply sys_inv_ui.
Qed.

Lemma on_world_inv {X} (m : PyM W X) : py_mono world_grows m -> py_preserves sys_inv (on_world m).
Proof.
  intros Hm st Hs. unfold on_world. specialize (Hm (sy_world st)).
  destruct (m (sy_world st)) as [w' r]. destruct st as [w u n t p].
  apply (sys_inv_world _ w' t) in Hs; [exact Hs|exact Hm|apply Hs].
Qed.

(** The GUI handlers are sequences of window updates that keep the
    dictionary and worker calls that move the world forward. *)
Ltac sys_preserves :=
  repeat match goal with
  | |- py_preserves _ (py_bind _ _) => apply py_preserves_bind; [|intros ?; cbv zeta]
  | |- py_preserves _ py_get => apply py_preserves_get
  | |- py_preserves _ (py_ret _) => apply py_preserves_ret
  | |- py_preserves _ (on_ui _) => apply on_ui_inv; by intros ?
  | |- py_preserves _ (on_world _) =>
      apply on_world_inv; first [apply connect_scope_ADR_grows|apply Disconnect_scope_grows|apply emit_status_grows]
  end.

Lemma connect_tool_inv : py_preserves sys_inv connect_tool.
Proof. unfold connect_tool. sys_preserves. Qed.

Lemma Disconnect_tool_inv : py_preserves sys_inv Disconnect_tool.
Proof. unfold Disconnect_tool. sys_preserves. Qed.

Lemma add_connection_string_dict text ok u :
  ui_Scope_wave (add_connection_string (A:=A) text ok u).1 = ui_Scope_wave u.
Proof. unfold add_connection_string. by destruct (_ && _). Qed.

Lemma sys_next_inv ev s : enabled ev s = true -> sys_inv s -> sys_inv (sys_next ev s).
Proof.
  intros _ Hs. destruct ev; cbn [sys_next].
  - by apply worker_next_inv.
  - by apply deliver_inv.
  - exact (on_ui_inv (plot_channel (w_heap (sy_world s))) (plot_channel_dict _) s Hs).
  - apply connect_tool_inv in Hs. unfold gui_run. destruct (connect_tool s) as [s' r]. by destruct s'.
  - by apply Disconnect_tool_inv.
  - apply (on_ui_inv (add_connection_string text ok)); [apply add_connection_string_dict|exact Hs].
  - apply sys_inv_ui; [exact Hs|]. unfold select_connection. by case_match.
  - by apply sys_inv_ui.
  - destruct s as [w u n t p]. apply (sys_inv_world _ (set_dev a d w) t) in Hs; [exact Hs| |apply Hs].
    by apply grows_frame.
  - by destruct s.
Qed.

Lemma sys_init_inv devs : sys_inv (sys_init (A:=A) devs).
Proof.
  split_and!; [constructor|intros k l; simpl; by rewrite lookup_empty|constructor|].
  intros k l. simpl. by rewrite lookup_empty.
Qed.

(** Every reachable state satisfies the invariant. *)
Lemma sys_reachable_inv devs s : star sys_step (sys_init devs) s -> sys_inv s.
Proof.
  intros Hr. eapply (star_invariant _ sys_inv); [|exact Hr|apply sys_init_inv].
  intros s1 s2 Hs1 Hstep. destruct Hstep as [ev s' He]. exact (sys_next_inv ev s' He Hs1).
Qed.
End Invariant.

Lemma reach_of_schedule {A R} `{Num A} `{VisaResource R A} (evs : list (event R)) (s0 : system A R) :
  (if run_schedule evs s0 is Some _ then true else false) = true ->
  star sys_step s0 (default s0 (run_schedule evs s0)).
Proof.
  intros Hs. destruct (run_schedule evs s0) as [s|] eqn:E; [|done]. by eapply run_schedule_star.
Qed.

(** ** Theorems *)

(** ** After the acquisition thread has died

    Nothing restarts the thread: [connect_tool] only calls
    [connect_scope_ADR], which opens a session but emits nothing and
    touches no object, and [QThread.start] is called once, in
    [__init__]. *)

Section Dead.
Context {A R : Type} `{Num A} `{VisaResource R A}.
Local Abbreviation W := (world A R).

(** The thread is dead with [e], the signal queue is [out] and the heap of
    objects is [h]. *)
Definition frozen (e : py_exc) (out : list signal) (h : gmap loc (ScopeData_nativ A))
    (s : system A R) : Prop :=
  sy_thread s = Thread_died e /\ w_out (sy_world s) = out /\ w_heap (sy_world s) = h.

Lemma connect_scope_ADR_out ADR (w : W) :
  w_out (connect_scope_ADR ADR w).1 = w_out w /\ w_heap (connect_scope_ADR ADR w).1 = w_heap w.
Proof.
  unfold connect_scope_ADR, new_ResourceManager, fresh_id, open_resource,
    py_bind, py_modify, py_get, py_ret, py_raise. simpl. by destruct (w_devs w !! ADR).
Qed.

Lemma on_ui_frozen {X} e out h (m : PyM (Rigol_Live A) X) s :
  frozen e out h s -> frozen e out h (on_ui m s).1.
Proof. unfold on_ui. by destruct (m (sy_ui s)). Qed.

Lemma on_world_frozen {X} e out h (m : PyM W X) s :
  (forall w, w_out (m w).1 = w_out w /\ w_heap (m w).1 = w_heap w) ->
  frozen e out h s -> frozen e out h (on_world m s).1.
Proof.
  intros Hm (Ht & Ho & Hh). unfold on_world. specialize (Hm (sy_world s)).
  destruct (m (sy_world s)) as [w' r]. destruct Hm as [Ho' Hh']. unfold frozen; simpl in *. split_and!; congruence.
Qed.

Lemma connect_tool_frozen e out h : py_preserves (frozen e out h) connect_tool.
Proof.
  unfold connect_tool. apply py_preserves_bind; [apply py_preserves_get|intros st; cbv zeta].
  apply py_preserves_bind; [intros s; apply on_ui_frozen|intros _].
  apply py_preserves_bind; [intros s; apply on_world_frozen, connect_scope_ADR_out|intros _].
  intros s. apply on_ui_frozen.
Qed.

Lemma Disconnect_tool_frozen e out h : py_preserves (frozen e out h) Disconnect_tool.
Proof.
  unfold Disconnect_tool. apply py_preserves_bind; [intros s; by apply on_world_frozen|intros _].
  intros s. apply on_ui_frozen.
Qed.

Lemma sys_next_frozen ev e out h s : enabled ev s = true -> frozen e out h s -> frozen e out h (sys_next ev s).
Proof.
  intros He Hs. pose proof Hs as (Ht & Ho & Hh). destruct ev; cbn [sys_next]; unfold gui_run.
  - unfold enabled in He. by rewrite Ht in He.
  - unfold deliver. case_match; [|done]. by apply on_ui_frozen.
  - by apply on_ui_frozen.
  - by apply connect_tool_frozen.
  - by apply Disconnect_tool_frozen.
  - by apply on_ui_frozen.
  - done.
  - done.
  - done.
  - done.
Qed.
End Dead.

Section Theorems.
Context {A R : Type} `{Num A} `{VisaResource R A}.

(** C25: the [finished] signal of [Rigol_get_Data] is never emitted: in
    every state the program reaches, under any interleaving of the two
    threads, the signal queue holds no [finished], so the slot
    [on_worker_finished] never runs ([while True] of line 85 never exits
    and line 104 is unreachable). *)
Theorem finished_never_emitted devs s :
  star sys_step (sys_init devs) s -> Sig_finished ∉ w_out (sy_world (A:=A) (R:=R) s).
Proof.
  intros Hr Hin. destruct (sys_reachable_inv devs s Hr) as (Hq & _).
  rewrite List.Forall_forall in Hq. by apply (Hq _ (proj1 (list_elem_of_In _ _) Hin)).
Qed.

(** C26: the display reads the worker's objects: in every reachable
    state, under any interleaving, each entry of the window's
    [Scope_wave] is the object the worker's [Scope_wave] holds for the
    same channel, and every queued data signal carries its channel's
    object.  The window never gets a copy; the worker's later assignments
    of lines 167-176 are visible to the next redraw without any signal. *)
Theorem display_aliases_worker devs s :
  star sys_step (sys_init devs) s ->
  (forall k l, ui_Scope_wave (sy_ui s) !! k = Some l ->
               Scope_wave (w_self (sy_world (A:=A) (R:=R) s)) !! k = Some l) /\
  (forall i l, w_out (sy_world s) !! i = Some (Sig_data_receivedCH1 l) ->
               Scope_wave (w_self (sy_world s)) !! "CHAN1" = Some l) /\
  (forall i l, w_out (sy_world s) !! i = Some (Sig_data_receivedCH2 l) ->
               Scope_wave (w_self (sy_world s)) !! "CHAN2" = Some l).
Proof.
  intros Hr. destruct (sys_reachable_inv devs s Hr) as (Hq & Ha & _).
  split_and!; [exact Ha|..]; intros i l Hi; exact (proj1 (Forall_lookup _ _) Hq _ _ Hi).
Qed.
(** C32: Connect uses the address in the box, typed or chosen.  After the
    user types [t] into the editable combo box and chooses Connect, the
    status bar shows "Connecting to t", the timer runs at 500 ms, and the
    worker holds a new resource manager; if an instrument answers at [t]
    the worker's [scope] is a new session on [t] with [stop_connection]
    cleared, otherwise [connect_scope_ADR] has caught the [VisaIOError]
    and [scope] and [stop_connection] are as before. *)
Theorem connect_typed_address (s : system A R) t :
  in_event_loop s = true ->
  exists s', run_schedule [Ev_edit t; Ev_connect] s = Some s' /\
    currentText (sy_ui s') = t /\
    status_message (sy_ui s') = Some (Msg_Connecting t, 3000%Z) /\
    pqTimer (sy_ui s') = Some 500%Z /\
    rm (w_self (sy_world s')) = Some (w_next_id (sy_world s)) /\
    match w_devs (sy_world s) !! t with
    | Some _ =>
        scope (w_self (sy_world s')) = Some (mkSession (S (w_next_id (sy_world s))) t (w_next_id (sy_world s))) /\
        stop_connection (w_self (sy_world s')) = false
    | None =>
        scope (w_self (sy_world s')) = scope (w_self (sy_world s)) /\
        stop_connection (w_self (sy_world s')) = stop_connection (w_self (sy_world s))
    end.
Proof.
  destruct s as [w u n th [| |]]; try discriminate; intros _.
  eexists. split; [reflexivity|].
  unfold sys_next, gui_run, connect_tool, connect_scope_ADR, new_ResourceManager, fresh_id, open_resource,
    on_ui, on_world, py_bind, py_modify, py_get, py_ret, py_raise. simpl.
  destruct (w_devs w !! t); by split_and!.
Qed.
(** C33: a dead acquisition thread is never replaced.  Once an exception
    has escaped [run] (a [VisaIOError] of the instrument, C16), whatever
    the user does afterwards (Connect, which opens a new session,
    DisConnect, Add Connection, typing or choosing an address) and
    whatever the instruments do, the thread stays dead, no signal is ever
    emitted again and no [ScopeData_nativ] object changes: every later
    redraw draws the same arrays. *)
Theorem dead_worker_stays_silent (s s' : system A R) e :
  sy_thread s = Thread_died e -> star sys_step s s' ->
  sy_thread s' = Thread_died e /\ w_out (sy_world s') = w_out (sy_world s) /\
  w_heap (sy_world s') = w_heap (sy_world s).
Proof.
  intros Ht Hr. apply (star_invariant sys_step (frozen e (w_out (sy_world s)) (w_heap (sy_world s)))) with s;
    [|exact Hr|by split_and!].
  intros s1 s2 Hs1 Hst. inversion Hst as [ev s1' He]; subst. exact (sys_next_frozen ev e _ _ s1 He Hs1).
Qed.
End Theorems.

(** ** Two schedules on the DS2072 model *)

(** Construction ([connect_tool] of line 248), one full pass of the
    worker, delivery of its four signals, a first redraw; then the scope
    acquires new waveforms and the worker runs its next pass up to the
    assignment of [x] to channel 1's object (line 175), when the timer
    fires. *)
Definition torn_schedule : list (event (Rigol Q)) :=
  [Ev_connect] ++ repeat Ev_worker 27 ++ repeat Ev_deliver 4 ++
  [Ev_timer; Ev_instrument demo_addr demo_dev2] ++ repeat Ev_worker 11 ++ [Ev_timer].

(** Construction, DisConnect, the worker's pass up to [self.rm.close()]
    (line 97), Connect, then the worker's [self.scope = None] (line 98)
    and its next pass. *)
Definition lost_schedule : list (event (Rigol Q)) :=
  [Ev_connect; Ev_disconnect] ++ repeat Ev_worker 29 ++ [Ev_connect] ++ repeat Ev_worker 4.

(** The scope after a change of memory depth: channel 1 now has four
    samples. *)
Definition demo_chan1c : ChanData Q := mkChanData [x80; x90; xa0; xb0] (1#1000) 0%Q 0%Q 0%Q 1%Q 0%Q.
Definition demo_dev3 : Rigol Q :=
  mkRigol "BYTE" "CHAN2" "NORM" [("CHAN1", demo_chan1c); ("CHAN2", demo_chan2)] None [].

(** As [torn_schedule], with a new acquisition of another length. *)
Definition shape_schedule : list (event (Rigol Q)) :=
  [Ev_connect] ++ repeat Ev_worker 27 ++ repeat Ev_deliver 4 ++
  [Ev_timer; Ev_instrument demo_addr demo_dev3] ++ repeat Ev_worker 11.

Definition torn_state : system Q (Rigol Q) :=
  default (sys_init demo_devs) (run_schedule torn_schedule (sys_init demo_devs)).
Definition lost_state : system Q (Rigol Q) :=
  default (sys_init demo_devs) (run_schedule lost_schedule (sys_init demo_devs)).

(** The scope stops answering (line 145 raises [VisaIOError]) during the
    first pass after Connect; then the user chooses Connect again and the
    timer fires. *)
Definition crash_schedule : list (event (Rigol Q)) :=
  [Ev_connect; Ev_instrument demo_addr demo_dead] ++ repeat Ev_worker 4.
Definition crash_state : system Q (Rigol Q) :=
  default (sys_init demo_devs) (run_schedule crash_schedule (sys_init demo_devs)).
Definition reconnect_state : system Q (Rigol Q) :=
  default crash_state (run_schedule [Ev_connect; Ev_timer] crash_state).

Definition shape_state : system Q (Rigol Q) :=
  default (sys_init demo_devs) (run_schedule shape_schedule (sys_init demo_devs)).

(** C27: a redraw can pair the time axis of one acquisition with the
    voltages of the previous one.  The worker assigns [x] and [y] of the
    object the window also holds in two statements (lines 175-176); a
    timer tick between them draws channel 1 with the new [x] and the old
    [y], a curve the instrument never produced: the display thread does
    read torn snapshots. *)
Theorem torn_redraw :
  exists s, star sys_step (sys_init demo_devs) s /\
    plotdataitem (sy_ui s) =
      Some (time_array (cd_raw demo_chan1b) (cd_xinc demo_chan1b) (cd_xor demo_chan1b),
            voltage_array (cd_raw demo_chan1) (cd_yinc demo_chan1) (cd_yor demo_chan1)
              (cd_scale demo_chan1) (cd_offset demo_chan1)) /\
    voltage_array (cd_raw demo_chan1) (cd_yinc demo_chan1) (cd_yor demo_chan1)
      (cd_scale demo_chan1) (cd_offset demo_chan1) <>
    voltage_array (cd_raw demo_chan1b) (cd_yinc demo_chan1b) (cd_yor demo_chan1b)
      (cd_scale demo_chan1b) (cd_offset demo_chan1b).
Proof.
  exists torn_state. split; [apply reach_of_schedule; by vm_compute|]. split; [vm_compute; reflexivity|].
  vm_compute. discriminate.
Qed.

(** C28: a Connect can be lost.  When the user's Connect runs while the
    worker is between [self.rm.close()] and [self.scope = None] (lines
    97-98) of a disconnect, [connect_scope_ADR] opens a new session,
    stores it in [self.scope] and clears [stop_connection]; the worker
    then sets [self.scope] to [None].  The program ends up idle, with no
    stop request pending, while the new session and its resource manager
    stay open and unreachable from [self.scope]. *)
Theorem connect_lost :
  exists s, star sys_step (sys_init demo_devs) s /\
    scope (w_self (sy_world s)) = None /\ stop_connection (w_self (sy_world s)) = false /\
    exists sess, w_open_sessions (sy_world s) = [sess] /\ sess_addr sess = demo_addr /\
      rm (w_self (sy_world s)) = Some (sess_rm sess) /\ In (sess_rm sess) (w_open_rms (sy_world s)).
Proof.
  exists lost_state. split; [apply reach_of_schedule; by vm_compute|]. vm_compute.
  split_and!; [done|done|]. eexists. split_and!; [reflexivity..|by left].
Qed.

(** C29: a redraw can raise.  When the instrument's sample count
    changes between two acquisitions, a timer tick between the
    assignments of [x] and [y] (lines 175-176) finds arrays of different
    lengths in channel 1's object, and [setData] raises at line 362; the
    spec says a redraw surfaces no error. *)
Theorem redraw_shape_error :
  exists s, star sys_step (sys_init demo_devs) s /\ enabled Ev_timer s = true /\
    (plot_channel (w_heap (sy_world s)) (sy_ui s)).2 = inl ShapeError.
Proof. exists shape_state. split; [apply reach_of_schedule; by vm_compute|]. split; vm_compute; reflexivity. Qed.

(** ** Witnesses *)

Lemma finished_never_emitted_witness :
  star sys_step (sys_init demo_devs) torn_state /\ Sig_finished ∉ w_out (sy_world torn_state).
Proof. split; [apply reach_of_schedule; by vm_compute|]. exact (finished_never_emitted demo_devs torn_state ltac:(apply reach_of_schedule; by vm_compute)). Defined.

Lemma display_aliases_worker_witness :
  star sys_step (sys_init demo_devs) torn_state /\
  ui_Scope_wave (sy_ui torn_state) !! "CHAN1" = Some 1%positive /\
  Scope_wave (w_self (sy_world torn_state)) !! "CHAN1" = Some 1%positive.
Proof.
  split; [apply reach_of_schedule; by vm_compute|]. split; [vm_compute; reflexivity|].
  apply (proj1 (display_aliases_worker demo_devs torn_state ltac:(apply reach_of_schedule; by vm_compute))). vm_compute. reflexivity.
Defined.

Lemma connect_typed_address_witness :
  in_event_loop torn_state = true /\
  exists s', run_schedule [Ev_edit demo_addr; Ev_connect] torn_state = Some s' /\
    currentText (sy_ui s') = demo_addr /\
    status_message (sy_ui s') = Some (Msg_Connecting demo_addr, 3000%Z) /\
    pqTimer (sy_ui s') = Some 500%Z /\
    rm (w_self (sy_world s')) = Some (w_next_id (sy_world torn_state)) /\
    match w_devs (sy_world torn_state) !! demo_addr with
    | Some _ =>
        scope (w_self (sy_world s')) =
          Some (mkSession (S (w_next_id (sy_world torn_state))) demo_addr (w_next_id (sy_world torn_state))) /\
        stop_connection (w_self (sy_world s')) = false
    | None =>
        scope (w_self (sy_world s')) = scope (w_self (sy_world torn_state)) /\
        stop_connection (w_self (sy_world s')) = stop_connection (w_self (sy_world torn_state))
    end.
Proof.
  assert (Hp : in_event_loop torn_state = true) by (vm_compute; reflexivity).
  split; [exact Hp|]. exact (connect_typed_address torn_state demo_addr Hp).
Defined.

Lemma dead_worker_stays_silent_witness :
  sy_thread crash_state = Thread_died VisaIOError /\ star sys_step crash_state reconnect_state /\
  sy_thread reconnect_state = Thread_died VisaIOError /\
  w_out (sy_world reconnect_state) = w_out (sy_world crash_state) /\
  w_heap (sy_world reconnect_state) = w_heap (sy_world crash_state).
Proof.
  assert (Ht : sy_thread crash_state = Thread_died VisaIOError) by (vm_compute; reflexivity).
  assert (Hr : star sys_step crash_state reconnect_state) by (apply reach_of_schedule; by vm_compute).
  split; [exact Ht|]. split; [exact Hr|].
  exact (dead_worker_stays_silent crash_state reconnect_state VisaIOError Ht Hr).
Defined.
