(* ===== verification/Refinement.v ===== *)
(** The statement-level worker refines the atomic one.

    WorkerSteps.v shows that the statement-by-statement pass [pass_res],
    run with no other thread, computes [run_iteration] of Worker.v.  This
    file lifts that to the whole program of System.v: from the top of its
    [while] loop, the worker scheduled with no GUI event and no
    instrument event completes one pass in finitely many steps, reaches
    exactly the world that [run_iteration] computes, and ends at the top
    of the loop again, or dead with the exception [run_iteration] raises;
    the window and the delivery counter are untouched
    ([worker_alone_pass]).  LiveView.v uses it to carry the big-step
    acquisition theorems of Worker.v and Loop.v over to the schedules of
    System.v. *)

From Stdlib Require Import ZArith QArith Strings.Byte.
From stdpp Require Import base list strings gmap.
From S2P Require Import Prelude Numeric ScopeData Transform Instrument Worker Loop Display Threads WorkerSteps System.

Lemma run_schedule_cons {A R} `{Num A} `{VisaResource R A} (ev : event R) evs (s : system A R) :
  enabled ev s = true -> run_schedule (ev :: evs) s = run_schedule evs (sys_next ev s).
Proof. simpl. by intros ->. Qed.

Lemma repeat_cons_S {X} (x : X) n : repeat x (S n) = x :: repeat x n.
Proof. reflexivity. Qed.

(** ** The worker alone *)

Section Alone.
Context {A R : Type} `{Num A} `{VisaResource R A}.
Local Abbreviation W := (world A R).

Definition outcome (r : py_exc + unit) : wthread W :=
  match r with inl e => Thread_died e | inr _ => Thread_at Ret end.

(** Scheduling only the worker runs its remaining code to its end. *)
Lemma worker_runs_res (k : res W) (s : system A R) :
  exists n, run_schedule (repeat Ev_worker n) (set_thread (Thread_at k) s) =
    Some (set_thread (outcome (run_res k (sy_world s)).2) (set_world (run_res k (sy_world s)).1 s)).
Proof.
  revert s. induction k as [|m IH] using res_ind'; intros s.
  - exists 0. cbn. by destruct s.
  - destruct (m (sy_world s)) as [w1 [e|k']] eqn:E.
    + exists 1. cbn. rewrite E. by destruct s.
    + destruct (IH (sy_world s) k' ltac:(by rewrite E) (set_world w1 s)) as [n Hn].
      exists (S n). cbn. rewrite E. destruct s. exact Hn.
Qed.

(** One undisturbed pass, as a schedule of the whole system. *)
Lemma worker_alone_pass (s : system A R) :
  sy_thread s = Thread_at Ret ->
  exists n, run_schedule (repeat Ev_worker (S n)) s =
    Some (set_thread (outcome (run_iteration (sy_world s)).2) (set_world (run_iteration (sy_world s)).1 s)).
Proof.
  intros Ht. destruct s as [w u d t p]. simpl in Ht. subst t.
  destruct (worker_runs_res pass_res (mkSys w u d (Thread_at Ret) p)) as [n Hn].
  exists n. rewrite repeat_cons_S, run_schedule_cons by reflexivity.
  change (sys_next Ev_worker (mkSys w u d (Thread_at Ret) p))
    with (set_thread (Thread_at pass_res) (mkSys w u d (Thread_at Ret) p)).
  rewrite Hn. cbn [sy_world set_thread set_world]. by rewrite (pass_res_run w).
Qed.
End Alone.

(** A window just connected to the DS2072 model, used by LiveView.v. *)
Definition connected_state : system Q (Rigol Q) :=
  default (sys_init demo_devs) (run_schedule [Ev_connect] (sys_init demo_devs)).
