(* ===== verification/LiveView.v ===== *)
(** The live view end to end.

    The program's purpose is to show the oscilloscope's current waveforms.
    Four components take part: the acquisition thread reads both channels
    ([getData_online], Worker.v) and emits the two objects
    ([Rigol_get_Data.run], lines 87-90); the Qt event loop delivers the
    queued signals to [receive_dataCH1]/[receive_dataCH2] (System.v); and
    the 500 ms timer calls [plot_channel] (Display.v), which draws the
    objects' arrays.  This file composes the lemmas of those files into
    one statement about schedules of the whole program (C30): from a
    connected window whose worker sits at the top of its loop with every
    earlier signal delivered, one undisturbed pass of the worker, the
    delivery of its four signals and one timer tick leave on screen
    exactly the spec's snapshot of the two channels (spec section 4.1):
    channel 1's voltages and channel 2's voltages, both against channel
    1's time axis, whether the redraw is the first one or a later one. *)

From Stdlib Require Import ZArith QArith Strings.Byte.
From stdpp Require Import base list strings gmap.
From S2P Require Import Prelude Numeric ScopeData Transform Instrument Worker Loop Display Threads WorkerSteps System Refinement.

(** One poll cycle as the program lives it: the worker's [S n]
    statements of one pass, the event loop's delivery of the four signals
    it emitted (two statuses, then the two channels' objects), and one
    tick of the 500 ms timer. *)
Definition live_schedule {R} (n : nat) : list (event R) :=
  repeat Ev_worker (S n) ++ repeat Ev_deliver 4 ++ [Ev_timer].

Section LiveView.
Context {A : Type} `{Num A}.
Implicit Types s : system A (Rigol A).

Lemma x_stored (c : ChanData A) o : x (stored c o) = time_values (spec_snapshot c).
Proof. change (x (stored c o)) with (time_values (abs_snapshot (stored c o))). by rewrite abs_stored. Qed.

Lemma y_stored (c : ChanData A) o : y (stored c o) = voltage_values (spec_snapshot c).
Proof. change (y (stored c o)) with (voltage_values (abs_snapshot (stored c o))). by rewrite abs_stored. Qed.

Lemma spec_snapshot_lengths (c : ChanData A) :
  length (time_values (spec_snapshot c)) = length (cd_raw c) /\
  length (voltage_values (spec_snapshot c)) = length (cd_raw c).
Proof. simpl. by rewrite !length_map, length_seq. Qed.

(** The four slots leave the window's dictionary pointing at the two
    objects, and keep the timer. *)
Lemma deliver_pass_ui (u : Rigol_Live A) m1 m2 l1 l2 :
  let u' := foldl (fun u sg => (slot_of sg u).1) u
              [Sig_Statustext m1; Sig_Statustext m2; Sig_data_receivedCH1 l1; Sig_data_receivedCH2 l2] in
  ui_Scope_wave u' !! "CHAN1" = Some l1 /\ ui_Scope_wave u' !! "CHAN2" = Some l2 /\
  pqTimer u' = pqTimer u.
Proof. simpl. rewrite lookup_insert_ne, !lookup_insert_eq by done. by split_and!. Qed.

(** C30: the live view shows the scope.  From a window past [__init__]
    with its timer running, whose worker is connected to a DS2072 that
    answers on both channels with sample arrays of the same non-zero
    length, sits at the top of its loop and has had every earlier signal
    delivered, the schedule "the worker runs one pass undisturbed, the
    event loop delivers the four signals it emitted, the timer fires"
    runs to its end, and the window then draws channel 1's and channel
    2's voltages against channel 1's time axis, each exactly as the spec
    computes them from the samples the scope returned; the worker is back
    at the top of its loop. *)
Theorem live_view_shows_scope s sess d c1 c2 :
  worker_inv (sy_world s) -> sy_thread s = Thread_at Ret -> sy_phase s = EventLoop ->
  is_Some (pqTimer (sy_ui s)) -> sy_delivered s = length (w_out (sy_world s)) ->
  scope (w_self (sy_world s)) = Some sess -> w_devs (sy_world s) !! sess_addr sess = Some d ->
  healthy c1 c2 d -> cd_raw c1 <> [] -> length (cd_raw c2) = length (cd_raw c1) ->
  exists n s', run_schedule (live_schedule n) s = Some s' /\
    plotdataitem (sy_ui s') = Some (time_values (spec_snapshot c1), voltage_values (spec_snapshot c1)) /\
    plotdataitem1 (sy_ui s') = Some (time_values (spec_snapshot c1), voltage_values (spec_snapshot c2)) /\
    sy_thread s' = Thread_at Ret.
Proof.
  intros Hinv Ht Hp Htm Hdl Hs Hd Hh Hne Hlen.
  destruct (run_iteration_publishes (sy_world s) sess d c1 c2 Hinv Hs Hd Hh)
    as (w' & l1 & l2 & o1 & o2 & Erun & Eout & _ & _ & H1 & H2).
  destruct (worker_alone_pass s Ht) as [n Hn]. rewrite Erun in Hn. cbn [outcome snd fst] in Hn.
  pose proof (run_deliver (w_out (sy_world s)) _ (set_thread (Thread_at Ret) (set_world w' s)) Hp
    Eout Hdl) as E4. cbn [length] in E4.
  destruct (deliver_pass_ui (sy_ui s) (St_NormalRead "CHAN1" (length (cd_raw c1)))
    (St_NormalRead "CHAN2" (length (cd_raw c2))) l1 l2) as (U1 & U2 & UT).
  destruct (spec_snapshot_lengths c1) as [T1 V1]. destruct (spec_snapshot_lengths c2) as [_ V2].
  destruct (plot_channel_curves (w_heap w') _ l1 l2 (stored c1 o1) (stored c2 o2) U1 H1 U2 H2)
    as (u'' & Ep & C1 & C2); rewrite ?x_stored, ?y_stored; [|congruence|congruence|].
  { intros Hx. apply Hne, nil_length_inv. by rewrite <- T1, Hx. }
  exists n. unfold live_schedule. rewrite run_schedule_app, Hn. cbn [mbind option_bind]. rewrite run_schedule_app, E4.
  cbn [mbind option_bind].
  cbn [run_schedule enabled in_event_loop sy_phase set_delivered set_ui set_thread set_world sy_ui].
  rewrite bool_decide_true by (rewrite UT; exact Htm).
  unfold in_event_loop. cbn [sy_phase set_delivered set_ui set_thread set_world]. rewrite Hp.
  eexists. split; [reflexivity|].
  unfold sys_next, gui_run, on_ui. cbn [sy_ui sy_world set_delivered set_ui set_thread set_world].
  rewrite Ep. cbn. by rewrite C1, C2, x_stored, !y_stored.
Qed.
End LiveView.

(** ** Witness *)

Lemma connected_state_inv : worker_inv (sy_world connected_state).
Proof.
  split; [apply world_wf_empty; by vm_compute|].
  intros s Hs. vm_compute in Hs. injection Hs as <-. split; [by eexists|discriminate].
Qed.

Lemma live_view_shows_scope_witness :
  sy_delivered connected_state = length (w_out (sy_world connected_state)) /\
  exists n s', run_schedule (live_schedule n) connected_state = Some s' /\
    plotdataitem (sy_ui s') = Some (time_values (spec_snapshot demo_chan1), voltage_values (spec_snapshot demo_chan1)) /\
    plotdataitem1 (sy_ui s') = Some (time_values (spec_snapshot demo_chan1), voltage_values (spec_snapshot demo_chan2)) /\
    sy_thread s' = Thread_at Ret.
Proof.
  split; [by vm_compute|].
  apply (live_view_shows_scope connected_state demo_session demo_dev demo_chan1 demo_chan2 connected_state_inv);
    [by vm_compute|by vm_compute|vm_compute; by eexists|by vm_compute|by vm_compute|by vm_compute
    |split; reflexivity|by vm_compute|by vm_compute].
Defined.
