(* ===== verification/Crange.v ===== *)
(** The generator [Rigol_Live.crange] (src/Rigol_Live_View.py, lines
    398-403): it cuts the closed index range [start..end] into chunks of
    [step] indices, yielding each chunk as the pair of its first and last
    index.  No caller uses it; it is modelled because it is the only
    non-trivial loop of the window class.

    A Python generator is lazy, so the model has two faces: [crange_gen n]
    is what the first [n] requests to the generator yield (the prefix of the
    stream, shorter when the generator has finished), and [crange] is the
    whole, finite list when [step > 0], defined by well-founded recursion
    (Equations) on the distance left to the loop bound; a lemma shows that
    the two agree.  The theorems say how many chunks there are (C17), that the chunks cover
    [start..end] exactly and in order (C18), and that the generator never
    ends when [step <= 0] and [start <= end] (C19). *)

From Stdlib Require Import ZArith List Lia.
From Equations Require Import Equations.
Import ListNotations.

Local Open Scope Z_scope.

(** The first [n] values the generator yields. *)
Fixpoint crange_gen (n : nat) (i end_ step : Z) : list (Z * Z) :=
  match n with
  | O => []
  | S n' =>
      if i <? end_ - step + 1 then (i, i + step - 1) :: crange_gen n' (i + step) end_ step
      else [(i, end_)]
  end.

(** All the values of the generator, for a positive step. *)
Equations? crange (i end_ step : Z) (Hstep : 0 < step) : list (Z * Z)
  by wf (Z.to_nat (end_ - step + 1 - i)) lt :=
  crange i end_ step Hstep with Logic.inspect (i <? end_ - step + 1) => {
    | exist _ true Hlt => (i, i + step - 1) :: crange (i + step) end_ step Hstep;
    | exist _ false _ => [(i, end_)] }.
Proof. apply Z.ltb_lt in Hlt. lia. Qed.

(** The integers [a, a+1, ..., b] (empty when [b < a]). *)
Definition zrange (a b : Z) : list Z :=
  map (fun k => a + Z.of_nat k) (seq 0 (Z.to_nat (b - a + 1))).

(** ** Lemmas *)

Lemma zrange_cons a b : a <= b -> zrange a b = a :: zrange (a + 1) b.
Proof.
  intros Hab. unfold zrange.
  replace (Z.to_nat (b - a + 1)) with (S (Z.to_nat (b - (a + 1) + 1))) by lia.
  cbn [seq map]. f_equal; [lia|].
  rewrite <- seq_shift, map_map. apply map_ext; intros; lia.
Qed.

Lemma zrange_app a m b : a <= m -> m <= b + 1 -> zrange a (m - 1) ++ zrange m b = zrange a b.
Proof.
  intros Ham Hmb. remember (Z.to_nat (m - a)) as k eqn:Hk.
  revert a Ham Hk. induction k as [|k IH]; intros a Ham Hk.
  - replace m with a by lia. unfold zrange at 1.
    now replace (Z.to_nat (a - 1 - a + 1)) with 0%nat by lia.
  - rewrite (zrange_cons a (m - 1)), (zrange_cons a b) by lia.
    cbn [app]. f_equal. apply IH; lia.
Qed.

Lemma crange_gen_unfold n i e st :
  crange_gen (S n) i e st =
  if i <? e - st + 1 then (i, i + st - 1) :: crange_gen n (i + st) e st else [(i, e)].
Proof. reflexivity. Qed.

(** One step of the division that counts the remaining chunks. *)
Lemma div_step i e st : 0 < st -> i + st <= e -> (e - i) / st = (e - (i + st)) / st + 1.
Proof.
  intros Hst Hle. replace (e - i) with ((e - (i + st)) + 1 * st) by lia.
  rewrite Z.div_add by lia. reflexivity.
Qed.

Lemma div_last i e st : 0 < st -> e < i + st -> Z.to_nat ((e - i) / st) = 0%nat.
Proof.
  intros Hst Hlt. destruct (Z.lt_ge_cases (e - i) 0).
  - assert ((e - i) / st < 0) by (apply Z.div_lt_upper_bound; lia). lia.
  - rewrite Z.div_small by lia. reflexivity.
Qed.

(** ** Theorems *)

(** C17: with a positive step the generator is finite: [crange] yields
    exactly [(end - start) / step + 1] chunks (one chunk when
    [end < start]), so the [while] loop of line 400 runs
    [(end - start) / step] times and stops. *)
Theorem crange_length start end_ step (Hstep : 0 < step) :
  length (crange start end_ step Hstep) = S (Z.to_nat ((end_ - start) / step)).
Proof.
  funelim (crange start end_ step Hstep).
  - cbn [length]. rewrite H. f_equal. rewrite (div_step i end_ step) by lia.
    assert (0 <= (end_ - (i + step)) / step) by (apply Z.div_pos; lia). lia.
  - cbn [length]. rewrite div_last by lia. reflexivity.
Qed.

(** The two faces agree: asking the generator for at least as many values
    as [crange] holds gives all of them and then nothing more, so what is
    proved of [crange] holds of the values the generator yields. *)
Lemma crange_gen_total start end_ step (Hstep : 0 < step) n :
  (length (crange start end_ step Hstep) <= n)%nat ->
  crange_gen n start end_ step = crange start end_ step Hstep.
Proof.
  funelim (crange start end_ step Hstep); cbn [length]; intros Hn;
    (destruct n as [|n]; [lia|]); rewrite crange_gen_unfold.
  - replace (i <? end_ - step + 1) with true by lia. f_equal. apply H. lia.
  - now replace (i <? end_ - step + 1) with false by lia.
Qed.

(** C18: for [start <= end] and a positive step the chunks cover the
    indices [start..end] exactly once and in order: each chunk is
    non-empty, at most [step] long, and the concatenation of their ranges
    is the range [start..end]. *)
Theorem crange_covers start end_ step (Hstep : 0 < step) :
  start <= end_ ->
  Forall (fun '(a, b) => a <= b /\ b - a < step) (crange start end_ step Hstep) /\
  flat_map (fun '(a, b) => zrange a b) (crange start end_ step Hstep) = zrange start end_.
Proof.
  funelim (crange start end_ step Hstep); intros Hle.
  - destruct (H ltac:(lia)) as [Hf Hc]. split; [constructor; [lia|exact Hf]|].
    cbn [flat_map]. rewrite Hc. replace (i + step - 1) with ((i + step) - 1) by lia.
    apply zrange_app; lia.
  - split; [repeat constructor; lia|]. cbn [flat_map]. apply app_nil_r.
Qed.

(** C19: with [step <= 0] and [start <= end] the loop condition of line
    400 never fails: the generator yields without end, its [k]-th value
    being [(start + k*step, start + k*step + step - 1)], so
    [list(crange(...))] or a [for] loop over it never terminates. *)
Theorem crange_infinite start end_ step n :
  step <= 0 -> start <= end_ ->
  crange_gen n start end_ step =
  map (fun k => (start + Z.of_nat k * step, start + Z.of_nat k * step + step - 1)) (seq 0 n).
Proof.
  intros Hst. revert start. induction n as [|n IH]; intros start Hle; [reflexivity|].
  rewrite crange_gen_unfold. replace (start <? end_ - step + 1) with true by lia.
  rewrite IH by lia. cbn [seq map]. f_equal; [f_equal; lia|].
  rewrite <- seq_shift, map_map. apply map_ext; intros k; f_equal; lia.
Qed.

(** ** Witnesses: chunks of 4 indices over [0..9], and a zero step. *)

Lemma crange_length_witness :
  (0 < 4) /\ length (crange 0 9 4 eq_refl) = 3%nat.
Proof. split; [lia|]. exact (crange_length 0 9 4 eq_refl). Defined.

Lemma crange_covers_witness :
  0 <= 9 /\ flat_map (fun '(a, b) => zrange a b) (crange 0 9 4 eq_refl) = zrange 0 9.
Proof. split; [lia|]. exact (proj2 (crange_covers 0 9 4 eq_refl ltac:(lia))). Defined.

Lemma crange_infinite_witness :
  crange_gen 3 5 9 0 = [(5, 4); (5, 4); (5, 4)].
Proof. rewrite (crange_infinite 5 9 0 3) by lia. reflexivity. Defined.
