(* ===== verification/Diagnostics.v ===== *)
(** The instrument diagnostics of the window class (src/Rigol_Live_View.py):
    [wait_ready] (lines 367-375), which polls [*OPC?] until the instrument
    reports that its pending operations are complete, and [Rigol_ESR]
    (lines 377-396), which reads the Standard Event Status Register,
    prints the state of its eight bits and the error queue, and clears
    the status.  Neither is called by the program; both talk to the
    instrument with the plain [write] and [query] of a VISA resource.

    The Python built-ins they rely on are modelled on ASCII text:
    [str.strip] ([py_strip]) and [int] on a decimal string ([py_int]:
    surrounding whitespace, an optional sign, digits with single
    underscores between them; [ValueError] otherwise).  [print] appends
    its argument to the console [con_out].  The instrument is the class
    [VisaMessage]; its model [Scripted] answers queries from a list of
    replies, then with a fixed reply (a busy instrument) or not at all
    (a timeout). *)

From Stdlib Require Import ZArith Ascii.
From stdpp Require Import base list strings pretty.
From S2P Require Import Prelude.

Local Open Scope list_scope.

(** ** Python strings *)

Definition py_isspace (c : ascii) : bool :=
  let n := nat_of_ascii c in ((9 <=? n) && (n <=? 13)) || ((28 <=? n) && (n <=? 32)).

Fixpoint drop_while {X} (p : X -> bool) (l : list X) : list X :=
  match l with
  | [] => []
  | x :: l' => if p x then drop_while p l' else l
  end.

(** [s.strip()]. *)
Definition py_strip (s : string) : string :=
  String.string_of_list_ascii (rev (drop_while py_isspace (rev (drop_while py_isspace (String.list_ascii_of_string s))))).

(** [s.ljust(n)]. *)
Definition ljust (n : nat) (s : string) : string :=
  s +:+ String.string_of_list_ascii (replicate (n - String.length s) " "%char).

(** [s * n] for a string [s]. *)
Fixpoint str_repeat (n : nat) (s : string) : string :=
  match n with O => "" | S n' => s +:+ str_repeat n' s end.

(** [f"{b}"] for a [bool]. *)
Definition py_str_bool (b : bool) : string := if b then "True" else "False".

Definition digit_val (c : ascii) : option Z :=
  let n := nat_of_ascii c in
  if (48 <=? n) && (n <=? 57) then Some (Z.of_nat (n - 48)) else None.

(** The digits after the first one: a digit, or an underscore followed
    by a digit. *)
Fixpoint parse_digits (acc : Z) (cs : list ascii) : option Z :=
  match cs with
  | [] => Some acc
  | c :: cs' =>
      if Ascii.eqb c "_" then
        match cs' with
        | c' :: cs'' => d ← digit_val c'; parse_digits (10 * acc + d) cs''
        | [] => None
        end
      else d ← digit_val c; parse_digits (10 * acc + d) cs'
  end%Z.

Definition parse_unsigned (cs : list ascii) : option Z :=
  match cs with
  | c :: cs' => d ← digit_val c; parse_digits d cs'
  | [] => None
  end.

(** [int(s)] for a string [s]; [None] is the [ValueError]. *)
Definition py_int (s : string) : option Z :=
  match String.list_ascii_of_string (py_strip s) with
  | c :: cs =>
      if Ascii.eqb c "-" then Z.opp <$> parse_unsigned cs
      else if Ascii.eqb c "+" then parse_unsigned cs
      else parse_unsigned (c :: cs)
  | [] => None
  end.

(** ** Console and instrument *)

(** What the two methods use of a pyvisa resource: [write] and [query]
    (the reply without its read termination). *)
Class VisaMessage (R : Type) := {
  msg_write : string -> PyM R unit;
  msg_query : string -> PyM R string
}.

(** The instrument the methods are given and the text printed so far. *)
Record console (R : Type) := mkConsole { con_dev : R; con_out : list string }.
Arguments mkConsole {R}.
Arguments con_dev {R}.
Arguments con_out {R}.

Definition on_dev {R X} (m : PyM R X) : PyM (console R) X := fun c =>
  let '(d', r) := m (con_dev c) in (mkConsole d' (con_out c), r).

(** [print(s)]. *)
Definition py_print {R} (s : string) : PyM (console R) unit :=
  py_modify (fun c => mkConsole (con_dev c) (con_out c ++ [s])).

Definition of_option {S X} (e : py_exc) (o : option X) : PyM S X :=
  match o with Some v => py_ret v | None => py_raise e end.

(** An instrument that answers from a script: the replies in order, then
    [sc_busy] for ever ([None]: it stops answering, a timeout).  It logs
    the commands it receives. *)
Record Scripted := mkScripted {
  sc_replies : list string;
  sc_busy : option string;
  sc_log : list string
}.

Definition sc_write (cmd : string) : PyM Scripted unit :=
  py_modify (fun d => mkScripted (sc_replies d) (sc_busy d) (sc_log d ++ [cmd])).

Definition sc_query (cmd : string) : PyM Scripted string := fun d =>
  let log := sc_log d ++ [cmd] in
  match sc_replies d with
  | r :: rs => (mkScripted rs (sc_busy d) log, inr r)
  | [] =>
      match sc_busy d with
      | Some r => (mkScripted [] (Some r) log, inr r)
      | None => (mkScripted [] None log, inl VisaIOError)
      end
  end.

#[export] Instance Scripted_VisaMessage : VisaMessage Scripted :=
  { msg_write := sc_write; msg_query := sc_query }.

Section Methods.
Context {R : Type} `{VisaMessage R}.
Local Open Scope py_scope.

(** ** [Rigol_live.wait_ready] (lines 367-375) *)

Definition not_ready_msg (ready : string) : string :=
  String "010" ("-------------------not ready: " +:+ ready +:+ "-----------------------").

(** The [while ready != "1"] loop, for at most [fuel] turns; [false]
    means that the loop was still running when the fuel ran out. *)
Fixpoint wait_ready_loop (fuel : nat) (ready : string) : PyM (console R) bool :=
  if String.eqb ready "1" then py_ret true else
  match fuel with
  | O => py_ret false
  | S fuel' =>
      r <- on_dev (msg_query "*OPC?") ;;
      py_print (not_ready_msg (py_strip r)) ;;;
      wait_ready_loop fuel' (py_strip r)
  end.

Definition wait_ready (fuel : nat) : PyM (console R) bool :=
  on_dev (msg_write "*WAI") ;;;
  r <- on_dev (msg_query "*OPC?") ;;
  wait_ready_loop fuel (py_strip r).

(** ** [Rigol_Live.Rigol_ESR] (lines 377-396) *)

Definition bit_weights : list Z := [128; 64; 32; 16; 8; 4; 2; 1]%Z.
Definition bit_names : list string := ["PON"; "URQ"; "CME"; "EXE"; "DDE"; "QYE"; "RQL"; "OPC"].
Definition bit_long_names : list string :=
  ["Power On"; "User Request"; "Command Error"; "Execution Error"; "Dev. Dependent Error";
   "Query Error"; "Request Control"; "Operation Complete"].

(** [[(response & bit_weights[i]) != 0 for i in range(8)]]; the index
    stays below the length of [bit_weights]. *)
Definition esr_bit_states (response : Z) : list bool :=
  map (fun i => negb (Z.land response (nth i bit_weights 0%Z) =? 0)%Z) (seq 0 8).

(** One line of the table (line 392). *)
Definition esr_line (info : string * (string * bool)) : string :=
  let '(bit_name, (bit_long_name, bit_state)) := info in
  ljust 24 bit_name +:+ " | " +:+ ljust 20 bit_long_name +:+ " | " +:+ py_str_bool bit_state.

Definition esr_header : string := "Bit Name                 | Long Name            | State".

(** [dict(zip(bit_names, zip(bit_long_names, bit_states)))]: the names
    are distinct, so the dictionary iterates in the order of the list. *)
Definition Rigol_ESR : PyM (console R) unit :=
  reply <- on_dev (msg_query "*ESR?") ;;
  response <- of_option ValueError (py_int reply) ;;
  let bit_info := zip bit_names (zip bit_long_names (esr_bit_states response)) in
  py_print esr_header ;;;
  py_print (str_repeat 60 "-") ;;;
  py_for bit_info (fun info => py_print (esr_line info)) ;;;
  scope_error <- on_dev (msg_query ":SYSTem:ERRor?") ;;
  py_print ("Error Text: " +:+ scope_error) ;;;
  on_dev (msg_write "*CLS").
End Methods.

(** ** Lemmas on strings *)

Lemma list_ascii_of_string_app s1 s2 :
  String.list_ascii_of_string (s1 +:+ s2) = String.list_ascii_of_string s1 ++ String.list_ascii_of_string s2.
Proof. induction s1 as [|c s1 IH]; simpl; [done|]. by rewrite IH. Qed.

Lemma drop_while_app_l {X} (p : X -> bool) l1 l2 :
  Forall (fun x => p x = true) l1 -> drop_while p (l1 ++ l2) = drop_while p l2.
Proof. induction 1 as [|x l1 Hx _ IH]; simpl; [done|]. by rewrite Hx. Qed.

Lemma drop_while_all {X} (p : X -> bool) l :
  Forall (fun x => p x = true) l -> drop_while p l = [].
Proof. intros H. rewrite <- (app_nil_r l). by rewrite drop_while_app_l. Qed.

Lemma drop_while_keep {X} (p : X -> bool) l :
  Forall (fun x => p x = false) l -> drop_while p l = l.
Proof. destruct 1 as [|x l Hx _]; simpl; [done|]. by rewrite Hx. Qed.

Lemma drop_while_stop {X} (p : X -> bool) x l : p x = false -> drop_while p (x :: l) = x :: l.
Proof. simpl. by intros ->. Qed.

(** Stripping a text without whitespace, padded with whitespace on both
    sides, gives the text back. *)
Lemma py_strip_pad w1 l w2 :
  Forall (fun c => py_isspace c = true) w1 -> Forall (fun c => py_isspace c = true) w2 ->
  Forall (fun c => py_isspace c = false) l ->
  py_strip (String.string_of_list_ascii (w1 ++ l ++ w2)) = String.string_of_list_ascii l.
Proof.
  intros H1 H2 Hl. unfold py_strip. rewrite String.list_ascii_of_string_of_list_ascii.
  rewrite drop_while_app_l by done. destruct l as [|c l'].
  - simpl. by rewrite (drop_while_all _ w2 H2).
  - inversion Hl as [|? ? Hc Hl']; subst. cbn [app drop_while]. rewrite Hc.
    change (c :: l' ++ w2) with ((c :: l') ++ w2).
    rewrite rev_app_distr, drop_while_app_l by by apply Forall_rev.
    rewrite drop_while_keep by (apply Forall_rev; by constructor). by rewrite rev_involutive.
Qed.

(** ** Decimal text of integers

    [pretty] (stdpp) writes an integer in decimal without leading zeros,
    with a leading [-] when it is negative: it is Python's [str] on an
    [int]. *)

Definition digit_char (c : ascii) : Prop := exists d, (d < 10)%N /\ c = pretty_N_char d.

Lemma digit_char_facts c : digit_char c ->
  (exists d, digit_val c = Some (Z.of_N d) /\ (d < 10)%N /\ c = pretty_N_char d) /\
  py_isspace c = false /\ Ascii.eqb c "_" = false /\ Ascii.eqb c "-" = false /\ Ascii.eqb c "+" = false.
Proof.
  intros (d & Hd & ->). split; [exists d; split; [|done]|].
  all: assert (d = 0 \/ d = 1 \/ d = 2 \/ d = 3 \/ d = 4 \/ d = 5 \/ d = 6 \/ d = 7 \/ d = 8 \/ d = 9)%N
    as Hcases by lia.
  all: by repeat destruct Hcases as [->|Hcases]; subst.
Qed.

Lemma pretty_N_go_digits x s :
  Forall digit_char (String.list_ascii_of_string s) ->
  Forall digit_char (String.list_ascii_of_string (pretty_N_go x s)).
Proof.
  revert s. induction (N.lt_wf_0 x) as [x _ IH]; intros s Hs.
  destruct (decide (x = 0%N)) as [->|Hx]; [by rewrite pretty_N_go_0|].
  rewrite pretty_N_go_step by lia. apply IH; [apply N.div_lt; lia|].
  constructor; [|done]. exists (x `mod` 10)%N. split; [apply N.mod_lt; lia|done].
Qed.

Lemma parse_digits_digit c v acc cs :
  digit_char c -> digit_val c = Some v -> parse_digits acc (c :: cs) = parse_digits (10 * acc + v)%Z cs.
Proof. intros Hc Hv. destruct (digit_char_facts c Hc) as (_ & _ & Hu & _). simpl. by rewrite Hu, Hv. Qed.

(** Reading the digits [pretty_N_go] writes in front of [s] shifts the
    value read so far and adds [x]. *)
Lemma parse_pretty_N_go x s acc :
  exists k, parse_digits acc (String.list_ascii_of_string (pretty_N_go x s)) =
            parse_digits (acc * 10 ^ Z.of_nat k + Z.of_N x)%Z (String.list_ascii_of_string s).
Proof.
  revert s acc. induction (N.lt_wf_0 x) as [x _ IH]; intros s acc.
  destruct (decide (x = 0%N)) as [->|Hx].
  { exists 0. rewrite pretty_N_go_0. f_equal. lia. }
  rewrite pretty_N_go_step by lia.
  destruct (IH (x `div` 10)%N ltac:(apply N.div_lt; lia) (String (pretty_N_char (x `mod` 10)) s) acc)
    as [k ->].
  exists (S k). cbn [String.list_ascii_of_string].
  assert (Hc : digit_char (pretty_N_char (x `mod` 10))) by (eexists; split; [apply N.mod_lt; lia|done]).
  destruct (digit_char_facts _ Hc) as ((d & Hv & Hd & Heq) & _).
  apply pretty_N_char_inj in Heq; [|apply N.mod_lt; lia|done]. subst d.
  rewrite (parse_digits_digit _ _ _ _ Hc Hv). f_equal.
  rewrite Nat2Z.inj_succ, Z.pow_succ_r by lia.
  rewrite (N.div_mod x 10) at 3 by lia. rewrite N2Z.inj_add, N2Z.inj_mul. ring.
Qed.

Lemma parse_unsigned_pretty x :
  x <> 0%N -> parse_unsigned (String.list_ascii_of_string (pretty_N_go x "")) = Some (Z.of_N x).
Proof.
  intros Hx. destruct (parse_pretty_N_go x "" 0) as [k Hk]. simpl in Hk.
  pose proof (pretty_N_go_digits x "" (List.Forall_nil _)) as Hd.
  destruct (String.list_ascii_of_string (pretty_N_go x "")) as [|c cs]; [simplify_eq/=; lia|].
  inversion Hd as [|? ? Hc _]; subst.
  destruct (digit_char_facts c Hc) as ((d & Hv & _) & _).
  rewrite (parse_digits_digit _ _ _ _ Hc Hv) in Hk.
  rewrite Z.mul_0_r, !Z.mul_0_l, !Z.add_0_l in Hk. simpl. rewrite Hv. simpl. by rewrite Hk.
Qed.

Lemma pretty_Z_shape (z : Z) :
  (z = 0%Z /\ String.list_ascii_of_string (pretty z) = ["0"%char]) \/
  (exists x, x <> 0%N /\
     (String.list_ascii_of_string (pretty z) = String.list_ascii_of_string (pretty_N_go x "") /\ z = Z.of_N x \/
      String.list_ascii_of_string (pretty z) = "-"%char :: String.list_ascii_of_string (pretty_N_go x "") /\
      z = (- Z.of_N x)%Z)).
Proof.
  destruct z as [|p|p]; [by left|right..]; exists (N.pos p); (split; [done|]); [left|right]; done.
Qed.

Lemma pretty_Z_nonspace (z : Z) : Forall (fun c => py_isspace c = false) (String.list_ascii_of_string (pretty z)).
Proof.
  assert (Hn : forall x, Forall (fun c => py_isspace c = false) (String.list_ascii_of_string (pretty_N_go x ""))).
  { intros x. eapply Forall_impl; [apply (pretty_N_go_digits x ""), List.Forall_nil|].
    intros c Hc. apply (digit_char_facts c Hc). }
  destruct (pretty_Z_shape z) as [[_ ->]|(x & _ & [[-> _]|[-> _]])]; repeat constructor; auto.
Qed.

(** ** The status register *)

(** The register value the table describes: the sum of the weights of
    the bits reported set. *)
Definition esr_value (bs : list bool) : Z :=
  foldr (fun (wb : Z * bool) acc => let '(w, b) := wb in (if b then w else 0) + acc)%Z 0%Z
    (zip bit_weights bs).

Definition esr_testbits (r : Z) : list bool := map (fun i => Z.testbit r (Z.of_nat (7 - i))) (seq 0 8).

Lemma land_255 r : Z.land r 255 = (r mod 256)%Z.
Proof. change 255%Z with (Z.ones 8). by rewrite Z.land_ones by lia. Qed.

Lemma esr_bit_states_land r : esr_bit_states r = esr_bit_states (Z.land r 255).
Proof. unfold esr_bit_states. cbn. by rewrite <- !Z.land_assoc. Qed.

Lemma esr_testbits_land r : esr_testbits r = esr_testbits (Z.land r 255).
Proof.
  unfold esr_testbits. rewrite land_255. apply map_ext_in. intros i Hi%in_seq.
  change 256%Z with (2 ^ 8)%Z. rewrite Z.mod_pow2_bits_low; [done|lia].
Qed.

(** The 256 register values, checked by evaluation. *)
Lemma esr_table_check :
  forallb (fun r => (esr_value (esr_bit_states r) =? r)%Z &&
                    bool_decide (esr_bit_states r = esr_testbits r))
          (map Z.of_nat (seq 0 256)) = true.
Proof. vm_compute. reflexivity. Qed.

Lemma esr_byte r : (0 <= r < 256)%Z ->
  esr_value (esr_bit_states r) = r /\ esr_bit_states r = esr_testbits r.
Proof.
  intros Hr. pose proof esr_table_check as Hc. rewrite forallb_forall in Hc.
  specialize (Hc r). rewrite andb_true_iff, Z.eqb_eq, bool_decide_eq_true in Hc. apply Hc.
  apply in_map_iff. exists (Z.to_nat r). split; [lia|]. apply in_seq. lia.
Qed.

(** The bits [Rigol_ESR] reports are the eight low bits of the response,
    most significant first. *)
Lemma esr_bit_states_testbit r : esr_bit_states r = esr_testbits r.
Proof.
  rewrite esr_bit_states_land, esr_testbits_land. apply esr_byte.
  rewrite land_255. apply Z.mod_pos_bound. lia.
Qed.

(** ** The polling loop of [wait_ready] *)

(** Unfold the console monad on a scripted instrument. *)
Ltac console_step := cbv [py_bind on_dev py_print py_modify py_ret msg_query msg_write
  Scripted_VisaMessage sc_query sc_write con_dev con_out sc_replies sc_busy sc_log].

Section WaitReady.
Implicit Types (log out : list string) (b : option string).

Lemma wait_ready_loop_S fuel ready c :
  ready <> "1" ->
  wait_ready_loop (S fuel) ready c =
  (r <- on_dev (msg_query "*OPC?") ;; py_print (not_ready_msg (py_strip r)) ;;;
   wait_ready_loop fuel (py_strip r))%py c.
Proof. intros Hr%String.eqb_neq. simpl. by rewrite Hr. Qed.

Lemma wait_ready_loop_spec ms one rest b log out fuel ready :
  Forall (fun r => py_strip r <> "1") ms -> py_strip one = "1" ->
  length ms < fuel -> ready <> "1" ->
  wait_ready_loop fuel ready (mkConsole (mkScripted (ms ++ one :: rest) b log) out) =
  (mkConsole (mkScripted rest b (log ++ replicate (S (length ms)) "*OPC?"))
     (out ++ map (fun r => not_ready_msg (py_strip r)) (ms ++ [one])), inr true).
Proof.
  intros Hms Hone. revert fuel ready log out.
  induction Hms as [|m ms Hm Hms IH]; intros [|fuel] ready log out Hf Hr; simpl in Hf; try lia;
    rewrite wait_ready_loop_S by done; console_step; simpl.
  - rewrite Hone. destruct fuel; simpl; done.
  - rewrite IH by (done || lia). by rewrite <- !app_assoc.
Qed.

Lemma wait_ready_loop_ready fuel c : wait_ready_loop (R:=Scripted) fuel "1" c = (c, inr true).
Proof. by destruct fuel. Qed.

Lemma wait_ready_loop_busy fuel ready busy log out :
  ready <> "1" -> py_strip busy <> "1" ->
  wait_ready_loop fuel ready (mkConsole (mkScripted [] (Some busy) log) out) =
  (mkConsole (mkScripted [] (Some busy) (log ++ replicate fuel "*OPC?"))
     (out ++ replicate fuel (not_ready_msg (py_strip busy))), inr false).
Proof.
  intros Hr Hb. revert ready log out Hr. induction fuel as [|fuel IH]; intros ready log out Hr.
  - apply String.eqb_neq in Hr. simpl. rewrite Hr. by rewrite !app_nil_r.
  - rewrite wait_ready_loop_S by done. console_step. simpl.
    rewrite IH by done. by rewrite <- !app_assoc.
Qed.

Lemma digits_sign_dispatch x :
  x <> 0%N ->
  match String.list_ascii_of_string (pretty_N_go x "") with
  | c :: cs =>
      if Ascii.eqb c "-" then Z.opp <$> parse_unsigned cs
      else if Ascii.eqb c "+" then parse_unsigned cs
      else parse_unsigned (c :: cs)
  | [] => None
  end = Some (Z.of_N x).
Proof.
  intros Hx. pose proof (pretty_N_go_digits x "" (List.Forall_nil _)) as Hd.
  pose proof (parse_unsigned_pretty x Hx) as Hp.
  destruct (String.list_ascii_of_string (pretty_N_go x "")) as [|c cs]; [done|].
  inversion Hd as [|? ? Hc _]; subst. destruct (digit_char_facts c Hc) as (_ & _ & _ & -> & ->).
  exact Hp.
Qed.

End WaitReady.

(** ** Theorems *)

(** The model of Python's [int] reads back what [str] writes: for every
    integer [z], the decimal text of [z] with any ASCII whitespace around
    it parses to [z]; so the hypothesis [py_int reply = Some r] of the
    [Rigol_ESR] theorems holds for every register value an instrument
    prints. *)
Lemma py_int_str (z : Z) w1 w2 :
  Forall (fun c => py_isspace c = true) w1 -> Forall (fun c => py_isspace c = true) w2 ->
  py_int (String.string_of_list_ascii (w1 ++ String.list_ascii_of_string (pretty z) ++ w2)) = Some z.
Proof.
  intros H1 H2. unfold py_int. rewrite py_strip_pad by (done || apply pretty_Z_nonspace).
  rewrite String.list_ascii_of_string_of_list_ascii.
  destruct (pretty_Z_shape z) as [[-> ->]|(x & Hx & [[-> ->]|[-> ->]])]; [done| |].
  - by apply digits_sign_dispatch.
  - cbn [Ascii.eqb Bool.eqb]. by rewrite parse_unsigned_pretty.
Qed.

(** C20: the table of [Rigol_ESR] reads the register bit by bit, most
    significant first: for every integer response (negative ones too, as
    Python's [&] on unbounded ints), row [i] of the table (named
    [bit_names !! i]) reports bit [7 - i] of the response; and conversely
    any eight states, written as the byte whose bit [7 - i] is state [i],
    are read back in the same order.  The weights of line 382 must
    therefore be exactly the powers of two from 128 down to 1. *)
Theorem esr_bits_roundtrip r b0 b1 b2 b3 b4 b5 b6 b7 :
  esr_bit_states r = map (fun i => Z.testbit r (Z.of_nat (7 - i))) (seq 0 8) /\
  esr_bit_states (Z.b2z b0 * 128 + Z.b2z b1 * 64 + Z.b2z b2 * 32 + Z.b2z b3 * 16 +
                  Z.b2z b4 * 8 + Z.b2z b5 * 4 + Z.b2z b6 * 2 + Z.b2z b7)%Z =
    [b0; b1; b2; b3; b4; b5; b6; b7].
Proof.
  split; [apply esr_bit_states_testbit|].
  by destruct b0, b1, b2, b3, b4, b5, b6, b7.
Qed.

(** C21: on an instrument that answers the decimal value [r] to
    [*ESR?] and [err] to [:SYSTem:ERRor?], [Rigol_ESR] sends the two
    queries and then [*CLS], in this order, and prints the header, the
    separator, one line per bit of the low byte of [r] from bit 7 (PON)
    down to bit 0 (OPC), with [True] exactly for the bits set, and the
    error text. *)
Theorem Rigol_ESR_report reply err rest b log out r :
  py_int reply = Some r ->
  Rigol_ESR (mkConsole (mkScripted (reply :: err :: rest) b log) out) =
  (mkConsole (mkScripted rest b (log ++ ["*ESR?"; ":SYSTem:ERRor?"; "*CLS"]))
     (out ++ [esr_header; str_repeat 60 "-"] ++
      map esr_line (zip bit_names (zip bit_long_names (esr_testbits r))) ++
      ["Error Text: " +:+ err]), inr tt).
Proof.
  intros Hr. pose proof (esr_bit_states_testbit r) as E.
  unfold esr_bit_states, esr_testbits in *. simpl in E. injection E as E0 E1 E2 E3 E4 E5 E6 E7.
  unfold Rigol_ESR. console_step. simpl. rewrite Hr. simpl.
  rewrite E0, E1, E2, E3, E4, E5, E6, E7. by rewrite <- !app_assoc.
Qed.

(** C22: when the reply to [*ESR?] is not an integer, [int()] raises
    [ValueError] at line 379: nothing is printed, the error queue is not
    read and the status is not cleared. *)
Theorem Rigol_ESR_bad_reply reply rest b log out :
  py_int reply = None ->
  Rigol_ESR (mkConsole (mkScripted (reply :: rest) b log) out) =
  (mkConsole (mkScripted rest b (log ++ ["*ESR?"])) out, inl ValueError).
Proof. intros Hr. unfold Rigol_ESR. console_step. simpl. by rewrite Hr. Qed.

(** C23: [wait_ready] terminates as soon as the instrument answers [1]
    to [*OPC?]: with replies [ns] that are not [1] before it, the loop
    runs [length ns] times, sends [*WAI] and [length ns + 1] queries, and
    prints one "not ready" line per turn, the last one for the reply [1]
    itself, which line 374 prints after the assignment that ends the
    loop. *)
Theorem wait_ready_terminates ns one rest b log out fuel :
  Forall (fun r => py_strip r <> "1") ns -> py_strip one = "1" -> length ns <= fuel ->
  wait_ready fuel (mkConsole (mkScripted (ns ++ one :: rest) b log) out) =
  (mkConsole (mkScripted rest b (log ++ "*WAI" :: replicate (S (length ns)) "*OPC?"))
     (out ++ map (fun r => not_ready_msg (py_strip r)) (drop 1 (ns ++ [one]))), inr true).
Proof.
  intros Hns Hone Hf. unfold wait_ready.
  destruct Hns as [|n0 ms Hn0 Hms]; console_step; simpl.
  - rewrite Hone, wait_ready_loop_ready. by rewrite app_nil_r, <- app_assoc.
  - simpl in Hf. rewrite wait_ready_loop_spec by (done || lia). by rewrite <- !app_assoc.
Qed.

(** C24: [wait_ready] never returns when the instrument keeps answering
    something other than [1]: after any number [fuel] of turns the loop
    is still running, having sent [fuel + 1] queries and printed [fuel]
    lines. *)
Theorem wait_ready_never_ready busy log out fuel :
  py_strip busy <> "1" ->
  wait_ready fuel (mkConsole (mkScripted [] (Some busy) log) out) =
  (mkConsole (mkScripted [] (Some busy) (log ++ "*WAI" :: "*OPC?" :: replicate fuel "*OPC?"))
     (out ++ replicate fuel (not_ready_msg (py_strip busy))), inr false).
Proof.
  intros Hb. unfold wait_ready. console_step. simpl.
  rewrite wait_ready_loop_busy by done. by rewrite <- !app_assoc.
Qed.

(** ** Witnesses *)

Lemma Rigol_ESR_report_witness :
  py_int "33" = Some 33%Z /\
  Rigol_ESR (mkConsole (mkScripted ["33"; "0,No error"] None []) []) =
  (mkConsole (mkScripted [] None ["*ESR?"; ":SYSTem:ERRor?"; "*CLS"])
     ([esr_header; str_repeat 60 "-"] ++
      map esr_line (zip bit_names (zip bit_long_names [false; false; true; false; false; false; false; true])) ++
      ["Error Text: 0,No error"]), inr tt).
Proof. split; [reflexivity|]. exact (Rigol_ESR_report "33" "0,No error" [] None [] [] 33%Z eq_refl). Defined.

Lemma Rigol_ESR_bad_reply_witness :
  py_int "ESR" = None /\
  Rigol_ESR (mkConsole (mkScripted ["ESR"] None []) []) =
  (mkConsole (mkScripted [] None ["*ESR?"]) [], inl ValueError).
Proof. split; [reflexivity|]. apply Rigol_ESR_bad_reply. reflexivity. Defined.

Lemma wait_ready_terminates_witness :
  wait_ready 5 (mkConsole (mkScripted ["0"; "0
"; " 1"] None []) []) =
  (mkConsole (mkScripted [] None ["*WAI"; "*OPC?"; "*OPC?"; "*OPC?"]) [not_ready_msg "0"; not_ready_msg "1"],
   inr true).
Proof.
  apply (wait_ready_terminates ["0"; "0
"] " 1" [] None [] [] 5); [repeat constructor; discriminate|reflexivity|simpl; lia].
Defined.

Lemma wait_ready_never_ready_witness :
  wait_ready 2 (mkConsole (mkScripted [] (Some "0") []) []) =
  (mkConsole (mkScripted [] (Some "0") ["*WAI"; "*OPC?"; "*OPC?"; "*OPC?"])
     [not_ready_msg "0"; not_ready_msg "0"], inr false).
Proof. apply (wait_ready_never_ready "0" [] [] 2). discriminate. Defined.
